(** * Frame indexing, topic organisation and icon geometry of edc-web

    A shallow embedding of the three utility scripts of the repository:
    - [kb-tools/build_nocodebackend_knowledge.py]  (module [Frames]),
    - [kb-tools/intelligent_kb_builder.py]         (module [Builder]),
    - [scripts/generate_pwa_icons.py]              (module [Icons]),
    together with the small part of Python's runtime they rely on
    (pathlib paths, [sorted], exceptions, a filesystem and a clock). *)

From Stdlib Require Import ZArith List String Ascii Lia OrdersEx Permutation Sorted.
From Stdlib Require Import QArith Qround Qabs.
From Stdlib Require Import Floats.
From stdpp Require Import gmap strings list sorting pretty.

Set Warnings "-register-all,-inexact-float".

Local Open Scope Z_scope.
Local Open Scope string_scope.
Local Open Scope list_scope.

(** ** Lexicographic comparison

    Python compares sequences (and [pathlib] compares paths, through their
    tuple of parts) lexicographically; a proper prefix is smaller. *)

Section Lex.
Context {A : Type} (cmp : A → A → comparison).

Fixpoint lex_compare (l1 l2 : list A) : comparison :=
  match l1, l2 with
  | [], [] => Eq
  | [], _ :: _ => Lt
  | _ :: _, [] => Gt
  | x :: l1', y :: l2' =>
      match cmp x y with
      | Eq => lex_compare l1' l2'
      | c => c
      end
  end.

End Lex.

(** ** pathlib

    A path is its tuple of parts, as [PurePath.parts] has it: an absolute
    path starts with the part ["/"].  [p / name] appends one part; the
    names joined in the scripts are single components. *)

Module PathLib.

Abbreviation Path := (list string).

Definition joinpath (p : Path) (name : string) : Path := p ++ [name].

(** [p.name]: the final component, or the empty string. *)
Definition name (p : Path) : string := List.last p EmptyString.

(** [p.parent] *)
Definition parent (p : Path) : Path := removelast p.

Definition sep : string := "/".

Fixpoint join (parts : list string) : string :=
  match parts with
  | [] => EmptyString
  | [x] => x
  | x :: rest => x ++ sep ++ join rest
  end.

(** [str(p)] *)
Definition str (p : Path) : string :=
  match p with
  | [] => "."
  | root :: rest =>
      if String.eqb root sep then sep ++ join rest else join p
  end.

(** The components of a path string: the text between separators. *)
Fixpoint split_sep (s cur : string) : list string :=
  match s with
  | EmptyString => [cur]
  | String c s' =>
      if Ascii.eqb c "/" then cur :: split_sep s' EmptyString
      else split_sep s' (cur +:+ String c EmptyString)
  end.

Definition is_component (c : string) : bool :=
  negb (String.eqb c EmptyString) && negb (String.eqb c ".").

Definition is_absolute (s : string) : bool :=
  match s with String c _ => Ascii.eqb c "/" | EmptyString => false end.

(** [Path(s)]: empty and [.] components are dropped.  (POSIX's separate
    root for exactly two leading slashes is not distinguished.) *)
Definition of_string (s : string) : Path :=
  let parts := List.filter is_component (split_sep s EmptyString) in
  if is_absolute s then sep :: parts else parts.

(** [p / s] for an arbitrary string: an absolute [s] replaces [p]. *)
Definition joinpath_str (p : Path) (s : string) : Path :=
  if is_absolute s then of_string s else p ++ of_string s.

(** Text after the last separator: what [Path(s).name] returns for a
    string [s] that was produced by [str]. *)
Fixpoint basename_aux (s acc : string) : string :=
  match s with
  | EmptyString => acc
  | String c s' =>
      if Ascii.eqb c "/" then basename_aux s' EmptyString
      else basename_aux s' (acc ++ String c EmptyString)
  end.

Definition str_name (s : string) : string := basename_aux s EmptyString.

(** [fnmatch(name, "*.png")] on a POSIX system: the name ends in [.png]. *)
Fixpoint ends_with (suffix s : string) : bool :=
  if String.eqb s suffix then true
  else match s with
       | EmptyString => false
       | String _ s' => ends_with suffix s'
       end.

Definition is_png (n : string) : bool := ends_with ".png" n.

(** The order of [PurePath.__lt__]: parts compared as a tuple of
    strings, strings compared by code unit. *)
Definition compare (p q : Path) : comparison :=
  lex_compare String_as_OT.compare p q.

Definition le (p q : Path) : Prop := compare p q ≠ Gt.

Global Instance le_dec p q : Decision (le p q).
Proof. unfold le. destruct (compare p q); [left|left|right]; congruence. Defined.

End PathLib.

Import PathLib.

(** ** Built-ins *)

Module Py.

(** [len(l)] *)
Definition len {A} (l : list A) : Z := Z.of_nat (length l).

(** [sum(...)] over integers *)
Definition sum (l : list Z) : Z := fold_left Z.add l 0.

(** [sorted(paths)].  The built-in is a stable merge sort driven by the
    element order; on paths that order is total and antisymmetric, so
    the result does not depend on the algorithm. *)
Definition sorted (l : list Path) : list Path := merge_sort PathLib.le l.

(** [str(n)] for an integer *)
Definition str_int (n : Z) : string := pretty n.

End Py.

(** ** Pictures

    Only the geometry of a picture is followed: its size and, for a
    composite, where the second layer lies on the first. *)

Module Picture.
Record image := { width : Z; height : Z }.

(** A canvas with a logo pasted on it at an offset. *)
Record composite := {
  canvas : image;
  logo : image;
  logo_x : Z;
  logo_y : Z;
}.
End Picture.

(** ** Runtime: exceptions, files, standard output, clock, processes *)

Module Runtime.

(** [SystemExit] is raised by [sys.exit]; it is not an [Exception], so
    [except Exception] lets it through.  Every other exception the
    scripts can meet is an [Exception] with a class name and a message. *)
Inductive exn :=
| SystemExit (code : Z)
| Error (cls msg : string).

Definition is_Exception (e : exn) : bool :=
  match e with SystemExit _ => false | Error _ _ => true end.

(** [str(e)] *)
Definition exn_str (e : exn) : string :=
  match e with SystemExit c => Py.str_int c | Error _ msg => msg end.

Inductive result (A : Type) :=
| Ok (a : A)
| Raise (e : exn).
Global Arguments Ok {A} a.
Global Arguments Raise {A} e.

(** A JSON document, as [json.dump] receives it; objects keep the
    insertion order of the dict they come from. *)
Inductive json :=
| JInt (n : Z)
| JStr (s : string)
| JList (l : list json)
| JDict (d : list (string * json)).

Definition keys (j : json) : list string :=
  match j with JDict d => map fst d | _ => [] end.

Fixpoint assoc {V} (k : string) (d : list (string * V)) : option V :=
  match d with
  | [] => None
  | (k', v) :: d' => if String.eqb k k' then Some v else assoc k d'
  end.

(** [j[k]] on an object *)
Definition getitem (k : string) (j : json) : option json :=
  match j with JDict d => assoc k d | _ => None end.

Inductive content :=
| JsonDoc (v : json)
| TextDoc (s : string)
| PngDoc (p : Picture.composite).

Inductive node :=
| Dir
| File (c : content).

(** What the scripts read: a snapshot of the directory tree, each
    directory with its entries in the order the operating system
    enumerates them.  The files the scripts write are [.json] and [.md]
    files, which no [glob("*.png")] lists; a directory they make can show
    in a later listing, and [made] below is the snapshot that has it. *)
Inductive tree :=
| TFile
| TDir (entries : list (string * tree)).

Record proc := { returncode : Z; stderr : string }.

(** The environment of a run.  [root] is the tree below [/] and [cwd] the
    working directory, an absolute path: a path whose first part is not
    ["/"] continues it.  [placement] is where, among the names a directory
    lists already, the system enumerates an entry that is added. *)
Record env := {
  home : Path;                                   (* Path.home() *)
  root : tree;
  cwd : Path;                                    (* os.getcwd() *)
  placement : list string → string → nat;
  strftime : nat → string;                       (* "%Y-%m-%d %H:%M:%S" at a tick *)
  isoformat : nat → string;                      (* isoformat() at a tick *)
  subprocess_run : list string → result proc;    (* subprocess.run(cmd, ...) *)
}.

(** What the scripts change: files and directories written, lines
    printed, and the number of times the clock was read.  An entry is
    kept under the path as the script writes it; two ways of writing one
    place are told apart, so what is said of several paths at once is
    said of [plain] ones. *)
Record world := {
  fs : gmap Path node;
  stdout : list string;
  clock : nat;
}.

Definition M (A : Type) : Type := world → result A * world.

Definition ret {A} (a : A) : M A := λ w, (Ok a, w).

Definition bind {A B} (m : M A) (k : A → M B) : M B :=
  λ w, match m w with
       | (Ok a, w') => k a w'
       | (Raise e, w') => (Raise e, w')
       end.

Definition raise {A} (e : exn) : M A := λ w, (Raise e, w).

(** [try: m  except Exception as e: h e] *)
Definition try_except {A} (m : M A) (h : exn → M A) : M A :=
  λ w, match m w with
       | (Raise e, w') => if is_Exception e then h e w' else (Raise e, w')
       | r => r
       end.

(** [for x in l: body x] *)
Fixpoint for_each {A} (l : list A) (body : A → M unit) : M unit :=
  match l with
  | [] => ret tt
  | x :: l' => bind (body x) (λ _, for_each l' body)
  end.

(** [sys.exit(code)] *)
Definition sys_exit {A} (code : Z) : M A := raise (SystemExit code).

(** The status the interpreter hands to the operating system. *)
Definition exit_status {A} (r : result A) : Z :=
  match r with
  | Ok _ => 0
  | Raise (SystemExit c) => c
  | Raise (Error _ _) => 1
  end.

(** *** Tree snapshot *)

(** The entry at a place of the tree, a place being the names of the
    entries from the root down.  A path is turned into a place by
    [canonical] below, which follows its steps back. *)
Fixpoint resolve (t : tree) (p : Path) : option tree :=
  match p with
  | [] => Some t
  | c :: p' =>
      match t with
      | TDir es => match assoc c es with
                   | Some t' => resolve t' p'
                   | None => None
                   end
      | TFile => None
      end
  end.

(** A path starts at the root. *)
Definition anchored (p : Path) : bool :=
  match p with
  | r :: _ => String.eqb r PathLib.sep
  | [] => false
  end.

(** The parts of a path counted from the root: a relative path continues
    the working directory. *)
Definition from_root (E : env) (p : Path) : list string :=
  match (if anchored p then p else cwd E ++ p) with
  | r :: rest => if String.eqb r PathLib.sep then rest else r :: rest
  | [] => []
  end.

(** The place the system reaches along [p] from the place [cur]: a part
    [..] leads to the parent (the root is its own parent), any other part
    one level down; whatever is passed through has to be a directory,
    the last part need not exist. *)
Fixpoint canonical_from (t : tree) (cur p : list string) : option (list string) :=
  match p with
  | [] => Some cur
  | c :: p' =>
      match resolve t cur with
      | Some (TDir _) =>
          canonical_from t (if String.eqb c ".." then removelast cur else cur ++ [c]) p'
      | _ => None
      end
  end.

Definition canonical (E : env) (p : Path) : option (list string) :=
  canonical_from (root E) [] (from_root E p).

Definition locate (E : env) (p : Path) : option tree :=
  match canonical E p with
  | Some q => resolve (root E) q
  | None => None
  end.

(** [p.exists()] *)
Definition path_exists (E : env) (p : Path) : bool :=
  match locate E p with Some _ => true | None => false end.

(** [p.is_dir()] *)
Definition path_is_dir (E : env) (p : Path) : bool :=
  match locate E p with Some (TDir _) => true | _ => false end.

(** [p.iterdir()] *)
Definition iterdir (E : env) (p : Path) : result (list Path) :=
  match locate E p with
  | Some (TDir es) => Ok (map (λ e, joinpath p (fst e)) es)
  | Some TFile => Raise (Error "NotADirectoryError" (PathLib.str p))
  | None => Raise (Error "FileNotFoundError" (PathLib.str p))
  end.

(** [p.glob("*.png")], in enumeration order; nothing when [p] is not a
    directory. *)
Definition glob_png (E : env) (p : Path) : list Path :=
  match locate E p with
  | Some (TDir es) => map (joinpath p) (List.filter is_png (map fst es))
  | _ => []
  end.

(** *** Clock and standard output *)

Definition tick : M nat :=
  λ w, (Ok (clock w), {| fs := fs w; stdout := stdout w; clock := S (clock w) |}).

Definition print (line : string) : M unit :=
  λ w, (Ok tt, {| fs := fs w; stdout := stdout w ++ [line]; clock := clock w |}).

(** *** Files *)

Definition is_root (p : Path) : bool :=
  match p with
  | [] => true
  | [r] => String.eqb r PathLib.sep
  | _ => false
  end.

Definition dir_exists (s : gmap Path node) (p : Path) : bool :=
  is_root p || match s !! p with Some Dir => true | _ => false end.

Definition os_error {A} (p : Path) : M A := raise (Error "OSError" (PathLib.str p)).

Definition set_fs (s : gmap Path node) (w : world) : world :=
  {| fs := s; stdout := stdout w; clock := clock w |}.

(** [p.mkdir(exist_ok=True)] *)
Definition mkdir (p : Path) : M unit :=
  λ w, if is_root p then (Ok tt, w)
       else match fs w !! p with
            | Some Dir => (Ok tt, w)
            | Some (File _) => os_error p w
            | None => if dir_exists (fs w) (parent p)
                      then (Ok tt, set_fs (<[p := Dir]> (fs w)) w)
                      else os_error p w
            end.

(** The prefixes of a path, shortest first. *)
Fixpoint prefixes_from (base p : Path) : list Path :=
  match p with
  | [] => []
  | c :: p' => (base ++ [c]) :: prefixes_from (base ++ [c]) p'
  end.

(** [p.mkdir(parents=True, exist_ok=True)] *)
Definition mkdir_parents (p : Path) : M unit :=
  for_each (prefixes_from [] p) mkdir.

(** *** The snapshot once a directory is made

    What the scripts read after they made a directory. *)

Definition insert_at {A} (n : nat) (x : A) (l : list A) : list A :=
  take n l ++ x :: drop n l.

(** The entries of a directory with [f] applied to the first one named [c]. *)
Fixpoint update_entry (c : string) (f : tree → tree) (es : list (string * tree))
  : list (string * tree) :=
  match es with
  | [] => []
  | (c', t) :: es' =>
      if String.eqb c c' then (c', f t) :: es' else (c', t) :: update_entry c f es'
  end.

(** An empty directory at the place [q], where its parent is a directory
    that has no entry of that name yet. *)
Fixpoint make_dir (slot : list string → string → nat) (q : list string) (t : tree)
  : tree :=
  match q, t with
  | [], _ => t
  | _, TFile => t
  | [c], TDir es =>
      match assoc c es with
      | Some _ => t
      | None => TDir (insert_at (slot (map fst es) c) (c, TDir []) es)
      end
  | c :: q', TDir es => TDir (update_entry c (make_dir slot q') es)
  end.

(** The environment after [p.mkdir(exist_ok=True)] has returned. *)
Definition made (E : env) (p : Path) : env :=
  match canonical E p with
  | Some q =>
      {| home := home E;
         root := make_dir (placement E) q (root E);
         cwd := cwd E;
         placement := placement E;
         strftime := strftime E;
         isoformat := isoformat E;
         subprocess_run := subprocess_run E |}
  | None => E
  end.

(** ... and after [p.mkdir(parents=True, exist_ok=True)] has. *)
Definition made_parents (E : env) (p : Path) : env :=
  fold_left made (prefixes_from [] p) E.

Definition not_dir (s : gmap Path node) (p : Path) : bool :=
  match s !! p with Some Dir => false | _ => true end.

(** A file can be written at [p]: the parent is a directory and [p]
    itself is not one. *)
Definition writable (s : gmap Path node) (p : Path) : bool :=
  dir_exists s (parent p) && not_dir s p.

(** [open(p, 'w')] followed by writing [c], and [p.write_text(c)] *)
Definition write_file (p : Path) (c : content) : M unit :=
  λ w, if writable (fs w) p
       then (Ok tt, set_fs (<[p := File c]> (fs w)) w)
       else os_error p w.

End Runtime.

Import Runtime.

Global Instance M_ret : MRet M := @ret.
Global Instance M_bind : MBind M := λ A B k m, bind m k.

Definition lift {A} (r : result A) : M A := λ w, (r, w).

Notation "p // n" := (joinpath p n) (at level 40, left associativity).
Notation "p /// s" := (joinpath_str p s) (at level 40, left associativity).

(** ** Text helpers shared by the scripts *)

Module Text.

Definition nl : string := String (ascii_of_nat 10) EmptyString.
Definition esc : string := String (ascii_of_nat 27) EmptyString.
Definition dq : string := String (ascii_of_nat 34) EmptyString.

(** [s * n] *)
Fixpoint repeat_str (s : string) (n : nat) : string :=
  match n with
  | O => EmptyString
  | S n' => s +:+ repeat_str s n'
  end.

(** [''.join(chunks)]: the text built by successive [content += chunk] *)
Fixpoint concat_str (chunks : list string) : string :=
  match chunks with
  | [] => EmptyString
  | c :: rest => c +:+ concat_str rest
  end.

(** [enumerate(l, start)] *)
Fixpoint enumerate {A} (start : Z) (l : list A) : list (Z * A) :=
  match l with
  | [] => []
  | x :: l' => (start, x) :: enumerate (start + 1) l'
  end.

(** The [colors.get(level, "")] table of both [log] functions. *)
Definition colors (level : string) : string :=
  if String.eqb level "INFO" then esc +:+ "[0;34m"
  else if String.eqb level "SUCCESS" then esc +:+ "[0;32m"
  else if String.eqb level "WARNING" then esc +:+ "[1;33m"
  else if String.eqb level "ERROR" then esc +:+ "[0;31m"
  else EmptyString.

Definition reset : string := esc +:+ "[0m".

(** The line [log] prints for a message at a timestamp. *)
Definition log_line (timestamp level message : string) : string :=
  colors level +:+ "[" +:+ timestamp +:+ "] [" +:+ level +:+ "]"
    +:+ reset +:+ " " +:+ message.

End Text.

Import Text.

(** ** build_nocodebackend_knowledge.py *)

Module FrameDir.
(** One record of [find_all_frame_directories]. *)
Record t := {
  path : Path;
  name : string;
  frame_count : Z;
  frames : list Path;
}.
End FrameDir.

Module VideoInfo.
(** One entry of the [videos] array of an index. *)
Record t := {
  name : string;
  frame_count : Z;
  directory : string;
  frames : list string;
}.

Definition to_json (v : t) : json :=
  JDict [("name", JStr (name v));
         ("frame_count", JInt (frame_count v));
         ("directory", JStr (directory v));
         ("frames", JList (map JStr (frames v)))].
End VideoInfo.

Module IndexData.
(** The index of [create_knowledge_index]. *)
Record t := {
  created_at : string;
  total_videos : Z;
  total_frames : Z;
  videos : list VideoInfo.t;
}.

Definition to_json (i : t) : json :=
  JDict [("created_at", JStr (created_at i));
         ("total_videos", JInt (total_videos i));
         ("total_frames", JInt (total_frames i));
         ("videos", JList (map VideoInfo.to_json (videos i)))].
End IndexData.

Module Frames.
Section WithEnv.
Context (E : env).

Definition HOME : Path := home E.
Definition NOCODEBACKEND_DIR : Path :=
  HOME // "xtractedyt" // "frames" // "NoCodeBackend".
Definition KNOWLEDGE_BASE_NAME : string := "nocodebackend-tutorials".
Definition KNOWLEDGE_BASE_DIR : Path := NOCODEBACKEND_DIR // "knowledge_base".

Definition log (message level : string) : M unit :=
  t ← tick;
  print (log_line (strftime E t) level message).

Definition info (message : string) : M unit := log message "INFO".

(** The body of the scanning loop: the record appended for [item], if any. *)
Definition scan_item (item : Path) : option FrameDir.t :=
  if path_is_dir E item then
    let png_files := glob_png E item in
    match png_files with
    | [] => None
    | _ :: _ =>
        Some {| FrameDir.path := item;
                FrameDir.name := PathLib.name item;
                FrameDir.frame_count := Py.len png_files;
                FrameDir.frames := Py.sorted png_files |}
    end
  else None.

Definition find_all_frame_directories : M (list FrameDir.t) :=
  if negb (path_exists E NOCODEBACKEND_DIR) then
    log ("NoCodeBackend directory not found: " +:+ PathLib.str NOCODEBACKEND_DIR)
        "ERROR";;
    mret []
  else
    items ← lift (iterdir E NOCODEBACKEND_DIR);
    mret (omap scan_item items).

Definition video_info (video_data : FrameDir.t) : VideoInfo.t :=
  {| VideoInfo.name := FrameDir.name video_data;
     VideoInfo.frame_count := FrameDir.frame_count video_data;
     VideoInfo.directory := PathLib.str (FrameDir.path video_data);
     VideoInfo.frames := map PathLib.str (FrameDir.frames video_data) |}.

(** The index as a function of the scanner's records and the timestamp. *)
Definition knowledge_index (now : string) (frame_dirs : list FrameDir.t)
  : IndexData.t :=
  {| IndexData.created_at := now;
     IndexData.total_videos := Py.len frame_dirs;
     IndexData.total_frames := Py.sum (map FrameDir.frame_count frame_dirs);
     IndexData.videos := map video_info frame_dirs |}.

Definition create_knowledge_index (frame_dirs : list FrameDir.t)
  : M IndexData.t :=
  t ← tick;
  mret (knowledge_index (isoformat E t) frame_dirs).

(** *** The learning guide *)

Definition guide_header (generated : string) (index_data : IndexData.t) : string :=
"# NoCodeBackend Tutorial Learning Guide

**Generated:** " +:+ generated +:+ "
**Total Videos:** " +:+ Py.str_int (IndexData.total_videos index_data) +:+ "
**Total Frames:** " +:+ Py.str_int (IndexData.total_frames index_data) +:+ "

---

## 📚 Tutorial Collection Overview

This knowledge base contains extracted frames and learning materials from a comprehensive NoCodeBackend tutorial series.

### Contents

".

Definition contents_line (entry : Z * VideoInfo.t) : string :=
  Py.str_int (fst entry) +:+ ". **" +:+ VideoInfo.name (snd entry) +:+ "** - "
    +:+ Py.str_int (VideoInfo.frame_count (snd entry)) +:+ " frames" +:+ nl.

Definition guide_middle : string :=
"
---

## 🎯 Frame Analysis

### Frame Distribution

".

(** One line of the sample list: [f"- `{Path(frame).name}`\n"] *)
Definition frame_item (frame : string) : string :=
  "- `" +:+ str_name frame +:+ "`" +:+ nl.

(** [f"- ... and {video['frame_count'] - 5} more frames\n"] *)
Definition more_line (remaining : Z) : string :=
  "- ... and " +:+ Py.str_int remaining +:+ " more frames" +:+ nl.

Definition section_head (video : VideoInfo.t) : list string :=
  [ "#### " +:+ VideoInfo.name video +:+ nl +:+ nl;
    "- **Frames:** " +:+ Py.str_int (VideoInfo.frame_count video) +:+ nl;
    "- **Directory:** `" +:+ VideoInfo.directory video +:+ "`" +:+ nl +:+ nl;
    "Sample frames:" +:+ nl ].

(** The chunks appended to [content] by one turn of the second loop. *)
Definition video_section (video : VideoInfo.t) : list string :=
  let sample_frames := take 5 (VideoInfo.frames video) in
  section_head video
    ++ map frame_item sample_frames
    ++ (if (5 <? VideoInfo.frame_count video)%Z
        then [more_line (VideoInfo.frame_count video - 5)]
        else [])
    ++ [nl].

Definition guide_footer : string :=
"
---

## 🔍 How to Use This Knowledge Base

### Manual Frame Analysis

To analyze individual frames with Claude:

1. Navigate to a frame directory
2. Open frames in sequence
3. Document key concepts, code snippets, and UI elements
4. Build your understanding progressively

### Memvid Search (If Available)

If memvid is installed and configured:

```bash
# Search for specific topics
memvid search " +:+ dq +:+ "authentication setup" +:+ dq +:+ " nocodebackend-tutorials

# Search for UI components
memvid search " +:+ dq +:+ "database schema" +:+ dq +:+ " nocodebackend-tutorials

# Search for code patterns
memvid search " +:+ dq +:+ "API endpoints" +:+ dq +:+ " nocodebackend-tutorials
```

### Building Projects

Use the extracted frames as reference to:

1. **Understand Architecture** - See how NoCodeBackend projects are structured
2. **Learn Patterns** - Identify common design patterns and best practices
3. **Copy Configurations** - Reference setup and configuration steps
4. **Debug Issues** - Compare your implementation with tutorial examples

---

## 📊 Learning Recommendations

### For Beginners

1. Start with the first video in the series
2. Go through frames sequentially
3. Take notes on key concepts
4. Try to implement concepts in a test project

### For Intermediate Learners

1. Focus on specific topics of interest
2. Compare different implementation approaches
3. Extract reusable code patterns
4. Build reference implementations

### For Advanced Users

1. Study architecture decisions
2. Analyze optimization techniques
3. Document best practices
4. Create templates and starter kits

---

## 🛠️ Tools & Resources

- **Frame Extraction:** FFmpeg
- **Video Source:** YouTube (NoCodeBackend tutorials)
- **Analysis Tools:** Claude Code, Python scripts
- **Knowledge Base:** Memvid (optional)

---

## 📝 Notes

This is a living document. As you analyze frames and learn from the tutorials, consider:

1. Adding your own notes and insights
2. Creating code snippets from visible examples
3. Building a personal reference library
4. Sharing learnings with others

---

**Next Steps:**

1. Review frame inventory
2. Start with first tutorial series
3. Document key learnings
4. Build reference projects
".

(** The chunks of the whole guide, in the order they are appended. *)
Definition guide_chunks (generated : string) (index_data : IndexData.t)
  : list string :=
  [guide_header generated index_data]
    ++ map contents_line (enumerate 1 (IndexData.videos index_data))
    ++ [guide_middle]
    ++ concat (map video_section (IndexData.videos index_data))
    ++ [guide_footer].

Definition doc_path : Path :=
  KNOWLEDGE_BASE_DIR // "NoCodeBackend_Learning_Guide.md".

Definition create_markdown_documentation
    (frame_dirs : list FrameDir.t) (index_data : IndexData.t) : M Path :=
  t ← tick;
  let content := concat_str (guide_chunks (strftime E t) index_data) in
  mkdir_parents (parent doc_path);;
  write_file doc_path (TextDoc content);;
  mret doc_path.

(** *** The optional memvid step *)

Definition temp_doc : Path := KNOWLEDGE_BASE_DIR // "temp_memvid_input.md".

Definition memvid_video_chunks (video : VideoInfo.t) : list string :=
  ("## " +:+ VideoInfo.name video +:+ nl +:+ nl)
    :: map (λ frame_path, "- Frame: " +:+ frame_path +:+ nl) (VideoInfo.frames video).

Definition memvid_input (index_data : IndexData.t) : string :=
  concat_str (("# NoCodeBackend Tutorials" +:+ nl +:+ nl)
                :: concat (map memvid_video_chunks (IndexData.videos index_data))).

(** The first [try] block: [Some b] when the function returns [b] from
    inside it, [None] when control falls through to the rest. *)
Definition probe_memvid : M (option bool) :=
  try_except
    (result ← lift (subprocess_run E ["which"; "memvid"]);
     if negb (returncode result =? 0)%Z then
       log "Memvid not found. Skipping memvid knowledge base creation." "WARNING";;
       log "Install memvid from: https://github.com/mem0ai/memvid" "INFO";;
       mret (Some false)
     else mret None)
    (λ e,
     log ("Could not check for memvid: " +:+ exn_str e) "WARNING";;
     mret (Some false)).

Definition create_memvid : M bool :=
  try_except
    (let cmd := ["memvid"; "create"; KNOWLEDGE_BASE_NAME; PathLib.str temp_doc] in
     result ← lift (subprocess_run E cmd);
     if (returncode result =? 0)%Z then
       log "Memvid knowledge base created successfully!" "SUCCESS";;
       mret true
     else
       log ("Failed to create memvid knowledge base: " +:+ stderr result) "ERROR";;
       mret false)
    (λ e,
     log ("Error creating memvid knowledge base: " +:+ exn_str e) "ERROR";;
     mret false).

Definition build_memvid_knowledge_base (index_data : IndexData.t) : M bool :=
  returned ← probe_memvid;
  match returned with
  | Some b => mret b
  | None =>
      log "Building memvid knowledge base..." "INFO";;
      write_file temp_doc (TextDoc (memvid_input index_data));;
      create_memvid
  end.

(** *** main *)

Definition index_path : Path := KNOWLEDGE_BASE_DIR // "frame_index.json".

Definition memvid_status (memvid_success : bool) : string :=
  "Memvid KB: " +:+ (if memvid_success then "Created" else "Not Created").

(** The block of [main] under [# Final summary]. *)
Definition final_summary (index_data : IndexData.t) (doc : Path)
    (memvid_success : bool) : M unit :=
  info (nl +:+ repeat_str "=" 50);;
  log "KNOWLEDGE BASE BUILD COMPLETE" "SUCCESS";;
  info (repeat_str "=" 50);;
  info ("Total Videos: " +:+ Py.str_int (IndexData.total_videos index_data));;
  info ("Total Frames: " +:+ Py.str_int (IndexData.total_frames index_data));;
  info ("Index File: " +:+ PathLib.str index_path);;
  info ("Learning Guide: " +:+ PathLib.str doc);;
  info (memvid_status memvid_success);;
  info (nl +:+ "📖 Next Steps:");;
  info "1. Open the learning guide to start exploring";;
  info "2. Use Claude Code to analyze specific frames";;
  info "3. Document your learnings as you progress";;
  if memvid_success then
    info (nl +:+ "🔍 Search the knowledge base:");;
    info ("   memvid search '<your query>' " +:+ KNOWLEDGE_BASE_NAME)
  else mret tt.

Definition main : M unit :=
  info (repeat_str "=" 50);;
  info "NoCodeBackend Knowledge Base Builder";;
  info (repeat_str "=" 50);;
  info "Scanning for frame directories...";;
  frame_dirs ← find_all_frame_directories;
  (match frame_dirs with
   | [] =>
       log "No frame directories found. Please run the video processing script first."
           "ERROR";;
       sys_exit 1
   | _ :: _ => mret tt
   end);;
  log ("Found " +:+ Py.str_int (Py.len frame_dirs) +:+ " video frame sets") "SUCCESS";;
  for_each frame_dirs (λ fd,
    info ("  - " +:+ FrameDir.name fd +:+ ": "
            +:+ Py.str_int (FrameDir.frame_count fd) +:+ " frames"));;
  info (nl +:+ "Creating knowledge index...");;
  index_data ← create_knowledge_index frame_dirs;
  mkdir_parents (parent index_path);;
  write_file index_path (JsonDoc (IndexData.to_json index_data));;
  log ("Index saved to: " +:+ PathLib.str index_path) "SUCCESS";;
  info (nl +:+ "Generating learning guide...");;
  doc ← create_markdown_documentation frame_dirs index_data;
  log ("Learning guide created: " +:+ PathLib.str doc) "SUCCESS";;
  info (nl +:+ "Attempting to build memvid knowledge base...");;
  memvid_success ← build_memvid_knowledge_base index_data;
  final_summary index_data doc memvid_success.

End WithEnv.
End Frames.

(** ** intelligent_kb_builder.py *)

Module MasterIndex.
(** The index of [create_master_index]. *)
Record t := {
  knowledge_base : string;
  created_at : string;
  total_videos : Z;
  total_frames : Z;
  topics : list (string * json);
  technologies : list (string * json);
  videos : list VideoInfo.t;
}.

(** [video_info] lists its keys in another order here. *)
Definition video_to_json (v : VideoInfo.t) : json :=
  JDict [("directory", JStr (VideoInfo.directory v));
         ("name", JStr (VideoInfo.name v));
         ("frame_count", JInt (VideoInfo.frame_count v));
         ("frames", JList (map JStr (VideoInfo.frames v)))].

Definition to_json (i : t) : json :=
  JDict [("knowledge_base", JStr (knowledge_base i));
         ("created_at", JStr (created_at i));
         ("total_videos", JInt (total_videos i));
         ("total_frames", JInt (total_frames i));
         ("topics", JDict (topics i));
         ("technologies", JDict (technologies i));
         ("videos", JList (map video_to_json (videos i)))].
End MasterIndex.

Module Builder.

(** [str.title()] on ASCII text: the first letter of every run of
    letters in upper case, the others in lower case. *)
Definition is_lower (c : ascii) : bool :=
  (97 <=? nat_of_ascii c)%nat && (nat_of_ascii c <=? 122)%nat.
Definition is_upper (c : ascii) : bool :=
  (65 <=? nat_of_ascii c)%nat && (nat_of_ascii c <=? 90)%nat.
Definition to_upper (c : ascii) : ascii :=
  if is_lower c then ascii_of_nat (nat_of_ascii c - 32) else c.
Definition to_lower (c : ascii) : ascii :=
  if is_upper c then ascii_of_nat (nat_of_ascii c + 32) else c.

Fixpoint title_aux (previous_is_cased : bool) (s : string) : string :=
  match s with
  | EmptyString => EmptyString
  | String c s' =>
      if is_lower c || is_upper c then
        String (if previous_is_cased then to_lower c else to_upper c)
               (title_aux true s')
      else String c (title_aux false s')
  end.

Definition title (s : string) : string := title_aux false s.

(** [l[::step]] for a positive step *)
Fixpoint every_nth_aux {A} (step skip : nat) (l : list A) : list A :=
  match l with
  | [] => []
  | x :: l' =>
      match skip with
      | O => x :: every_nth_aux step (pred step) l'
      | S k => every_nth_aux step k l'
      end
  end.

Definition every_nth {A} (step : Z) (l : list A) : list A :=
  every_nth_aux (Z.to_nat step) 0 l.

(** The fixed topic labels, in the order of the dict literal. *)
Definition TOPIC_NAMES : list string :=
  ["authentication"; "database"; "api-design"; "frontend";
   "deployment"; "testing"; "configuration"].

(** The instance attributes set by [__init__]. *)
Record t := {
  topic : string;
  source_dir : Path;
  kb_dir : Path;
  topics_dir : Path;
  tech_dir : Path;
  code_dir : Path;
  search_dir : Path;
}.

Section WithEnv.
Context (E : env).

Definition HOME : Path := home E.
Definition KB_BASE_DIR : Path := HOME // "knowledge-bases".

Definition attributes (topic : string) (source_dir : Path) : t :=
  let kb_dir := KB_BASE_DIR /// topic in
  {| topic := topic;
     source_dir := source_dir;
     kb_dir := kb_dir;
     topics_dir := kb_dir // "topics";
     tech_dir := kb_dir // "technologies";
     code_dir := kb_dir // "code-snippets";
     search_dir := kb_dir // "search-index" |}.

(** [KnowledgeBaseBuilder(topic, source_dir)] *)
Definition init (topic : string) (source_dir : Path) : M t :=
  let self := attributes topic source_dir in
  for_each [kb_dir self; topics_dir self; tech_dir self; code_dir self; search_dir self]
           mkdir_parents;;
  mret self.

Definition log (message level : string) : M unit :=
  t ← tick;
  print (log_line (strftime E t) level message).

Definition info (message : string) : M unit := log message "INFO".

Definition empty_topics : list (string * list string) :=
  map (λ n, (n, [])) TOPIC_NAMES.

Definition extract_topics_from_frames (self : t) (frame_directories : list Path)
  : M (list (string * list string)) :=
  let topics := empty_topics in
  info ("Analyzing " +:+ Py.str_int (Py.len frame_directories)
          +:+ " video frame sets...");;
  for_each frame_directories (λ video_dir,
    let frames := Py.sorted (glob_png E video_dir) in
    info ("Processing " +:+ Py.str_int (Py.len frames) +:+ " frames from "
            +:+ PathLib.name video_dir);;
    let sample_interval := Z.max 1 (Py.len frames / 20) in
    let sampled_frames := every_nth sample_interval frames in
    for_each sampled_frames (λ frame, mret tt));;
  mret topics.

Definition topic_metadata (topic_name last_updated : string)
    (frame_paths : list string) : json :=
  JDict [("topic", JStr topic_name);
         ("frame_count", JInt (Py.len frame_paths));
         ("last_updated", JStr last_updated);
         ("frames", JList (map JStr frame_paths))].

Definition overview_md (self : t) (topic_name : string)
    (frame_paths : list string) : string :=
"# " +:+ title topic_name +:+ " Concepts

## Overview

This topic covers " +:+ topic_name +:+ " concepts from the " +:+ topic self +:+ " tutorial series.

## Key Concepts

_To be populated with AI-extracted concepts_

## Code Examples

See the `code-examples/` directory for implementations.

## Related Topics

_To be populated with related topics_

## Frames

" +:+ Py.str_int (Py.len frame_paths) +:+ " frames reference this topic.
".

(** One turn of the loop of [build_topic_structure]. *)
Definition build_topic (self : t) (item : string * list string) : M unit :=
  let topic_name := fst item in
  let frame_paths := snd item in
  let topic_dir := topics_dir self /// topic_name in
  mkdir topic_dir;;
  mkdir (topic_dir // "concepts");;
  mkdir (topic_dir // "code-examples");;
  mkdir (topic_dir // "frames");;
  t ← tick;
  let metadata := topic_metadata topic_name (isoformat E t) frame_paths in
  write_file (topic_dir // "metadata.json") (JsonDoc metadata);;
  let concepts_md := topic_dir // "concepts" // "overview.md" in
  write_file concepts_md (TextDoc (overview_md self topic_name frame_paths)).

Definition build_topic_structure (self : t) (topics : list (string * list string))
  : M unit :=
  for_each topics (build_topic self).

(** The [video_info] of one directory, given what its [glob] enumerates. *)
Definition master_video_info (video_dir : Path) : VideoInfo.t :=
  let frames := glob_png E video_dir in
  {| VideoInfo.directory := PathLib.str video_dir;
     VideoInfo.name := PathLib.name video_dir;
     VideoInfo.frame_count := Py.len frames;
     VideoInfo.frames := map PathLib.str frames |}.

Definition master_index (self : t) (now : string) (frame_directories : list Path)
  : MasterIndex.t :=
  {| MasterIndex.knowledge_base := topic self;
     MasterIndex.created_at := now;
     MasterIndex.total_videos := Py.len frame_directories;
     MasterIndex.total_frames :=
       Py.sum (map (λ d, Py.len (glob_png E d)) frame_directories);
     MasterIndex.topics := [];
     MasterIndex.technologies := [];
     MasterIndex.videos := map master_video_info frame_directories |}.

Definition create_master_index (self : t) (frame_directories : list Path)
  : M MasterIndex.t :=
  t ← tick;
  let index := master_index self (isoformat E t) frame_directories in
  let index_path := search_dir self // "master_index.json" in
  write_file index_path (JsonDoc (MasterIndex.to_json index));;
  log ("Master index created: " +:+ PathLib.str index_path) "SUCCESS";;
  mret index.

Definition search_guide_md (self : t) (last_updated : string) : string :=
"# " +:+ topic self +:+ " Knowledge Base Search Guide

## Quick Start

This knowledge base can be searched in multiple ways:

### 1. Browse by Topic

```bash
cd " +:+ PathLib.str (topics_dir self) +:+ "
ls
```

Topics include:
- authentication
- database
- api-design
- frontend
- deployment
- testing
- configuration

### 2. Browse by Technology

```bash
cd " +:+ PathLib.str (tech_dir self) +:+ "
ls
```

### 3. Search Code Snippets

```bash
cd " +:+ PathLib.str (code_dir self) +:+ "
find . -name " +:+ dq +:+ "*.js" +:+ dq +:+ " -o -name " +:+ dq +:+ "*.py" +:+ dq
  +:+ " -o -name " +:+ dq +:+ "*.json" +:+ dq +:+ "
```

### 4. Query with JSON Index

```python
import json

with open(" +:+ dq +:+ PathLib.str (search_dir self) +:+ "/master_index.json" +:+ dq +:+ ") as f:
    index = json.load(f)

# Search for frames
for video in index[" +:+ dq +:+ "videos" +:+ dq +:+ "]:
    print(f" +:+ dq +:+ "{video['name']}: {video['frame_count']} frames" +:+ dq +:+ ")
```

## Using with Claude

When working with Claude, you can ask:

- " +:+ dq +:+ "Show me frames related to authentication" +:+ dq +:+ "
- " +:+ dq +:+ "Find code examples for database setup" +:+ dq +:+ "
- " +:+ dq +:+ "What topics are covered in video 5?" +:+ dq +:+ "
- " +:+ dq +:+ "Extract all API endpoint examples" +:+ dq +:+ "

Claude can navigate this knowledge base structure to find relevant information.

## Advanced Queries

### Find Specific Frame
```bash
find " +:+ PathLib.str (kb_dir self) +:+ " -name " +:+ dq +:+ "frame_0045.png" +:+ dq +:+ "
```

### Search Topics
```bash
grep -r " +:+ dq +:+ "authentication" +:+ dq +:+ " " +:+ PathLib.str (topics_dir self) +:+ "
```

### List All Code Files
```bash
find " +:+ PathLib.str (code_dir self) +:+ " -type f
```

---

**Last Updated:** " +:+ last_updated +:+ "
".

Definition create_search_guide (self : t) : M unit :=
  let guide_path := kb_dir self // "SEARCH_GUIDE.md" in
  t ← tick;
  write_file guide_path (TextDoc (search_guide_md self (strftime E t)));;
  log ("Search guide created: " +:+ PathLib.str guide_path) "SUCCESS".

(** [d.is_dir() and list(d.glob("*.png"))] *)
Definition has_frames (d : Path) : bool :=
  path_is_dir E d && match glob_png E d with [] => false | _ :: _ => true end.

Definition build_metadata (self : t) (now : string) (index : MasterIndex.t)
    (topics : list (string * list string)) : json :=
  JDict [("topic", JStr (topic self));
         ("created_at", JStr now);
         ("source_directory", JStr (PathLib.str (source_dir self)));
         ("total_videos", JInt (MasterIndex.total_videos index));
         ("total_frames", JInt (MasterIndex.total_frames index));
         ("topics", JList (map JStr (map fst topics)));
         ("version", JStr "2.0")].

Definition build (self : t) : M bool :=
  info (repeat_str "=" 60);;
  info ("Building Knowledge Base: " +:+ topic self);;
  info (repeat_str "=" 60);;
  entries ← lift (iterdir E (source_dir self));
  let frame_dirs := List.filter has_frames entries in
  match frame_dirs with
  | [] =>
      log "No frame directories found!" "ERROR";;
      mret false
  | _ :: _ =>
      log ("Found " +:+ Py.str_int (Py.len frame_dirs) +:+ " video frame sets")
          "SUCCESS";;
      info (nl +:+ "📊 Extracting topics from frames...");;
      topics ← extract_topics_from_frames self frame_dirs;
      info (nl +:+ "📁 Building topic structure...");;
      build_topic_structure self topics;;
      info (nl +:+ "🔍 Creating master search index...");;
      index ← create_master_index self frame_dirs;
      info (nl +:+ "📖 Creating search guide...");;
      create_search_guide self;;
      t ← tick;
      let metadata := build_metadata self (isoformat E t) index topics in
      write_file (kb_dir self // "metadata.json") (JsonDoc metadata);;
      info (nl +:+ repeat_str "=" 60);;
      log "KNOWLEDGE BASE BUILD COMPLETE" "SUCCESS";;
      info (repeat_str "=" 60);;
      info ("Location: " +:+ PathLib.str (kb_dir self));;
      info ("Videos: " +:+ Py.str_int (MasterIndex.total_videos index));;
      info ("Frames: " +:+ Py.str_int (MasterIndex.total_frames index));;
      info ("Topics: " +:+ Py.str_int (Py.len topics));;
      info (nl +:+ "📖 Next Steps:");;
      info ("1. Review the search guide: " +:+ PathLib.str (kb_dir self)
              +:+ "/SEARCH_GUIDE.md");;
      info ("2. Browse topics: " +:+ PathLib.str (topics_dir self));;
      info "3. Ask Claude to search the knowledge base!";;
      mret true
  end.

Definition usage : list string :=
  ["Usage: python intelligent_kb_builder.py <topic> <source_directory>";
   "Example: python intelligent_kb_builder.py NoCodeBackend ~/xtractedyt/frames/NoCodeBackend"].

(** [main()], as a function of [sys.argv], with the two calls it makes:
    [KnowledgeBaseBuilder(topic, source_dir)] and [builder.build()]. *)
Definition main_with (construct : string → Path → M t) (run : t → M bool)
    (argv : list string) : M unit :=
  (if (Py.len argv <? 3)%Z then
     for_each usage print;;
     sys_exit 1
   else mret tt);;
  match argv with
  | _ :: topic :: source :: _ =>
      let source_dir := PathLib.of_string source in
      (if negb (path_exists E source_dir) then
         print ("Error: Source directory not found: " +:+ PathLib.str source_dir);;
         sys_exit 1
       else mret tt);;
      builder ← construct topic source_dir;
      success ← run builder;
      sys_exit (if (success : bool) then 0 else 1)
  | _ => raise (Error "IndexError" "list index out of range")
  end.

End WithEnv.

(** What [build] reads: the disk with the directories of [__init__]. *)
Definition after_init (E : env) (self : t) : env :=
  fold_left made_parents
    [kb_dir self; topics_dir self; tech_dir self; code_dir self; search_dir self] E.

(** [main()]: the builder is constructed, which makes its directories,
    and only then does [build] list the source. *)
Definition main (E : env) (argv : list string) : M unit :=
  main_with E (init E) (λ builder, build (after_init E builder) builder) argv.

End Builder.

(** ** generate_pwa_icons.py *)

Module PIL.
Import Picture.
Local Open Scope Z_scope.

(** Modelled from the spec: [Image.resize] of the image library, which is
    not part of the repository ("resize the background to an exact square
    of the target size"); a side that is not positive is refused. *)
Definition resize (size : Z * Z) (im : image) : result image :=
  if (0 <? fst size) && (0 <? snd size)
  then Ok {| width := fst size; height := snd size |}
  else Raise (Error "ValueError" "height and width must be > 0").

(** [max(min(math.floor(number), math.ceil(number), key=key), 1)] *)
Definition round_aspect (number : Q) (key : Z → Q) : Z :=
  let lo := Qfloor number in
  let hi := Qceiling number in
  Z.max (if Qle_bool (key lo) (key hi) then lo else hi) 1.

(** Modelled from the spec: the size [Image.thumbnail] of the image
    library (not part of the repository) gives a picture for a bounding
    box: "scale the logo to a fraction of that size ... while preserving
    its aspect ratio", never enlarging.  The computation is Pillow's: a
    picture that fits is left alone; otherwise the binding side takes the
    box's length and the other side is rounded to whichever of floor and
    ceiling keeps the ratio closer, and is at least 1.  Exact rationals
    stand for Pillow's binary floating point. *)
Definition thumbnail_size (size : Z * Z) (im : image) : result (Z * Z) :=
  let x := fst size in
  let y := snd size in
  if (width im <=? x) && (height im <=? y) then Ok (width im, height im)
  else if (height im =? 0) || (y =? 0) then
    Raise (Error "ZeroDivisionError" "division by zero")
  else
    let aspect := (inject_Z (width im) / inject_Z (height im))%Q in
    if Qle_bool aspect (inject_Z x / inject_Z y)%Q then
      Ok (round_aspect (inject_Z y * aspect)%Q
            (λ n, Qabs (aspect - inject_Z n / inject_Z y)%Q), y)
    else if width im =? 0 then
      Raise (Error "ZeroDivisionError" "float division by zero")
    else
      Ok (x, round_aspect (inject_Z x / aspect)%Q
               (λ n, if (n =? 0) then 0%Q
                     else Qabs (aspect - inject_Z x / inject_Z n)%Q)).

(** [im.thumbnail(size, resample)]: the picture takes the computed size. *)
Definition thumbnail (size : Z * Z) (im : image) : result image :=
  match thumbnail_size size im with
  | Ok (w, h) => Ok {| width := w; height := h |}
  | Raise e => Raise e
  end.

(** Modelled from the spec: [Image.paste] of the image library
    ("composite logo over background using the logo's transparency as a
    mask"): the canvas keeps its size and carries the logo at [box]. *)
Definition paste (background logo : image) (box : Z * Z) : composite :=
  {| canvas := background; logo := logo; logo_x := fst box; logo_y := snd box |}.

End PIL.

Module Icons.
Import Picture.
Local Open Scope Z_scope.

(** [float(n)] and [int(f)] on binary64 *)
Definition float_of_int (n : Z) : float :=
  SF2Prim (binary_normalize prec emax n 0 false).

Definition int_of_float (f : float) : result Z :=
  match Prim2SF f with
  | S754_zero _ => Ok 0
  | S754_finite s m e =>
      let magnitude := if (0 <=? e) then Z.pos m * 2 ^ e else Z.pos m / 2 ^ (- e) in
      Ok (if s then - magnitude else magnitude)
  | S754_infinity _ => Raise (Error "OverflowError" "cannot convert float infinity to integer")
  | S754_nan => Raise (Error "ValueError" "cannot convert float NaN to integer")
  end.

Definition logo_scale (is_maskable : bool) : float :=
  if is_maskable then 0.6%float else 0.8%float.

(** [int(size * logo_scale)] *)
Definition logo_size (size : Z) (is_maskable : bool) : result Z :=
  int_of_float (float_of_int size * logo_scale is_maskable)%float.

(** Lines 37 to 49 of [create_pwa_icon]: from the resized background and
    the loaded logo to the final image. *)
Definition place_logo (background logo : image) (size : Z) (is_maskable : bool)
  : result composite :=
  match logo_size size is_maskable with
  | Raise e => Raise e
  | Ok logo_size =>
      match PIL.thumbnail (logo_size, logo_size) logo with
      | Raise e => Raise e
      | Ok logo =>
          let logo_x := (size - width logo) / 2 in
          let logo_y := (size - height logo) / 2 in
          Ok (PIL.paste background logo (logo_x, logo_y))
      end
  end.

Definition icon_filename (size : Z) (is_maskable : bool) : string :=
  let maskable_suffix := if is_maskable then "-maskable" else EmptyString in
  "Icon" +:+ maskable_suffix +:+ "-" +:+ Py.str_int size +:+ ".png".

Section WithAssets.
Context (PROJECT_ROOT : Path) (Image_open : Path → result image).

Definition ASSETS_DIR : Path := PROJECT_ROOT // "assets" // "images".
Definition WEB_ICONS_DIR : Path := PROJECT_ROOT // "web" // "icons".
Definition BACKGROUND_PATH : Path := ASSETS_DIR // "gradient_background.png".
Definition LOGO_PATH : Path := ASSETS_DIR // "logo_transparent.png".

Definition create_pwa_icon (size : Z) (is_maskable : bool) : M Path :=
  background ← lift (Image_open BACKGROUND_PATH);
  background ← lift (PIL.resize (size, size) background);
  logo ← lift (Image_open LOGO_PATH);
  final_image ← lift (place_logo background logo size is_maskable);
  let filename := icon_filename size is_maskable in
  let output_path := WEB_ICONS_DIR // filename in
  write_file output_path (PngDoc final_image);;
  print ("✅ Created: " +:+ filename +:+ " (" +:+ Py.str_int size +:+ "×"
           +:+ Py.str_int size +:+ ")");;
  mret output_path.

(** The four icons [main] asks for, in its order. *)
Definition configurations : list (Z * bool) :=
  [(192, false); (512, false); (192, true); (512, true)].

Definition main : M unit :=
  mkdir_parents WEB_ICONS_DIR;;
  print ("🎨 Generating PWA icons with gradient background..." +:+ nl);;
  for_each configurations (λ c, create_pwa_icon (fst c) (snd c);; mret tt);;
  print (nl +:+ "✅ All PWA icons generated successfully!");;
  print ("📁 Location: " +:+ PathLib.str WEB_ICONS_DIR);;
  print (nl +:+ "💡 Next steps:");;
  print "   1. Run: flutter build web --release --no-tree-shake-icons";;
  print "   2. Icons will be included in build/web/icons/".

End WithAssets.
End Icons.

(** ** Vocabulary of the properties *)

(** The postcondition [Q] holds of the outcome of running [m] from [w]. *)
Definition wp {A} (m : M A) (w : world) (Q : result A → world → Prop) : Prop :=
  Q (m w).1 (m w).2.

(** The world after [log] printed [message] at [level]. *)
Definition logged (E : env) (level message : string) (w : world) : world :=
  {| fs := fs w;
     stdout := stdout w ++ [log_line (strftime E (clock w)) level message];
     clock := S (clock w) |}.

(** The world after one reading of the clock. *)
Definition ticked (w : world) : world :=
  {| fs := fs w; stdout := stdout w; clock := S (clock w) |}.

(** The world after [print]. *)
Definition printed (line : string) (w : world) : world :=
  {| fs := fs w; stdout := stdout w ++ [line]; clock := clock w |}.

(** Nothing but printing and clock reading happened between [w] and [w']. *)
Definition chatter (w w' : world) : Prop :=
  fs w' = fs w ∧ stdout w `prefix_of` stdout w'.

(** The two summation invariants of an index. *)
Definition totals_consistent (total_videos total_frames : Z)
    (videos : list VideoInfo.t) : Prop :=
  total_frames = Py.sum (map VideoInfo.frame_count videos)
  ∧ total_videos = Py.len videos.

(** Ascending order of names, by code unit. *)
Definition string_le (a b : string) : Prop := String_as_OT.compare a b ≠ Gt.

Definition not_file (s : gmap Path node) (q : Path) : bool :=
  match s !! q with Some (File _) => false | _ => true end.

(** No regular file stands where [mkdir_parents p] needs a directory. *)
Definition no_file_on (s : gmap Path node) (p : Path) : bool :=
  forallb (not_file s) (prefixes_from [] p).

(** The filesystem after one step of [mkdir_parents] ... *)
Definition add_dir (s : gmap Path node) (q : Path) : gmap Path node :=
  if is_root q then s else <[q := Dir]> s.

(** ... and after all of them. *)
Definition with_dirs (p : Path) (s : gmap Path node) : gmap Path node :=
  fold_left add_dir (prefixes_from [] p) s.

(** The probe [which memvid] reports that the tool is missing: a non-zero
    status, or an exception. *)
Definition memvid_absent (E : env) : bool :=
  match subprocess_run E ["which"; "memvid"] with
  | Ok r => negb (returncode r =? 0)%Z
  | Raise e => is_Exception e
  end.

Definition memvid_found (E : env) : bool :=
  match subprocess_run E ["which"; "memvid"] with
  | Ok r => (returncode r =? 0)%Z
  | Raise _ => false
  end.

(** [memvid create] itself fails: a non-zero status, or an exception. *)
Definition memvid_create_fails (E : env) : bool :=
  match subprocess_run E ["memvid"; "create"; Frames.KNOWLEDGE_BASE_NAME;
                          PathLib.str (Frames.temp_doc E)] with
  | Ok r => negb (returncode r =? 0)%Z
  | Raise e => is_Exception e
  end.

(** The memvid step fails in one of the two ways. *)
Definition memvid_fails (E : env) : bool :=
  memvid_absent E || (memvid_found E && memvid_create_fails E).

(** The scanner finds at least one frame directory. *)
Definition frames_found (E : env) : bool :=
  path_exists E (Frames.NOCODEBACKEND_DIR E)
  && match iterdir E (Frames.NOCODEBACKEND_DIR E) with
     | Ok items => match omap (Frames.scan_item E) items with
                   | [] => false
                   | _ :: _ => true
                   end
     | Raise _ => false
     end.

(** The knowledge-base directory can be created and the files of the
    frame indexer written, as far as the kinds of the existing entries
    go. *)
Definition kb_writable (E : env) (s : gmap Path node) : bool :=
  no_file_on s (Frames.KNOWLEDGE_BASE_DIR E)
  && not_dir s (Frames.index_path E)
  && not_dir s (Frames.doc_path E)
  && not_dir s (Frames.temp_doc E).

(** A name that is one path component: [p / n] appends it to [p]. *)
Definition simple_name (n : string) : bool :=
  negb (is_absolute n) && bool_decide (PathLib.of_string n = [n]).

(** Nothing of the wrong kind stands where the entries of one topic go. *)
Definition topic_slot_free (s : gmap Path node) (topic_dir : Path) : bool :=
  not_file s topic_dir
  && not_file s (topic_dir // "concepts")
  && not_file s (topic_dir // "code-examples")
  && not_file s (topic_dir // "frames")
  && not_dir s (topic_dir // "metadata.json")
  && not_dir s (topic_dir // "concepts" // "overview.md").

(** The entries of one topic are in place: the directory, its three
    subdirectories, the metadata record and the overview. *)
Definition topic_built (self : Builder.t) (topic_name : string)
    (frame_paths : list string) (s : gmap Path node) : Prop :=
  let topic_dir := Builder.topics_dir self // topic_name in
  s !! topic_dir = Some Dir
  ∧ s !! (topic_dir // "concepts") = Some Dir
  ∧ s !! (topic_dir // "code-examples") = Some Dir
  ∧ s !! (topic_dir // "frames") = Some Dir
  ∧ (∃ last_updated,
       s !! (topic_dir // "metadata.json")
       = Some (File (JsonDoc (Builder.topic_metadata topic_name last_updated
                                                     frame_paths))))
  ∧ s !! (topic_dir // "concepts" // "overview.md")
    = Some (File (TextDoc (Builder.overview_md self topic_name frame_paths))).

(** The source directory holds at least one directory with frames. *)
Definition source_has_frames (E : env) (source_dir : Path) : bool :=
  match iterdir E source_dir with
  | Ok entries => match List.filter (Builder.has_frames E) entries with
                  | [] => false
                  | _ :: _ => true
                  end
  | Raise _ => false
  end.

(** The source directory is a directory without any directory of frames. *)
Definition source_without_frames (E : env) (source_dir : Path) : bool :=
  match iterdir E source_dir with
  | Ok entries => match List.filter (Builder.has_frames E) entries with
                  | [] => true
                  | _ :: _ => false
                  end
  | Raise _ => false
  end.

(** The directories of [__init__] are there and nothing of the wrong
    kind stands where [build] writes. *)
Definition build_ready (self : Builder.t) (s : gmap Path node) : bool :=
  dir_exists s (Builder.kb_dir self)
  && dir_exists s (Builder.topics_dir self)
  && dir_exists s (Builder.search_dir self)
  && forallb (λ n, topic_slot_free s (Builder.topics_dir self // n))
             Builder.TOPIC_NAMES
  && not_dir s (Builder.search_dir self // "master_index.json")
  && not_dir s (Builder.kb_dir self // "SEARCH_GUIDE.md")
  && not_dir s (Builder.kb_dir self // "metadata.json").

(** The outcome is not a [SystemExit]. *)
Definition no_exit {A} (r : result A) : Prop :=
  match r with Raise (SystemExit _) => False | _ => True end.

(** A part of a path that names an entry: neither the root nor a step
    back to a parent. *)
Definition is_entry_name (c : string) : bool :=
  negb (String.eqb c PathLib.sep) && negb (String.eqb c "..").

(** A path written from the root through names of entries. *)
Definition plain (p : Path) : bool :=
  match p with
  | r :: rest => String.eqb r PathLib.sep && forallb is_entry_name rest
  | [] => false
  end.

(** No part of the path is named like a frame. *)
Definition png_free (p : Path) : bool := forallb (λ c, negb (is_png c)) p.

(** The names of a listing that matter to a scan for frames: those of
    frames, and those that are no names of entries. *)
Definition notable (n : string) : bool := is_png n || negb (is_entry_name n).

Definition listing (es : list (string * tree)) : list string :=
  List.filter notable (map fst es).

(** [t'] is [t] with more directories, none of which has a notable name
    or a notable entry: what is a file stays one, a directory keeps its
    notable names, and what comes new is a directory without any. *)
Definition grown (t t' : tree) : Prop :=
  ∀ q, match resolve t q with
       | Some TFile => resolve t' q = Some TFile
       | Some (TDir es) =>
           ∃ es', resolve t' q = Some (TDir es') ∧ listing es' = listing es
       | None =>
           resolve t' q = None
           ∨ ∃ es', resolve t' q = Some (TDir es') ∧ listing es' = []
       end.

(** The sample list the guide is to show for a video entry: one line for
    each file name; the first five names and then the number of the other
    frames when the entry counts more than five, all the names and
    nothing else otherwise. *)
Definition sample_listing (video : VideoInfo.t) : string :=
  let names := map str_name (VideoInfo.frames video) in
  let line := λ name, "- `" +:+ name +:+ "`" +:+ nl in
  if (5 <? VideoInfo.frame_count video)%Z
  then concat_str (map line (take 5 names))
         +:+ "- ... and " +:+ Py.str_int (VideoInfo.frame_count video - 5)
         +:+ " more frames" +:+ nl
  else concat_str (map line names).

(** The part of the guide for one video entry: its heading, the sample
    list and an empty line. *)
Definition guide_entry (video : VideoInfo.t) : string :=
  "#### " +:+ VideoInfo.name video +:+ nl +:+ nl
    +:+ "- **Frames:** " +:+ Py.str_int (VideoInfo.frame_count video) +:+ nl
    +:+ "- **Directory:** `" +:+ VideoInfo.directory video +:+ "`" +:+ nl +:+ nl
    +:+ "Sample frames:" +:+ nl
    +:+ sample_listing video
    +:+ nl.

(** The logo fits its bounding box without scaling. *)
Definition fits (box : Z) (logo : Picture.image) : Prop :=
  (Picture.width logo ≤ box)%Z ∧ (Picture.height logo ≤ box)%Z.

(** ** A small environment to run the scripts in *)

Module Sample.

Definition dir_of (names : list string) : tree :=
  TDir (map (λ n, (n, TFile)) names).

(** Two videos below the frames directory, enumerated out of order, and in
    the working directory [/work] a source directory [src] with one video;
    a new entry is listed first. *)
Definition E : env :=
  {| home := ["/"; "home"; "u"];
     root := TDir [("home", TDir [("u", TDir [("xtractedyt", TDir [("frames",
               TDir [("NoCodeBackend",
                 TDir [("v2", dir_of ["b.png"; "a.png"; "notes.txt"]);
                       ("readme.md", TFile);
                       ("empty", dir_of ["x.txt"]);
                       ("v1", dir_of ["f3.png"; "f1.png"; "f2.png"; "f7.png";
                                      "f6.png"; "f5.png"; "f4.png"])])])])])]);
                   ("work", TDir [("src", TDir [("v", dir_of ["b.png"; "a.png"])]);
                                  ("bare", TDir [("notes", dir_of ["x.txt"])])])];
     cwd := ["/"; "work"];
     placement := λ _ _, 0%nat;
     strftime := λ n, "2025-01-01 00:00:" +:+ pretty n;
     isoformat := λ n, "2025-01-01T00:00:" +:+ pretty n;
     subprocess_run := λ cmd, Ok {| returncode := 1; stderr := EmptyString |} |}.

(** Nothing written, nothing printed yet. *)
Definition w0 : world := {| fs := ∅; stdout := []; clock := 0 |}.

Definition argv : list string := ["intelligent_kb_builder.py"; "Topic"; "src"].

Definition builder : Builder.t := Builder.attributes E "Topic" ["src"].

(** The world once [__init__] has made the directories of [builder]. *)
Definition w_init : world := (Builder.init E "Topic" ["src"] w0).2.

(** What the scanner finds, and the two indexes. *)
Definition frame_dirs : list FrameDir.t :=
  match (Frames.find_all_frame_directories E w0).1 with
  | Ok found => found
  | Raise _ => []
  end.

Definition index_data : IndexData.t :=
  Frames.knowledge_index (isoformat E 0) frame_dirs.

Definition master : MasterIndex.t :=
  Builder.master_index E builder (isoformat E (clock w_init)) [["src"; "v"]].

(** The assets of the icon script: a square background and a wide logo. *)
Definition PROJECT_ROOT : Path := ["/"; "app"].

Definition Image_open (p : Path) : result Picture.image :=
  if String.eqb (PathLib.name p) "logo_transparent.png"
  then Ok {| Picture.width := 1000; Picture.height := 333 |}
  else Ok {| Picture.width := 1024; Picture.height := 1024 |}.

(** The world once the icon directory exists. *)
Definition w_icons : world :=
  (mkdir_parents (Icons.WEB_ICONS_DIR PROJECT_ROOT) w0).2.

End Sample.

(** ** Vocabulary of the further properties *)

(** [memvid create] succeeds: it returns with status 0. *)
Definition memvid_create_succeeds (E : env) : bool :=
  match subprocess_run E ["memvid"; "create"; Frames.KNOWLEDGE_BASE_NAME;
                          PathLib.str (Frames.temp_doc E)] with
  | Ok r => (returncode r =? 0)%Z
  | Raise _ => false
  end.

(** The scanner has nothing to report: the frames directory is missing,
    or none of its entries is a directory with a frame. *)
Definition frames_missing (E : env) : bool :=
  negb (path_exists E (Frames.NOCODEBACKEND_DIR E))
  || match iterdir E (Frames.NOCODEBACKEND_DIR E) with
     | Ok items => match List.filter (Builder.has_frames E) items with
                   | [] => true
                   | _ :: _ => false
                   end
     | Raise _ => false
     end.

(** What the scanner guarantees of one of its records. *)
Definition scanned (E : env) (d : FrameDir.t) : Prop :=
  path_is_dir E (FrameDir.path d) = true
  ∧ FrameDir.name d = PathLib.name (FrameDir.path d)
  ∧ FrameDir.frames d ≡ₚ glob_png E (FrameDir.path d)
  ∧ Sorted PathLib.le (FrameDir.frames d)
  ∧ Sorted string_le (map PathLib.name (FrameDir.frames d))
  ∧ (1 ≤ FrameDir.frame_count d)%Z
  ∧ FrameDir.frame_count d = Py.len (FrameDir.frames d).

(** The files [build] leaves besides the topics: the master index, the
    search guide and the record of the build. *)
Definition kb_outputs (E : env) (self : Builder.t) (frame_dirs : list Path)
    (s : gmap Path node) : Prop :=
  ∃ created_at built_at text,
    let index := Builder.master_index E self created_at frame_dirs in
    s !! (Builder.search_dir self // "master_index.json")
    = Some (File (JsonDoc (MasterIndex.to_json index)))
    ∧ s !! (Builder.kb_dir self // "SEARCH_GUIDE.md") = Some (File (TextDoc text))
    ∧ s !! (Builder.kb_dir self // "metadata.json")
      = Some (File (JsonDoc (Builder.build_metadata self built_at index
                                                    Builder.empty_topics))).

(** The directories [__init__] makes, in its order. *)
Definition init_directories (self : Builder.t) : list Path :=
  [Builder.kb_dir self; Builder.topics_dir self; Builder.tech_dir self;
   Builder.code_dir self; Builder.search_dir self].

(** The filesystem after [mkdir(parents=True, exist_ok=True)] on each
    path of a list. *)
Definition with_all_dirs (l : list Path) (s : gmap Path node) : gmap Path node :=
  fold_left (λ s p, with_dirs p s) l s.

(** Nothing of the wrong kind stands where [__init__] and [build] write:
    no file where a directory goes and no directory where a file goes. *)
Definition kb_ready (self : Builder.t) (s : gmap Path node) : bool :=
  forallb (no_file_on s) (init_directories self)
  && forallb (λ n, topic_slot_free s (Builder.topics_dir self // n))
             Builder.TOPIC_NAMES
  && not_dir s (Builder.search_dir self // "master_index.json")
  && not_dir s (Builder.kb_dir self // "SEARCH_GUIDE.md")
  && not_dir s (Builder.kb_dir self // "metadata.json").

(** Where the icon of one configuration is written. *)
Definition icon_path (PROJECT_ROOT : Path) (c : Z * bool) : Path :=
  Icons.WEB_ICONS_DIR PROJECT_ROOT // Icons.icon_filename (fst c) (snd c).

(** The icon of one configuration, as [create_pwa_icon] composes it from
    the logo. *)
Definition drawn (logo : Picture.image) (c : Z * bool)
    (final : Picture.composite) : Prop :=
  Icons.place_logo {| Picture.width := fst c; Picture.height := fst c |}
    logo (fst c) (snd c) = Ok final.

(** Nothing of the wrong kind stands where the icon script writes. *)
Definition icons_ready (PROJECT_ROOT : Path) (s : gmap Path node) : bool :=
  no_file_on s (Icons.WEB_ICONS_DIR PROJECT_ROOT)
  && forallb (λ c, not_dir s (icon_path PROJECT_ROOT c)) Icons.configurations.

(** ** Further environments *)

Module Scenario.

(** The sample environment with a [memvid] that is installed and works. *)
Definition E_memvid : env :=
  {| home := home Sample.E;
     root := root Sample.E;
     cwd := cwd Sample.E;
     placement := placement Sample.E;
     strftime := strftime Sample.E;
     isoformat := isoformat Sample.E;
     subprocess_run := λ cmd, Ok {| returncode := 0; stderr := EmptyString |} |}.

(** The sample environment seen by a user without a frames directory. *)
Definition E_bare : env :=
  {| home := ["/"; "home"; "nobody"];
     root := root Sample.E;
     cwd := cwd Sample.E;
     placement := placement Sample.E;
     strftime := strftime Sample.E;
     isoformat := isoformat Sample.E;
     subprocess_run := subprocess_run Sample.E |}.

(** Assets of which the logo cannot be opened. *)
Definition Image_open_no_logo (p : Path) : result Picture.image :=
  if String.eqb (PathLib.name p) "logo_transparent.png"
  then Raise (Error "FileNotFoundError" (PathLib.str p))
  else Ok {| Picture.width := 1024; Picture.height := 1024 |}.

End Scenario.

(** * Properties *)

Local Open Scope Z_scope.

(** ** The lexicographic order is a total order *)

Section LexFacts.
Context {A : Type} (cmp : A → A → comparison).

Hypothesis cmp_eq : ∀ x y, cmp x y = Eq ↔ x = y.
Hypothesis cmp_antisym : ∀ x y, cmp y x = CompOpp (cmp x y).
Hypothesis cmp_trans : ∀ x y z, cmp x y = Lt → cmp y z = Lt → cmp x z = Lt.

Lemma lex_compare_eq l1 l2 : lex_compare cmp l1 l2 = Eq ↔ l1 = l2.
Proof.
  revert l2; induction l1 as [|x l1 IH]; intros [|y l2]; simpl; try easy.
  destruct (cmp x y) eqn:E.
  - apply cmp_eq in E as ->. rewrite IH. split; congruence.
  - split; [easy|]. intros [= -> _].
    assert (cmp y y = Eq) by (by apply cmp_eq). congruence.
  - split; [easy|]. intros [= -> _].
    assert (cmp y y = Eq) by (by apply cmp_eq). congruence.
Qed.

Lemma lex_compare_antisym l1 l2 :
  lex_compare cmp l2 l1 = CompOpp (lex_compare cmp l1 l2).
Proof.
  revert l2; induction l1 as [|x l1 IH]; intros [|y l2]; simpl; try easy.
  rewrite (cmp_antisym x y). destruct (cmp x y); simpl; auto.
Qed.

Lemma lex_compare_trans l1 l2 l3 :
  lex_compare cmp l1 l2 = Lt → lex_compare cmp l2 l3 = Lt → lex_compare cmp l1 l3 = Lt.
Proof.
  revert l2 l3; induction l1 as [|x l1 IH]; intros [|y l2] [|z l3];
    simpl; try easy.
  destruct (cmp x y) eqn:Exy; try easy.
  - apply cmp_eq in Exy as ->.
    destruct (cmp y z); try easy. apply IH.
  - destruct (cmp y z) eqn:Eyz; try easy.
    + apply cmp_eq in Eyz as ->. by rewrite Exy.
    + by rewrite (cmp_trans _ _ _ Exy Eyz).
Qed.
End LexFacts.

Module PathOrder.

Lemma string_lt_irrefl (x : string) : ¬ String_as_OT.lt x x.
Proof. apply (StrictOrder_Irreflexive (R:=String_as_OT.lt)). Qed.

Lemma string_lt_trans (x y z : string) :
  String_as_OT.lt x y → String_as_OT.lt y z → String_as_OT.lt x z.
Proof. apply (StrictOrder_Transitive (R:=String_as_OT.lt)). Qed.

Lemma string_compare_eq (x y : string) :
  String_as_OT.compare x y = Eq ↔ x = y.
Proof.
  destruct (String_as_OT.compare_spec x y) as [E|L|L]; split; try easy;
    intros ->; exfalso; exact (string_lt_irrefl _ L).
Qed.

Lemma string_compare_antisym (x y : string) :
  String_as_OT.compare y x = CompOpp (String_as_OT.compare x y).
Proof.
  destruct (String_as_OT.compare_spec x y) as [E|L|L];
    destruct (String_as_OT.compare_spec y x) as [E'|L'|L']; simpl;
    try reflexivity; exfalso; unfold String_as_OT.eq in *; subst;
    try (eapply string_lt_irrefl; eassumption);
    eapply string_lt_irrefl, string_lt_trans; eassumption.
Qed.

Lemma string_compare_trans (x y z : string) :
  String_as_OT.compare x y = Lt → String_as_OT.compare y z = Lt →
  String_as_OT.compare x z = Lt.
Proof.
  apply string_lt_trans.
Qed.

Lemma compare_eq p q : compare p q = Eq ↔ p = q.
Proof. apply lex_compare_eq, string_compare_eq. Qed.

Lemma compare_antisym p q : compare q p = CompOpp (compare p q).
Proof. apply lex_compare_antisym, string_compare_antisym. Qed.

Lemma compare_trans p q r :
  compare p q = Lt → compare q r = Lt → compare p r = Lt.
Proof.
  apply lex_compare_trans;
    [apply string_compare_eq | apply string_compare_trans].
Qed.

Global Instance le_total : Total le.
Proof.
  intros p q. unfold le. rewrite (compare_antisym p q).
  destruct (compare p q); simpl; [left|left|right]; congruence.
Qed.

Global Instance le_trans : Transitive le.
Proof.
  intros p q r. unfold le. intros H1 H2.
  destruct (compare p q) eqn:E1; [| |done].
  - apply compare_eq in E1 as ->. done.
  - destruct (compare q r) eqn:E2; [| |done].
    + apply compare_eq in E2 as ->. by rewrite E1.
    + by rewrite (compare_trans _ _ _ E1 E2).
Qed.

Global Instance le_antisym : AntiSymm (=) le.
Proof.
  intros p q. unfold le. rewrite (compare_antisym p q).
  destruct (compare p q) eqn:E; simpl; try congruence.
  intros _ _. by apply compare_eq.
Qed.

End PathOrder.

Module PyFacts.
Import Py.

Lemma fold_add_acc l : ∀ a, fold_left Z.add l a = a + fold_left Z.add l 0.
Proof.
  induction l as [|y l IH]; intros a; simpl; [lia|].
  rewrite (IH (a + y)), (IH (0 + y)). lia.
Qed.

Lemma sum_cons x l : sum (x :: l) = x + sum l.
Proof. unfold sum. simpl. apply fold_add_acc. Qed.

Lemma sum_app l1 l2 : sum (l1 ++ l2) = sum l1 + sum l2.
Proof.
  induction l1 as [|x l1 IH]; simpl; [done|].
  rewrite !sum_cons, IH. lia.
Qed.

Lemma sorted_Sorted l : Sorted PathLib.le (sorted l).
Proof. apply Sorted_merge_sort, _. Qed.

Lemma sorted_Permutation l : sorted l ≡ₚ l.
Proof. apply merge_sort_Permutation. Qed.

Lemma sorted_length l : length (sorted l) = length l.
Proof. apply Permutation_length, sorted_Permutation. Qed.

(** The sorted list is a function of the multiset of paths alone. *)
Lemma sorted_enumeration_independent l1 l2 :
  l1 ≡ₚ l2 → sorted l1 = sorted l2.
Proof.
  intros HP. apply (Sorted_unique PathLib.le); try apply sorted_Sorted.
  by rewrite !sorted_Permutation.
Qed.

End PyFacts.

(** ** Running a computation: rules for [wp] *)

Section WpRules.
Context {A B : Type}.

Lemma wp_bind (m : M A) (k : A → M B) w Q :
  wp m w (λ r w', match r with
                  | Ok a => wp (k a) w' Q
                  | Raise e => Q (Raise e) w'
                  end) →
  wp (m ≫= k) w Q.
Proof.
  unfold wp, mbind, M_bind, bind. destruct (m w) as [[a|e] w']; simpl; auto.
Qed.

Lemma wp_ret (a : A) w (Q : result A → world → Prop) :
  Q (Ok a) w → wp (mret a) w Q.
Proof. done. Qed.

Lemma wp_lift (r : result A) w (Q : result A → world → Prop) :
  Q r w → wp (lift r) w Q.
Proof. done. Qed.

Lemma wp_raise (e : exn) w (Q : result A → world → Prop) :
  Q (Raise e) w → wp (raise e) w Q.
Proof. done. Qed.

Lemma wp_mono (m : M A) w (Q Q' : result A → world → Prop) :
  wp m w Q → (∀ r w', Q r w' → Q' r w') → wp m w Q'.
Proof. unfold wp. auto. Qed.

Lemma wp_run (m : M A) w Q r w' : m w = (r, w') → Q r w' → wp m w Q.
Proof. unfold wp. by intros ->. Qed.

Lemma wp_elim (m : M A) w Q : wp m w Q → ∃ r w', m w = (r, w') ∧ Q r w'.
Proof. unfold wp. destruct (m w) as [r w']. eauto. Qed.

Lemma wp_returns (m : M A) w (P : A → world → Prop) :
  wp m w (λ r w', match r with Ok a => P a w' | Raise _ => False end) →
  ∃ a w', m w = (Ok a, w') ∧ P a w'.
Proof. unfold wp. destruct (m w) as [[a|e] w']; simpl; [eauto|done]. Qed.

End WpRules.

Lemma wp_yields {A} (m : M A) w (a : A) (P : world → Prop) :
  wp m w (λ r w', r = Ok a ∧ P w') → ∃ w', m w = (Ok a, w') ∧ P w'.
Proof. unfold wp. destruct (m w) as [r w']. simpl. intros [-> ?]. eauto. Qed.

Lemma wp_completes (m : M unit) w (P : world → Prop) :
  wp m w (λ r w', r = Ok tt ∧ P w') → ∃ w', m w = (Ok tt, w') ∧ P w'.
Proof. unfold wp. destruct (m w) as [r w']. simpl. intros [-> ?]. eauto. Qed.

(** A line is among those printed so far. *)
Ltac find_line :=
  cbn [stdout];
  repeat (apply in_or_app; first [right; left; reflexivity | left]).

Lemma wp_tick w Q : Q (Ok (clock w)) (ticked w) → wp tick w Q.
Proof. done. Qed.

Lemma wp_print line w Q : Q (Ok tt) (printed line w) → wp (print line) w Q.
Proof. done. Qed.

Lemma wp_write_file p c w Q :
  writable (fs w) p = true →
  Q (Ok tt) (set_fs (<[p := File c]> (fs w)) w) →
  wp (write_file p c) w Q.
Proof. unfold wp, write_file. by intros ->. Qed.

Lemma chatter_refl w : chatter w w.
Proof. by split. Qed.

Lemma chatter_trans w1 w2 w3 : chatter w1 w2 → chatter w2 w3 → chatter w1 w3.
Proof. intros [H1 H2] [H3 H4]. split; [congruence | by etrans]. Qed.

Lemma chatter_logged E level message w : chatter w (logged E level message w).
Proof. split; [done | by apply prefix_app_r]. Qed.

Lemma chatter_ticked w : chatter w (ticked w).
Proof. by split. Qed.

Lemma chatter_In w w' line : chatter w w' → In line (stdout w) → In line (stdout w').
Proof.
  intros [_ [k ->]] H. apply in_or_app. by left.
Qed.

(** ** The frame indexer *)

Module FramesFacts.
Import Frames.
Section WithEnv.
Context (E : env).

Lemma wp_log message level w Q :
  Q (Ok tt) (logged E level message w) → wp (log E message level) w Q.
Proof. done. Qed.

Lemma wp_info message w Q :
  Q (Ok tt) (logged E "INFO" message w) → wp (info E message) w Q.
Proof. done. Qed.

(** What the scanner returns does not depend on the world it runs in:
    it is the list of records of the entries of the root directory. *)
Lemma find_all_frame_directories_inv w frame_dirs w' :
  find_all_frame_directories E w = (Ok frame_dirs, w') →
  ∃ items, frame_dirs = omap (scan_item E) items.
Proof.
  unfold find_all_frame_directories.
  destruct (path_exists E (NOCODEBACKEND_DIR E)); simpl.
  - unfold mbind, M_bind, bind, lift.
    destruct (iterdir E (NOCODEBACKEND_DIR E)) as [items|e]; [|done].
    intros [= <- _]. by exists items.
  - intros [= <- _]. by exists [].
Qed.

Lemma scan_item_frame_count item d :
  scan_item E item = Some d →
  FrameDir.frame_count d = Py.len (FrameDir.frames d).
Proof.
  unfold scan_item. destruct (path_is_dir E item); [|done].
  destruct (glob_png E item) as [|f fs] eqn:G; [done|].
  intros [= <-]. simpl. unfold Py.len.
  by rewrite PyFacts.sorted_length.
Qed.

Lemma scan_item_frames item d :
  scan_item E item = Some d →
  FrameDir.frames d = Py.sorted (glob_png E item).
Proof.
  unfold scan_item. destruct (path_is_dir E item); [|done].
  destruct (glob_png E item) as [|f fs] eqn:G; [done|].
  by intros [= <-].
Qed.

Lemma video_info_frame_count d :
  FrameDir.frame_count d = Py.len (FrameDir.frames d) →
  VideoInfo.frame_count (video_info d) = Py.len (VideoInfo.frames (video_info d)).
Proof. simpl. intros ->. unfold Py.len. by rewrite length_map. Qed.

Lemma knowledge_index_totals now frame_dirs :
  let idx := knowledge_index now frame_dirs in
  totals_consistent (IndexData.total_videos idx) (IndexData.total_frames idx)
                    (IndexData.videos idx).
Proof.
  split; simpl.
  - by rewrite map_map.
  - unfold Py.len. by rewrite length_map.
Qed.

Lemma create_knowledge_index_eq frame_dirs w :
  create_knowledge_index E frame_dirs w
  = (Ok (knowledge_index (isoformat E (clock w)) frame_dirs), ticked w).
Proof. done. Qed.

(** Every record the scanner returns, and so every entry of the index
    built from them, counts exactly its own frames. *)
Lemma scanned_entries_count w frame_dirs w' now v :
  find_all_frame_directories E w = (Ok frame_dirs, w') →
  In v (IndexData.videos (knowledge_index now frame_dirs)) →
  VideoInfo.frame_count v = Py.len (VideoInfo.frames v).
Proof.
  intros [items ->]%find_all_frame_directories_inv. simpl.
  intros (d & <- & Hd)%in_map_iff.
  apply video_info_frame_count.
  apply list_elem_of_In, list_elem_of_omap in Hd as (item & _ & Hd).
  by eapply scan_item_frame_count.
Qed.

End WithEnv.
End FramesFacts.

(** *** Frame order of the scanner *)

Lemma lex_compare_app {A} (cmp : A → A → comparison) p l1 l2 :
  (∀ x, cmp x x = Eq) →
  lex_compare cmp (p ++ l1) (p ++ l2) = lex_compare cmp l1 l2.
Proof. intros Hrefl. induction p as [|x p IH]; simpl; [done|]. by rewrite Hrefl. Qed.

Lemma path_le_siblings (p : Path) (a b : string) :
  PathLib.le (p // a) (p // b) ↔ string_le a b.
Proof.
  unfold PathLib.le, PathLib.compare, joinpath, string_le.
  rewrite lex_compare_app by (intros x; by apply PathOrder.string_compare_eq).
  simpl. by destruct (String_as_OT.compare a b).
Qed.

Lemma name_joinpath (p : Path) (n : string) : PathLib.name (p // n) = n.
Proof. unfold PathLib.name, joinpath. apply last_last. Qed.

Lemma parent_joinpath (p : Path) (n : string) : parent (p // n) = p.
Proof. unfold parent, joinpath. apply removelast_last. Qed.

Lemma Sorted_siblings (p : Path) (l : list Path) :
  Forall (λ q, ∃ n, q = p // n) l →
  Sorted PathLib.le l → Sorted string_le (map PathLib.name l).
Proof.
  intros Hall Hs. induction Hs as [|q l Hs IH Hd]; cbn [map]; [constructor|].
  apply Forall_cons in Hall as [[n ->] Hall]. constructor; [by apply IH|].
  destruct Hd as [|q' l' Hq]; cbn [map]; constructor.
  apply Forall_cons in Hall as [[n' ->] _].
  rewrite !name_joinpath. by apply (path_le_siblings p).
Qed.

Lemma glob_png_siblings E (d : Path) :
  Forall (λ q, ∃ n, q = d // n) (glob_png E d).
Proof.
  unfold glob_png. destruct (locate E d) as [[|es]|]; try by constructor.
  apply Forall_forall. intros q Hq.
  apply list_elem_of_In, in_map_iff in Hq as (n & <- & _). by exists n.
Qed.

(** The sibling path of the master index: the frames of a scanner
    record are in ascending order of file name, and are the same however
    the directory happens to be enumerated. *)
Lemma scanner_frames_sorted E item d :
  Frames.scan_item E item = Some d →
  Sorted string_le (map PathLib.name (FrameDir.frames d))
  ∧ ∀ E' d', glob_png E' item ≡ₚ glob_png E item →
             Frames.scan_item E' item = Some d' →
             FrameDir.frames d' = FrameDir.frames d.
Proof.
  intros Hd. rewrite (FramesFacts.scan_item_frames E item d Hd). split.
  - apply (Sorted_siblings item); [|apply PyFacts.sorted_Sorted].
    rewrite PyFacts.sorted_Permutation. apply glob_png_siblings.
  - intros E' d' HP Hd'. rewrite (FramesFacts.scan_item_frames E' item d' Hd').
    by apply PyFacts.sorted_enumeration_independent.
Qed.

(** *** The text of the learning guide *)

Lemma append_assoc (a b c : string) : (a +:+ b) +:+ c = a +:+ (b +:+ c).
Proof.
  induction a as [|x a IH]; [done|].
  change (String x ((a +:+ b) +:+ c) = String x (a +:+ (b +:+ c))).
  by rewrite IH.
Qed.

Lemma append_nil_r (a : string) : a +:+ EmptyString = a.
Proof.
  induction a as [|x a IH]; [done|].
  change (String x (a +:+ EmptyString) = String x a). by rewrite IH.
Qed.

Lemma concat_str_app (l1 l2 : list string) :
  concat_str (l1 ++ l2) = concat_str l1 +:+ concat_str l2.
Proof.
  induction l1 as [|c l1 IH]; [done|].
  cbn [app concat_str]. by rewrite IH, append_assoc.
Qed.

Lemma concat_str_concat (ls : list (list string)) :
  concat_str (concat ls) = concat_str (map concat_str ls).
Proof.
  induction ls as [|l ls IH]; [done|].
  cbn [concat map concat_str]. by rewrite concat_str_app, IH.
Qed.

Lemma take_all {A} (n : nat) (l : list A) : (length l ≤ n)%nat → take n l = l.
Proof. apply firstn_all2. Qed.

(** The chunks one video adds to the guide make up its entry, when the
    count of the video is the length of its frame list. *)
Lemma video_section_text (video : VideoInfo.t) :
  VideoInfo.frame_count video = Py.len (VideoInfo.frames video) →
  concat_str (Frames.video_section video) = guide_entry video.
Proof.
  intros Hc. unfold Frames.video_section, guide_entry, sample_listing.
  cbv zeta. rewrite !concat_str_app.
  assert (∀ l, concat_str (map Frames.frame_item l)
               = concat_str (map (λ name, "- `" +:+ name +:+ "`" +:+ nl)
                               (map str_name l))) as Hitems.
  { intros l. by rewrite map_map. }
  assert (concat_str (Frames.section_head video)
          +:+ concat_str (map Frames.frame_item (take 5 (VideoInfo.frames video)))
          +:+ concat_str (if 5 <? VideoInfo.frame_count video
                          then [Frames.more_line (VideoInfo.frame_count video - 5)]
                          else [])
          +:+ concat_str [nl]
          = "#### " +:+ VideoInfo.name video +:+ nl +:+ nl
            +:+ "- **Frames:** " +:+ Py.str_int (VideoInfo.frame_count video) +:+ nl
            +:+ "- **Directory:** `" +:+ VideoInfo.directory video +:+ "`" +:+ nl +:+ nl
            +:+ "Sample frames:" +:+ nl
            +:+ (concat_str (map Frames.frame_item (take 5 (VideoInfo.frames video)))
                 +:+ concat_str (if 5 <? VideoInfo.frame_count video
                                 then [Frames.more_line (VideoInfo.frame_count video - 5)]
                                 else []))
            +:+ nl) as ->.
  { unfold Frames.section_head. cbn [concat_str].
    rewrite !append_nil_r, !append_assoc. reflexivity. }
  do 11 f_equal.
  destruct (5 <? VideoInfo.frame_count video) eqn:Hmore.
  - rewrite Hitems, <- firstn_map. cbn [concat_str].
    unfold Frames.more_line. by rewrite append_nil_r.
  - rewrite take_all by (unfold Py.len in Hc; lia).
    cbn [concat_str]. by rewrite append_nil_r, Hitems.
Qed.

(** The text of the guide: the header, the table of contents, then the
    entries of the videos in the order of the index, then the footer. *)
Lemma guide_text (generated : string) (index_data : IndexData.t) :
  (∀ video, In video (IndexData.videos index_data) →
            VideoInfo.frame_count video = Py.len (VideoInfo.frames video)) →
  concat_str (Frames.guide_chunks generated index_data)
  = Frames.guide_header generated index_data
      +:+ concat_str (map Frames.contents_line
                        (enumerate 1 (IndexData.videos index_data)))
      +:+ Frames.guide_middle
      +:+ concat_str (map guide_entry (IndexData.videos index_data))
      +:+ Frames.guide_footer.
Proof.
  intros Hc. unfold Frames.guide_chunks.
  rewrite !concat_str_app, concat_str_concat, map_map. cbn [concat_str].
  rewrite !append_nil_r.
  assert (map (λ video, concat_str (Frames.video_section video))
            (IndexData.videos index_data)
          = map guide_entry (IndexData.videos index_data)) as ->; [|done].
  apply map_ext_in. intros video Hv. by apply video_section_text, Hc.
Qed.

(** ** Directories and files *)

Module FsFacts.

Lemma set_fs_id w : set_fs (fs w) w = w.
Proof. by destruct w. Qed.

Lemma set_fs_set_fs s1 s2 w : set_fs s2 (set_fs s1 w) = set_fs s2 w.
Proof. done. Qed.

Lemma is_root_length p : is_root p = true → (length p ≤ 1)%nat.
Proof. destruct p as [|a [|b p]]; simpl; intros; (lia || done). Qed.

Lemma is_root_joinpath p a b : is_root (p // a // b) = false.
Proof.
  destruct (is_root (p // a // b)) eqn:H; [|done].
  apply is_root_length in H. unfold joinpath in H.
  rewrite !length_app in H. simpl in H. lia.
Qed.

Lemma mkdir_run p w :
  not_file (fs w) p = true →
  dir_exists (fs w) (parent p) = true →
  mkdir p w = (Ok tt, set_fs (add_dir (fs w) p) w).
Proof.
  unfold mkdir, add_dir, not_file. intros Hnf Hpar.
  destruct (is_root p); [by rewrite set_fs_id|].
  destruct (fs w !! p) as [[|c]|] eqn:Hp; [|done|by rewrite Hpar].
  by rewrite insert_id, set_fs_id.
Qed.

Lemma dir_exists_add_dir s q : dir_exists (add_dir s q) q = true.
Proof.
  unfold dir_exists, add_dir. destruct (is_root q) eqn:Hr; simpl; [done|].
  by rewrite lookup_insert_eq.
Qed.

Lemma not_file_add_dir s q q' :
  not_file s q' = true → not_file (add_dir s q) q' = true.
Proof.
  unfold not_file, add_dir. destruct (is_root q); [done|].
  destruct (decide (q = q')) as [->|Hne].
  - by rewrite lookup_insert_eq.
  - by rewrite lookup_insert_ne.
Qed.

Lemma for_each_mkdir p : ∀ base w,
  dir_exists (fs w) base = true →
  forallb (not_file (fs w)) (prefixes_from base p) = true →
  for_each (prefixes_from base p) mkdir w
  = (Ok tt, set_fs (fold_left add_dir (prefixes_from base p) (fs w)) w).
Proof.
  induction p as [|c p IH]; intros base w Hbase Hnf; simpl.
  - by rewrite set_fs_id.
  - simpl in Hnf. apply andb_prop in Hnf as [Hq Hrest].
    unfold bind. rewrite mkdir_run; [|done|].
    2:{ change (base ++ [c]) with (base // c). by rewrite parent_joinpath. }
    rewrite IH; simpl.
    + done.
    + apply dir_exists_add_dir.
    + apply forallb_forall. intros q' Hq'.
      apply not_file_add_dir. by eapply forallb_forall in Hrest.
Qed.

Lemma with_dirs_eq p s : with_dirs p s = fold_left add_dir (prefixes_from [] p) s.
Proof. done. Qed.

Lemma no_file_on_eq s p : no_file_on s p = forallb (not_file s) (prefixes_from [] p).
Proof. done. Qed.

Lemma mkdir_parents_run p w :
  no_file_on (fs w) p = true →
  mkdir_parents p w = (Ok tt, set_fs (with_dirs p (fs w)) w).
Proof.
  intros H. unfold mkdir_parents. rewrite with_dirs_eq.
  apply for_each_mkdir; [done | by rewrite <- no_file_on_eq].
Qed.

Lemma fold_add_dir_lookup l : ∀ s q,
  fold_left add_dir l s !! q
  = if decide (q ∈ l ∧ is_root q = false) then Some Dir else s !! q.
Proof.
  induction l as [|x l IH]; intros s q; simpl.
  - destruct (decide (q ∈ [] ∧ is_root q = false)) as [[H _]|]; [|done].
    by apply elem_of_nil in H.
  - rewrite IH. unfold add_dir.
    destruct (decide (q ∈ l ∧ is_root q = false)) as [[Hin Hr]|Hn].
    + rewrite decide_True; [done|]. split; [by right|done].
    + destruct (decide (q = x)) as [->|Hne].
      * destruct (is_root x) eqn:Hr.
        -- rewrite decide_False; [done|]. intros [_ ?]. congruence.
        -- rewrite lookup_insert_eq. rewrite decide_True; [done|].
           split; [by left|done].
      * assert ((if is_root x then s else <[x:=Dir]> s) !! q = s !! q) as ->.
        { destruct (is_root x); [done|]. by rewrite lookup_insert_ne. }
        destruct (decide (q ∈ x :: l ∧ is_root q = false)) as [[Hin Hr]|]; [|done].
        exfalso. apply Hn. split; [|done].
        apply elem_of_cons in Hin as [?|?]; [done|done].
Qed.

Lemma with_dirs_lookup p s q :
  with_dirs p s !! q
  = if decide (q ∈ prefixes_from [] p ∧ is_root q = false) then Some Dir else s !! q.
Proof. apply fold_add_dir_lookup. Qed.

Lemma prefixes_from_length p : ∀ base q,
  q ∈ prefixes_from base p → (length q ≤ length base + length p)%nat.
Proof.
  induction p as [|c p IH]; intros base q; simpl.
  - by intros ?%elem_of_nil.
  - intros [->|Hin]%elem_of_cons.
    + rewrite length_app. simpl. lia.
    + apply IH in Hin. rewrite length_app in Hin. simpl in Hin. lia.
Qed.

Lemma prefixes_from_last p : ∀ base,
  p ≠ [] → base ++ p ∈ prefixes_from base p.
Proof.
  induction p as [|c p IH]; intros base Hp; [done|]. simpl.
  destruct p as [|c' p].
  - left.
  - right. specialize (IH (base ++ [c])). rewrite <- app_assoc in IH.
    by apply IH.
Qed.

(** A path one part longer than [p] is not among the prefixes of [p]. *)
Lemma child_not_prefix p n : p // n ∉ prefixes_from [] p.
Proof.
  intros H%prefixes_from_length. unfold joinpath in H.
  rewrite length_app in H. simpl in H. lia.
Qed.

Lemma with_dirs_lookup_child p s n : with_dirs p s !! (p // n) = s !! (p // n).
Proof.
  rewrite with_dirs_lookup, decide_False; [done|].
  intros [H _]. by apply child_not_prefix in H.
Qed.

Lemma dir_exists_with_dirs p s : dir_exists (with_dirs p s) p = true.
Proof.
  unfold dir_exists. destruct (is_root p) eqn:Hr; [done|]. simpl.
  rewrite with_dirs_lookup, decide_True; [done|]. split; [|done].
  destruct p as [|c p]; [done|]. apply (prefixes_from_last (c :: p) []). done.
Qed.

Lemma not_file_with_dirs p s q :
  not_file s q = true → not_file (with_dirs p s) q = true.
Proof.
  unfold not_file. rewrite with_dirs_lookup. by case_decide.
Qed.

Lemma no_file_on_with_dirs p s p' :
  no_file_on s p' = true → no_file_on (with_dirs p s) p' = true.
Proof.
  rewrite !no_file_on_eq. intros H. apply forallb_forall. intros q Hq.
  apply not_file_with_dirs. by eapply forallb_forall in H.
Qed.

(** Writing a file below [p] leaves [mkdir_parents p] possible. *)
Lemma no_file_on_insert_child p s n c :
  no_file_on s p = true → no_file_on (<[p // n := File c]> s) p = true.
Proof.
  rewrite !no_file_on_eq. intros H. apply forallb_forall. intros q Hq.
  eapply forallb_forall in H; [|done]. unfold not_file in *.
  rewrite lookup_insert_ne; [done|]. intros <-.
  by apply list_elem_of_In, child_not_prefix in Hq.
Qed.

Lemma dir_exists_insert_file s p q c :
  q ≠ p → dir_exists (<[q := File c]> s) p = dir_exists s p.
Proof. intros Hne. unfold dir_exists. by rewrite lookup_insert_ne. Qed.

Lemma joinpath_inj p a b : p // a = p // b → a = b.
Proof. unfold joinpath. by intros [= ->]%app_inv_head. Qed.

Lemma joinpath_ne_self p a : p // a ≠ p.
Proof.
  intros H. apply (f_equal length) in H. unfold joinpath in H.
  rewrite length_app in H. simpl in H. lia.
Qed.

End FsFacts.

(** ** A run of the frame indexer *)

Module FramesRun.
Import Frames FsFacts.

(** One step of a run: the rule is chosen by the shape of the program. *)
Ltac wp_frames_step :=
  lazymatch goal with
  | |- wp (mbind _ _) _ _ => apply wp_bind
  | |- wp (info _ _) _ _ => apply FramesFacts.wp_info
  | |- wp (log _ _ _) _ _ => apply FramesFacts.wp_log
  | |- wp tick _ _ => apply wp_tick
  | |- wp (mret _) _ _ => apply wp_ret
  | |- wp (lift _) _ _ => apply wp_lift
  end; cbv beta iota.

Lemma wp_mkdir_parents p w Q :
  no_file_on (fs w) p = true →
  Q (Ok tt) (set_fs (with_dirs p (fs w)) w) →
  wp (mkdir_parents p) w Q.
Proof. intros H HQ. eapply wp_run; [by apply mkdir_parents_run|done]. Qed.

(** Keep of the current world only what its files are. *)
Ltac forget_world H :=
  lazymatch goal with
  | |- wp _ ?W _ =>
      let w := fresh "w" in
      remember W as w eqn:H;
      apply (f_equal fs) in H;
      cbn [fs logged ticked set_fs printed] in H
  end.

Section WithEnv.
Context (E : env).

Lemma find_all_frame_directories_found :
  frames_found E = true →
  ∃ fd fds, ∀ w, find_all_frame_directories E w = (Ok (fd :: fds), w).
Proof.
  unfold frames_found, find_all_frame_directories.
  destruct (path_exists E (NOCODEBACKEND_DIR E)); [|done]. simpl.
  destruct (iterdir E (NOCODEBACKEND_DIR E)) as [items|e]; [|done].
  destruct (omap (scan_item E) items) as [|fd fds] eqn:Hs; [done|].
  intros _. exists fd, fds. intros w.
  unfold mbind, M_bind, bind, lift. by rewrite Hs.
Qed.

Lemma wp_for_each_chatter {A} (body : A → M unit) (l : list A) : ∀ w Q,
  (∀ x w1, ∃ w2, body x w1 = (Ok tt, w2) ∧ chatter w1 w2) →
  (∀ w', chatter w w' → Q (Ok tt) w') →
  wp (for_each l body) w Q.
Proof.
  induction l as [|x l IH]; intros w Q Hbody HQ; simpl.
  - apply HQ, chatter_refl.
  - destruct (Hbody x w) as (w2 & Hrun & Hc).
    unfold wp, bind. rewrite Hrun. apply IH; [done|].
    intros w' Hc'. apply HQ. by eapply chatter_trans.
Qed.

(** The final summary always goes through, and says whether the
    knowledge base was created. *)
Lemma final_summary_run index_data doc memvid_success w :
  ∃ w', final_summary E index_data doc memvid_success w = (Ok tt, w')
        ∧ fs w' = fs w
        ∧ ∃ timestamp,
            In (log_line timestamp "INFO" (memvid_status memvid_success)) (stdout w').
Proof.
  apply wp_completes. unfold final_summary.
  destruct memvid_success; repeat wp_frames_step;
    (split; [done|]); (split; [done|]);
    eexists; cbn [logged]; find_line.
Qed.

Lemma wp_try_except {A} (m : M A) (h : exn → M A) w Q :
  wp m w (λ r w', match r with
                  | Raise e => if is_Exception e then wp (h e) w' Q
                               else Q (Raise e) w'
                  | Ok a => Q (Ok a) w'
                  end) →
  wp (try_except m h) w Q.
Proof.
  unfold wp, try_except. destruct (m w) as [[a|e] w']; simpl; [done|].
  by destruct (is_Exception e).
Qed.

(** Without the tool, the memvid step returns [False]: it prints its
    warning and touches no file. *)
Lemma build_memvid_absent index_data w :
  memvid_absent E = true →
  ∃ w', build_memvid_knowledge_base E index_data w = (Ok false, w')
        ∧ chatter w w'
        ∧ ∃ timestamp message, In (log_line timestamp "WARNING" message) (stdout w').
Proof.
  unfold memvid_absent. intros Habs.
  apply wp_yields.
  unfold build_memvid_knowledge_base, probe_memvid.
  apply wp_bind, wp_try_except, wp_bind, wp_lift.
  destruct (subprocess_run E ["which"; "memvid"]) as [r|e]; cbv beta iota.
  - rewrite Habs. repeat wp_frames_step.
    split; [done|]. split.
    + repeat (eapply chatter_trans; [|apply chatter_logged]). apply chatter_refl.
    + eexists _, _. cbn [logged]. find_line.
  - rewrite Habs. repeat wp_frames_step.
    split; [done|]. split.
    + apply chatter_logged.
    + eexists _, _. cbn [logged]. find_line.
Qed.

(** With the tool found but [memvid create] failing, the step writes
    its input file, prints an error and returns [False]. *)
Lemma build_memvid_create_fails index_data w :
  memvid_found E = true →
  memvid_create_fails E = true →
  writable (fs w) (temp_doc E) = true →
  ∃ w', build_memvid_knowledge_base E index_data w = (Ok false, w')
        ∧ fs w' = <[temp_doc E := File (TextDoc (memvid_input index_data))]> (fs w)
        ∧ stdout w `prefix_of` stdout w'
        ∧ ∃ timestamp message, In (log_line timestamp "ERROR" message) (stdout w').
Proof.
  unfold memvid_found, memvid_create_fails. intros Hfound Hfails Hw.
  apply wp_yields.
  unfold build_memvid_knowledge_base, probe_memvid.
  apply wp_bind, wp_try_except, wp_bind, wp_lift.
  destruct (subprocess_run E ["which"; "memvid"]) as [r|e]; [|done].
  cbv beta iota. rewrite Hfound. cbn [negb]. repeat wp_frames_step.
  apply wp_write_file; [done|]. cbv beta iota.
  unfold create_memvid.
  apply wp_try_except, wp_bind, wp_lift.
  destruct (subprocess_run E _) as [r'|e']; cbv beta iota.
  - destruct (returncode r' =? 0); [done|]. repeat wp_frames_step.
    split; [done|]. split; [done|]. split.
    + cbn [stdout logged set_fs]. by do 2 apply prefix_app_r.
    + eexists _, _. cbn [logged]. find_line.
  - rewrite Hfails. repeat wp_frames_step.
    split; [done|]. split; [done|]. split.
    + cbn [stdout logged set_fs]. by do 2 apply prefix_app_r.
    + eexists _, _. cbn [logged]. find_line.
Qed.

Lemma index_ne_doc : index_path E ≠ doc_path E.
Proof. by intros H%joinpath_inj. Qed.

Lemma index_ne_temp : index_path E ≠ temp_doc E.
Proof. by intros H%joinpath_inj. Qed.

Lemma doc_ne_temp : doc_path E ≠ temp_doc E.
Proof. by intros H%joinpath_inj. Qed.

Lemma parent_index_path : parent (index_path E) = KNOWLEDGE_BASE_DIR E.
Proof. apply parent_joinpath. Qed.

Lemma parent_doc_path : parent (doc_path E) = KNOWLEDGE_BASE_DIR E.
Proof. apply parent_joinpath. Qed.

Lemma parent_temp_doc : parent (temp_doc E) = KNOWLEDGE_BASE_DIR E.
Proof. apply parent_joinpath. Qed.

Lemma wp_create_markdown_documentation frame_dirs index_data w Q :
  no_file_on (fs w) (KNOWLEDGE_BASE_DIR E) = true →
  not_dir (fs w) (doc_path E) = true →
  Q (Ok (doc_path E))
    (set_fs (<[doc_path E :=
                 File (TextDoc (concat_str
                   (guide_chunks (strftime E (clock w)) index_data)))]>
               (with_dirs (KNOWLEDGE_BASE_DIR E) (fs w))) (ticked w)) →
  wp (create_markdown_documentation E frame_dirs index_data) w Q.
Proof.
  intros Hnf Hnd HQ. unfold create_markdown_documentation.
  repeat wp_frames_step. rewrite parent_doc_path.
  apply wp_mkdir_parents; [done|]. cbv beta iota.
  wp_frames_step. apply wp_write_file.
  { unfold writable. rewrite parent_doc_path. cbn [fs set_fs ticked].
    rewrite dir_exists_with_dirs. unfold not_dir in *.
    unfold doc_path at 1. rewrite with_dirs_lookup_child. done. }
  cbv beta iota. wp_frames_step. apply HQ.
Qed.

(** The guide is written where nothing of the wrong kind is in the way. *)
Lemma create_markdown_documentation_run frame_dirs index_data w :
  no_file_on (fs w) (KNOWLEDGE_BASE_DIR E) = true →
  not_dir (fs w) (doc_path E) = true →
  ∃ w', create_markdown_documentation E frame_dirs index_data w
        = (Ok (doc_path E), w')
        ∧ fs w' !! doc_path E
          = Some (File (TextDoc (concat_str
                    (guide_chunks (strftime E (clock w)) index_data)))).
Proof.
  intros Hnf Hnd. apply wp_yields.
  apply wp_create_markdown_documentation; [done|done|].
  split; [done|]. cbn [fs set_fs]. apply lookup_insert_eq.
Qed.

Lemma main_run w :
  frames_found E = true →
  kb_writable E (fs w) = true →
  (∀ index_data w1,
     writable (fs w1) (temp_doc E) = true →
     ∃ w2, build_memvid_knowledge_base E index_data w1 = (Ok false, w2)
           ∧ stdout w1 `prefix_of` stdout w2
           ∧ ∀ p, p ≠ temp_doc E → fs w2 !! p = fs w1 !! p) →
  ∃ w' index_data text timestamp,
    main E w = (Ok tt, w')
    ∧ fs w' !! index_path E = Some (File (JsonDoc (IndexData.to_json index_data)))
    ∧ fs w' !! doc_path E = Some (File (TextDoc text))
    ∧ In (log_line timestamp "INFO" "Memvid KB: Not Created") (stdout w').
Proof.
  intros (fd & fds & Hscan)%find_all_frame_directories_found Hkb Hmem.
  unfold kb_writable in Hkb.
  apply andb_prop in Hkb as [Hkb Htmp]. apply andb_prop in Hkb as [Hkb Hdoc].
  apply andb_prop in Hkb as [Hnf Hidx].
  cut (wp (main E) w (λ r w', r = Ok tt ∧ ∃ index_data text timestamp,
    fs w' !! index_path E = Some (File (JsonDoc (IndexData.to_json index_data)))
    ∧ fs w' !! doc_path E = Some (File (TextDoc text))
    ∧ In (log_line timestamp "INFO" "Memvid KB: Not Created") (stdout w'))).
  { intros (w' & Hrun & (i & t & ts & H))%wp_completes. by exists w', i, t, ts. }
  unfold main. repeat wp_frames_step.
  eapply wp_run; [apply Hscan|]. cbv beta iota.
  repeat wp_frames_step.
  apply (wp_for_each_chatter _ (fd :: fds)).
  { intros x w1. eexists (logged E "INFO" _ w1).
    split; [reflexivity|apply chatter_logged]. }
  intros w1 [Hfs1 _]. cbn [fs logged] in Hfs1.
  repeat wp_frames_step.
  eapply wp_run; [apply FramesFacts.create_knowledge_index_eq|].
  cbv beta iota. rewrite parent_index_path.
  repeat wp_frames_step.
  apply wp_mkdir_parents; [cbn [fs logged ticked]; by rewrite Hfs1|].
  cbv beta iota. repeat wp_frames_step. apply wp_write_file.
  { unfold writable. rewrite parent_index_path. cbn [fs set_fs ticked logged].
    rewrite dir_exists_with_dirs. unfold not_dir in *.
    unfold index_path at 1. rewrite with_dirs_lookup_child, Hfs1. done. }
  cbv beta iota. repeat wp_frames_step.
  set (index_data := knowledge_index _ (fd :: fds)).
  forget_world Hfs2. rewrite Hfs1 in Hfs2.
  apply wp_create_markdown_documentation.
  { rewrite Hfs2. unfold index_path.
    by apply no_file_on_insert_child, no_file_on_with_dirs. }
  { rewrite Hfs2. unfold not_dir in *.
    rewrite lookup_insert_ne by apply index_ne_doc.
    unfold doc_path at 1. by rewrite with_dirs_lookup_child. }
  repeat wp_frames_step. forget_world Hfs3.
  destruct (Hmem index_data w2) as (w3 & Hrun3 & _ & Hframe).
  { unfold writable. rewrite parent_temp_doc, Hfs3.
    rewrite dir_exists_insert_file by apply joinpath_ne_self.
    rewrite dir_exists_with_dirs. unfold not_dir in *.
    rewrite lookup_insert_ne by apply doc_ne_temp.
    unfold temp_doc at 1. rewrite with_dirs_lookup_child. fold (temp_doc E).
    rewrite Hfs2, lookup_insert_ne by apply index_ne_temp.
    unfold temp_doc at 1. by rewrite with_dirs_lookup_child. }
  eapply wp_run; [apply Hrun3|]. cbv beta iota.
  destruct (final_summary_run index_data (doc_path E) false w3)
    as (w4 & Hrun4 & Hfs4 & ts & Hin).
  eapply wp_run; [apply Hrun4|]. split; [done|].
  exists index_data. eexists. exists ts. rewrite Hfs4.
  rewrite !Hframe by (apply index_ne_temp || apply doc_ne_temp).
  rewrite Hfs3. split; [|split; [|done]].
  - rewrite lookup_insert_ne by (apply not_eq_sym, index_ne_doc).
    unfold index_path at 1. rewrite with_dirs_lookup_child. fold (index_path E).
    by rewrite Hfs2, lookup_insert_eq.
  - by rewrite lookup_insert_eq.
Qed.

End WithEnv.
End FramesRun.

(** ** The topic organiser *)

Module BuilderFacts.
Import Builder FsFacts.

Lemma wp_builder_log E message level w Q :
  Q (Ok tt) (logged E level message w) → wp (log E message level) w Q.
Proof. done. Qed.

Lemma wp_builder_info E message w Q :
  Q (Ok tt) (logged E "INFO" message w) → wp (info E message) w Q.
Proof. done. Qed.

Ltac wp_builder_step :=
  lazymatch goal with
  | |- wp (mbind _ _) _ _ => apply wp_bind
  | |- wp (info _ _) _ _ => apply wp_builder_info
  | |- wp (log _ _ _) _ _ => apply wp_builder_log
  | |- wp tick _ _ => apply wp_tick
  | |- wp (mret _) _ _ => apply wp_ret
  | |- wp (lift _) _ _ => apply wp_lift
  | |- wp (print _) _ _ => apply wp_print
  end; cbv beta iota.

(** Two paths differ: in depth, or in a part at the same depth. *)
Ltac path_ne :=
  let H := fresh in
  let Hx := fresh in
  intros H;
  first [ apply (f_equal length) in H; unfold joinpath in H;
          rewrite ?length_app in H; simpl in H; lia
        | unfold joinpath in H;
          repeat (apply app_inj_tail in H as [H Hx];
                  first [discriminate Hx | congruence | clear Hx]);
          congruence ].

Ltac lookup_paths :=
  repeat first [ rewrite lookup_insert_eq
               | rewrite lookup_insert_ne by path_ne ].

Lemma wp_mkdir p w Q :
  is_root p = false →
  not_file (fs w) p = true →
  dir_exists (fs w) (parent p) = true →
  Q (Ok tt) (set_fs (<[p := Dir]> (fs w)) w) →
  wp (mkdir p) w Q.
Proof.
  intros Hr Hnf Hpar HQ. eapply wp_run; [by apply mkdir_run|].
  unfold add_dir. by rewrite Hr.
Qed.

Lemma joinpath_str_simple p n : simple_name n = true → p /// n = p // n.
Proof.
  unfold simple_name, joinpath_str, joinpath.
  intros [Ha Hn%bool_decide_eq_true]%andb_prop.
  apply negb_true_iff in Ha. by rewrite Ha, Hn.
Qed.

Lemma prefix_sibling (p : Path) (a b : string) (rest : list string) :
  (p // a) `prefix_of` (p ++ b :: rest) → a = b.
Proof.
  unfold joinpath. intros H%prefix_app_inv. by apply prefix_cons_inv_1 in H.
Qed.

Lemma not_prefix_self (p : Path) (a : string) : ¬ (p // a) `prefix_of` p.
Proof.
  intros H%prefix_length. unfold joinpath in H.
  rewrite length_app in H. simpl in H. lia.
Qed.

Section WithEnv.
Context (E : env).

(** The classification step yields the seven labels, each with no
    frame, whatever the directories are. *)
Lemma extract_topics_from_frames_run self frame_directories w :
  ∃ w', extract_topics_from_frames E self frame_directories w
        = (Ok empty_topics, w')
        ∧ chatter w w'.
Proof.
  apply wp_yields. unfold extract_topics_from_frames.
  apply wp_bind, wp_builder_info. cbv beta iota.
  apply wp_bind, FramesRun.wp_for_each_chatter.
  - intros video_dir w1.
    apply wp_completes. cbv zeta. apply wp_bind, wp_builder_info. cbv beta iota.
    apply FramesRun.wp_for_each_chatter.
    + intros frame w2. exists w2. split; [done|apply chatter_refl].
    + intros w2 Hc. split; [done|].
      eapply chatter_trans; [apply chatter_logged|done].
  - intros w1 Hc. cbv beta iota. apply wp_ret. split; [done|].
    eapply chatter_trans; [apply chatter_logged|done].
Qed.

Lemma is_root_child (p : Path) (n : string) : p ≠ [] → is_root (p // n) = false.
Proof. destruct p as [|a [|b p]]; [done|done|done]. Qed.

(** The files of the world after one turn of the loop of
    [build_topic_structure]. *)
Lemma build_topic_run self topic_name frame_paths w :
  let topic_dir := topics_dir self // topic_name in
  topics_dir self ≠ [] →
  simple_name topic_name = true →
  dir_exists (fs w) (topics_dir self) = true →
  topic_slot_free (fs w) topic_dir = true →
  ∃ w', build_topic E self (topic_name, frame_paths) w = (Ok tt, w')
        ∧ stdout w' = stdout w
        ∧ fs w' =
          <[topic_dir // "concepts" // "overview.md" :=
              File (TextDoc (overview_md self topic_name frame_paths))]>
          (<[topic_dir // "metadata.json" :=
              File (JsonDoc (topic_metadata topic_name (isoformat E (clock w))
                                            frame_paths))]>
          (<[topic_dir // "frames" := Dir]>
          (<[topic_dir // "code-examples" := Dir]>
          (<[topic_dir // "concepts" := Dir]>
          (<[topic_dir := Dir]> (fs w)))))).
Proof.
  intros topic_dir HT Hsimple Hdir Hfree.
  unfold topic_slot_free in Hfree. fold topic_dir in Hfree.
  repeat (apply andb_prop in Hfree as [Hfree ?]).
  unfold not_file, not_dir in *.
  apply wp_completes. unfold build_topic. cbn [fst snd]. cbv zeta.
  rewrite joinpath_str_simple by done. fold topic_dir.
  wp_builder_step. apply wp_mkdir; cbn [fs set_fs].
  { by apply is_root_child. }
  { done. }
  { unfold topic_dir. by rewrite parent_joinpath. }
  wp_builder_step. apply wp_mkdir; cbn [fs set_fs].
  { apply is_root_joinpath. }
  { unfold not_file. by lookup_paths. }
  { rewrite parent_joinpath. unfold dir_exists. lookup_paths. apply orb_true_r. }
  wp_builder_step. apply wp_mkdir; cbn [fs set_fs].
  { apply is_root_joinpath. }
  { unfold not_file. by lookup_paths. }
  { rewrite parent_joinpath. unfold dir_exists. lookup_paths. apply orb_true_r. }
  wp_builder_step. apply wp_mkdir; cbn [fs set_fs].
  { apply is_root_joinpath. }
  { unfold not_file. by lookup_paths. }
  { rewrite parent_joinpath. unfold dir_exists. lookup_paths. apply orb_true_r. }
  repeat wp_builder_step. apply wp_write_file; cbn [fs set_fs ticked].
  { unfold writable, not_dir. rewrite parent_joinpath. unfold dir_exists.
    lookup_paths. by rewrite orb_true_r. }
  repeat wp_builder_step. apply wp_write_file; cbn [fs set_fs ticked].
  { unfold writable, not_dir. rewrite parent_joinpath. unfold dir_exists.
    lookup_paths. by rewrite orb_true_r. }
  done.
Qed.

Lemma prefix_child (p : Path) (a : string) : p `prefix_of` p // a.
Proof. by apply prefix_app_r. Qed.

Lemma prefix_grandchild (p : Path) (a b : string) : p `prefix_of` p // a // b.
Proof. by apply prefix_app_r, prefix_app_r. Qed.

(** Two different names below one directory share no entry. *)
Lemma under_other (p : Path) (n n' : string) (q : Path) :
  n ≠ n' → (p // n') `prefix_of` q → ¬ (p // n) `prefix_of` q.
Proof.
  intros Hne H' H. apply Hne, (joinpath_inj p).
  destruct (prefix_weak_total _ _ _ H H') as [Hp|Hp];
    apply prefix_length_eq in Hp; try done;
    unfold joinpath; rewrite !length_app; simpl; lia.
Qed.

Lemma topic_slot_free_frame (s s' : gmap Path node) (topic_dir : Path) :
  (∀ q, topic_dir `prefix_of` q → s' !! q = s !! q) →
  topic_slot_free s' topic_dir = topic_slot_free s topic_dir.
Proof.
  intros Hframe. unfold topic_slot_free, not_file, not_dir.
  rewrite !Hframe; [done|..];
    first [done | apply prefix_child | apply prefix_grandchild].
Qed.

Lemma build_topic_structure_run self topics : ∀ w,
  topics_dir self ≠ [] →
  NoDup (map fst topics) →
  Forall (λ n, simple_name n = true) (map fst topics) →
  dir_exists (fs w) (topics_dir self) = true →
  Forall (λ n, topic_slot_free (fs w) (topics_dir self // n) = true)
         (map fst topics) →
  ∃ w', build_topic_structure E self topics w = (Ok tt, w')
        ∧ stdout w' = stdout w
        ∧ (∀ q, (∀ n, n ∈ map fst topics → ¬ (topics_dir self // n) `prefix_of` q) →
                fs w' !! q = fs w !! q)
        ∧ (∀ n paths, (n, paths) ∈ topics → topic_built self n paths (fs w')).
Proof.
  intros w HT. revert w.
  induction topics as [|[n paths] topics IH]; intros w Hnd Hsimple Hdir Hfree.
  - exists w. split; [done|]. split; [done|]. split; [done|].
    by intros n paths ?%elem_of_nil.
  - cbn [map fst] in *.
    apply NoDup_cons in Hnd as [Hn Hnd].
    apply Forall_cons in Hsimple as [Hsn Hsimple].
    apply Forall_cons in Hfree as [Hfn Hfree].
    destruct (build_topic_run self n paths w HT Hsn Hdir Hfn)
      as (w1 & Hrun1 & Hout1 & Hfs1).
    set (topic_dir := topics_dir self // n) in *.
    assert (∀ q, ¬ topic_dir `prefix_of` q → fs w1 !! q = fs w !! q) as Hframe1.
    { intros q Hq. rewrite Hfs1.
      rewrite !lookup_insert_ne; [done|..]; intros <-; apply Hq;
        first [done | apply prefix_child | apply prefix_grandchild]. }
    destruct (IH w1) as (w2 & Hrun2 & Hout2 & Hframe2 & Hbuilt2); [done|done|..].
    { unfold dir_exists. rewrite Hframe1; [done|]. apply not_prefix_self. }
    { apply Forall_forall. intros n' Hn'.
      rewrite (topic_slot_free_frame (fs w)).
      - by eapply Forall_forall in Hfree.
      - intros q Hq. apply Hframe1. eapply under_other; [|done].
        intros ->. done. }
    exists w2. split.
    { unfold build_topic_structure in *. cbn [for_each]. unfold bind.
      by rewrite Hrun1. }
    split; [congruence|]. split.
    { intros q Hq. rewrite Hframe2, Hframe1; [done|..].
      - apply Hq. left.
      - intros n' Hn'. apply Hq. by right. }
    intros n' paths' [[= -> ->]|Hin]%elem_of_cons; [|by apply Hbuilt2].
    assert (∀ q, topic_dir `prefix_of` q → fs w2 !! q = fs w1 !! q) as Hkeep.
    { intros q Hq. apply Hframe2. intros n' Hn'.
      eapply under_other; [|done]. intros ->. done. }
    unfold topic_built. fold topic_dir.
    rewrite !Hkeep by first [done | apply prefix_child | apply prefix_grandchild].
    rewrite Hfs1. split_and!; [by lookup_paths..| |by lookup_paths].
    eexists. by lookup_paths.
Qed.

Lemma master_index_totals self now frame_directories :
  let idx := master_index E self now frame_directories in
  totals_consistent (MasterIndex.total_videos idx) (MasterIndex.total_frames idx)
                    (MasterIndex.videos idx).
Proof.
  split; simpl.
  - by rewrite map_map.
  - unfold Py.len. by rewrite length_map.
Qed.

Lemma master_video_info_count video_dir :
  VideoInfo.frame_count (master_video_info E video_dir)
  = Py.len (VideoInfo.frames (master_video_info E video_dir)).
Proof. simpl. unfold Py.len. by rewrite length_map. Qed.

Lemma wp_create_master_index self frame_directories w Q :
  writable (fs w) (search_dir self // "master_index.json") = true →
  (∀ w', fs w' = <[search_dir self // "master_index.json" :=
                     File (JsonDoc (MasterIndex.to_json
                       (master_index E self (isoformat E (clock w))
                                     frame_directories)))]> (fs w) →
         stdout w `prefix_of` stdout w' →
         Q (Ok (master_index E self (isoformat E (clock w)) frame_directories)) w') →
  wp (create_master_index E self frame_directories) w Q.
Proof.
  intros Hw HQ. unfold create_master_index. cbv zeta.
  repeat wp_builder_step. apply wp_write_file; [done|]. cbv beta iota.
  repeat wp_builder_step. apply HQ; [done|].
  cbn [stdout logged set_fs ticked]. by apply prefix_app_r.
Qed.

Lemma wp_create_search_guide self w Q :
  writable (fs w) (kb_dir self // "SEARCH_GUIDE.md") = true →
  (∀ w', (∃ text, fs w' = <[kb_dir self // "SEARCH_GUIDE.md" :=
                              File (TextDoc text)]> (fs w)) →
         stdout w `prefix_of` stdout w' →
         Q (Ok tt) w') →
  wp (create_search_guide E self) w Q.
Proof.
  intros Hw HQ. unfold create_search_guide. cbv zeta.
  repeat wp_builder_step. apply wp_write_file; [done|]. cbv beta iota.
  repeat wp_builder_step. apply HQ; [by eexists|].
  cbn [stdout logged set_fs ticked]. by apply prefix_app_r.
Qed.

End WithEnv.
End BuilderFacts.

(** ** A run of the topic organiser *)

Module BuilderRun.
Import Builder FsFacts BuilderFacts.

(** A path is not below another: it is shorter, or as long and different. *)
Ltac not_below :=
  let H := fresh in
  intros H;
  first [ apply prefix_length in H; unfold joinpath in H;
          rewrite ?length_app in H; simpl in H; lia
        | apply prefix_length_eq in H;
          [ revert H; path_ne
          | unfold joinpath; rewrite ?length_app; simpl; lia ] ].

Section WithEnv.
Context (E : env).

Lemma topic_names_simple : Forall (λ n, simple_name n = true) TOPIC_NAMES.
Proof. repeat constructor. Qed.

Lemma topic_names_NoDup : NoDup TOPIC_NAMES.
Proof. apply (bool_decide_unpack _). by vm_compute. Qed.

Lemma wp_extract_topics_from_frames self frame_directories w Q :
  (∀ w', chatter w w' → Q (Ok empty_topics) w') →
  wp (extract_topics_from_frames E self frame_directories) w Q.
Proof.
  intros HQ.
  destruct (extract_topics_from_frames_run E self frame_directories w)
    as (w' & Hrun & Hc).
  eapply wp_run; [done|]. by apply HQ.
Qed.

Lemma wp_build_topic_structure self topics w Q :
  topics_dir self ≠ [] →
  NoDup (map fst topics) →
  Forall (λ n, simple_name n = true) (map fst topics) →
  dir_exists (fs w) (topics_dir self) = true →
  Forall (λ n, topic_slot_free (fs w) (topics_dir self // n) = true)
         (map fst topics) →
  (∀ w',
     (∀ q, (∀ n, n ∈ map fst topics → ¬ (topics_dir self // n) `prefix_of` q) →
           fs w' !! q = fs w !! q) →
     (∀ n paths, (n, paths) ∈ topics → topic_built self n paths (fs w')) →
     Q (Ok tt) w') →
  wp (build_topic_structure E self topics) w Q.
Proof.
  intros HT Hnd Hs Hd Hf HQ.
  destruct (build_topic_structure_run E self topics w HT Hnd Hs Hd Hf)
    as (w' & Hrun & _ & Hframe & Hbuilt).
  eapply wp_run; [done|]. by apply HQ.
Qed.

(** Writing outside the directory of a topic leaves its entries alone. *)
Lemma topic_built_insert self n paths s q x :
  ¬ (topics_dir self // n) `prefix_of` q →
  topic_built self n paths s →
  topic_built self n paths (<[q := x]> s).
Proof.
  intros Hq. unfold topic_built. cbv zeta.
  rewrite !lookup_insert_ne; [done|..]; intros ->; apply Hq;
    first [done | apply prefix_child | apply prefix_grandchild].
Qed.

Lemma build_run topic source w :
  let self := attributes E topic source in
  source_has_frames E source = true →
  build_ready self (fs w) = true →
  ∃ w', build E self w = (Ok true, w')
        ∧ ∀ n, n ∈ TOPIC_NAMES → topic_built self n [] (fs w').
Proof.
  intros self Hsrc Hready.
  unfold source_has_frames in Hsrc. unfold build_ready in Hready.
  repeat (apply andb_prop in Hready as [Hready ?]).
  apply wp_yields. unfold build. cbn [source_dir self attributes].
  repeat wp_builder_step.
  destruct (iterdir E source) as [entries|]; [|done]. cbv beta iota zeta.
  destruct (List.filter (has_frames E) entries) as [|d ds] eqn:Hd; [done|].
  repeat wp_builder_step.
  apply wp_extract_topics_from_frames. intros w1 [Hfs1 _].
  cbn [fs logged] in Hfs1. repeat wp_builder_step.
  assert (kb_dir self = KB_BASE_DIR E /// topic) as HK by done.
  assert (topics_dir self = KB_BASE_DIR E /// topic // "topics") as HT by done.
  assert (search_dir self = KB_BASE_DIR E /// topic // "search-index") as HS by done.
  revert HK HT HS. generalize (KB_BASE_DIR E /// topic) as K. intros K HK HT HS.
  apply wp_build_topic_structure.
  { rewrite HT. unfold joinpath. by destruct K. }
  { apply topic_names_NoDup. }
  { apply topic_names_simple. }
  { cbn [fs logged]. by rewrite Hfs1. }
  { apply Forall_forall. intros n Hn. cbn [fs logged]. rewrite Hfs1.
    eapply forallb_forall in H2; [done|]. by apply list_elem_of_In. }
  intros w2 Hframe2 Hbuilt2. cbn [fs logged] in Hframe2. rewrite Hfs1 in Hframe2.
  repeat wp_builder_step.
  apply wp_create_master_index.
  { unfold writable, dir_exists, not_dir in *. rewrite parent_joinpath.
    cbn [fs logged]. rewrite !Hframe2; [by rewrite H3|..];
      intros n _; rewrite HT, HS; not_below. }
  intros w3 Hfs3 _. cbn [fs logged] in Hfs3. repeat wp_builder_step.
  apply wp_create_search_guide.
  { unfold writable, dir_exists, not_dir in *. rewrite parent_joinpath.
    cbn [fs logged]. rewrite Hfs3.
    rewrite !lookup_insert_ne by (rewrite HK, HS; path_ne).
    rewrite !Hframe2; [by rewrite Hready|..];
      intros n _; rewrite HT, HK; not_below. }
  intros w4 [text Hfs4] _. cbn [fs logged] in Hfs4. repeat wp_builder_step.
  apply wp_write_file.
  { unfold writable, dir_exists, not_dir in *. rewrite parent_joinpath.
    cbn [fs ticked]. rewrite Hfs4.
    rewrite !lookup_insert_ne by (rewrite HK; path_ne). rewrite Hfs3.
    rewrite !lookup_insert_ne by (rewrite HK, HS; path_ne).
    rewrite !Hframe2; [by rewrite Hready|..];
      intros n _; rewrite HT, HK; not_below. }
  cbv beta iota. repeat wp_builder_step.
  split; [done|]. intros n Hn. cbn [fs logged set_fs ticked].
  rewrite Hfs4, Hfs3.
  apply topic_built_insert; [rewrite HT, HK; not_below|].
  apply topic_built_insert; [rewrite HT, HK; not_below|].
  apply topic_built_insert; [rewrite HT, HS; not_below|].
  apply Hbuilt2. unfold empty_topics.
  apply list_elem_of_In, in_map_iff. exists n. split; [done|].
  by apply list_elem_of_In.
Qed.
(** Without a directory of frames, [build] reports failure and writes
    nothing. *)
Lemma build_without_frames self w :
  source_without_frames E (source_dir self) = true →
  ∃ w', build E self w = (Ok false, w') ∧ chatter w w'.
Proof.
  unfold source_without_frames. intros Hsrc.
  apply wp_yields. unfold build. repeat wp_builder_step.
  destruct (iterdir E (source_dir self)) as [entries|]; [|done].
  cbv beta iota zeta.
  destruct (List.filter (has_frames E) entries) as [|d ds]; [|done].
  repeat wp_builder_step. split; [done|].
  repeat (eapply chatter_trans; [|apply chatter_logged]). apply chatter_refl.
Qed.

Lemma mkdir_no_exit p w : no_exit (mkdir p w).1.
Proof.
  unfold mkdir. destruct (is_root p); [done|].
  destruct (fs w !! p) as [[|c]|]; try done.
  by destruct (dir_exists (fs w) (parent p)).
Qed.

Lemma for_each_no_exit {A} (body : A → M unit) (l : list A) :
  (∀ x w, no_exit (body x w).1) → ∀ w, no_exit (for_each l body w).1.
Proof.
  intros Hbody. induction l as [|x l IH]; intros w; simpl; [done|].
  unfold bind. specialize (Hbody x w).
  destruct (body x w) as [[[]|e] w1]; simpl in *; [apply IH|done].
Qed.

(** [__init__] can only fail with an error of the filesystem. *)
Lemma init_outcome topic source w :
  (∃ w', init E topic source w = (Ok (attributes E topic source), w'))
  ∨ (∃ cls msg w', init E topic source w = (Raise (Error cls msg), w')).
Proof.
  unfold init. cbv zeta. unfold mbind, M_bind, bind.
  pose proof (for_each_no_exit mkdir_parents
    [kb_dir (attributes E topic source); topics_dir (attributes E topic source);
     tech_dir (attributes E topic source); code_dir (attributes E topic source);
     search_dir (attributes E topic source)]) as H.
  specialize (H (λ p w, for_each_no_exit mkdir (prefixes_from [] p) mkdir_no_exit w) w).
  destruct (for_each _ mkdir_parents w) as [[[]|[c|cls msg]] w1]; simpl in H.
  - left. by eexists.
  - done.
  - right. by eexists _, _, _.
Qed.

(** What [main] does once the arguments are there and the source
    directory exists: construct, build, then leave with the status of the
    build. *)
Lemma main_with_builds construct run prog topic source rest w :
  path_exists E (PathLib.of_string source) = true →
  main_with E construct run (prog :: topic :: source :: rest) w
  = match construct topic (PathLib.of_string source) w with
    | (Ok builder, w1) =>
        match run builder w1 with
        | (Ok success, w2) =>
            (Raise (SystemExit (if (success : bool) then 0 else 1)), w2)
        | (Raise e, w2) => (Raise e, w2)
        end
    | (Raise e, w1) => (Raise e, w1)
    end.
Proof.
  intros Hex. unfold main_with.
  assert ((Py.len (prog :: topic :: source :: rest) <? 3) = false) as ->.
  { apply Z.ltb_ge. unfold Py.len. cbn [length]. lia. }
  unfold mbind, M_bind, bind. cbv zeta. rewrite Hex.
  cbn [negb]. unfold mret, M_ret, ret. cbv beta iota.
  destruct (construct topic (PathLib.of_string source) w) as [[b|e] w1]; [|done].
  by destruct (run b w1) as [[[]|e] w2].
Qed.

Lemma main_builds prog topic source rest w :
  path_exists E (PathLib.of_string source) = true →
  main E (prog :: topic :: source :: rest) w
  = match init E topic (PathLib.of_string source) w with
    | (Ok builder, w1) =>
        match build (after_init E builder) builder w1 with
        | (Ok success, w2) => (Raise (SystemExit (if success then 0 else 1)), w2)
        | (Raise e, w2) => (Raise e, w2)
        end
    | (Raise e, w1) => (Raise e, w1)
    end.
Proof. intros Hex. unfold main. by rewrite main_with_builds. Qed.

Lemma main_with_usage construct run argv w :
  Py.len argv < 3 →
  ∃ w', main_with E construct run argv w = (Raise (SystemExit 1), w')
        ∧ fs w' = fs w
        ∧ stdout w' = stdout w ++ usage.
Proof.
  intros Hlen%Z.ltb_lt. unfold main_with. rewrite Hlen.
  eexists. split; [reflexivity|]. split; [done|].
  cbn [stdout]. by rewrite <- app_assoc.
Qed.

Lemma main_usage argv w :
  Py.len argv < 3 →
  ∃ w', main E argv w = (Raise (SystemExit 1), w')
        ∧ fs w' = fs w
        ∧ stdout w' = stdout w ++ usage.
Proof. apply main_with_usage. Qed.

Lemma main_with_source_missing construct run prog topic source rest w :
  path_exists E (PathLib.of_string source) = false →
  ∃ w', main_with E construct run (prog :: topic :: source :: rest) w
        = (Raise (SystemExit 1), w')
        ∧ fs w' = fs w.
Proof.
  intros Hex. unfold main_with.
  assert ((Py.len (prog :: topic :: source :: rest) <? 3) = false) as ->.
  { apply Z.ltb_ge. unfold Py.len. cbn [length]. lia. }
  unfold mbind, M_bind, bind. cbv zeta. rewrite Hex.
  cbn [negb]. unfold mret, M_ret, ret. cbv beta iota. by eexists.
Qed.

Lemma main_source_missing prog topic source rest w :
  path_exists E (PathLib.of_string source) = false →
  ∃ w', main E (prog :: topic :: source :: rest) w = (Raise (SystemExit 1), w')
        ∧ fs w' = fs w.
Proof. apply main_with_source_missing. Qed.

End WithEnv.

(** A step back is followed to the parent, through directories only; and
    a directory that [__init__] makes shows in the listing [build] takes. *)
Example paths_are_resolved :
  path_exists Sample.E (PathLib.of_string "src/../src") = true
  ∧ path_exists Sample.E (PathLib.of_string "src/v/a.png/..") = false
  ∧ path_exists Sample.E (PathLib.of_string "/../work/src/v") = true
  ∧ iterdir Sample.E (home Sample.E) = Ok [home Sample.E // "xtractedyt"]
  ∧ iterdir (after_init Sample.E (attributes Sample.E "../up" ["src"]))
      (home Sample.E)
    = Ok [home Sample.E // "up"; home Sample.E // "knowledge-bases";
          home Sample.E // "xtractedyt"]
  ∧ source_has_frames Sample.E (home Sample.E) = false
  ∧ source_has_frames (after_init Sample.E (attributes Sample.E "a.png" ["src"]))
      (home Sample.E) = true.
Proof. repeat split; vm_compute; reflexivity. Qed.

(** Making directories changes the tree and nothing else of the
    environment. *)
Lemma made_fields E p :
  (home (made E p), strftime (made E p), isoformat (made E p),
   subprocess_run (made E p))
  = (home E, strftime E, isoformat E, subprocess_run E).
Proof. unfold made. by destruct (canonical E p). Qed.

Lemma fold_left_fields {A} (f : env → A → env) (l : list A) :
  (∀ E x, (home (f E x), strftime (f E x), isoformat (f E x),
           subprocess_run (f E x))
          = (home E, strftime E, isoformat E, subprocess_run E)) →
  ∀ E, (home (fold_left f l E), strftime (fold_left f l E),
        isoformat (fold_left f l E), subprocess_run (fold_left f l E))
       = (home E, strftime E, isoformat E, subprocess_run E).
Proof.
  intros Hf. induction l as [|x l IH]; intros E; [done|].
  cbn [fold_left]. by rewrite IH.
Qed.

Lemma after_init_fields E self :
  (home (after_init E self), strftime (after_init E self),
   isoformat (after_init E self), subprocess_run (after_init E self))
  = (home E, strftime E, isoformat E, subprocess_run E).
Proof.
  unfold after_init. apply fold_left_fields. intros E' p.
  unfold made_parents. apply fold_left_fields. apply made_fields.
Qed.

Lemma attributes_after_init E self topic source :
  attributes (after_init E self) topic source = attributes E topic source.
Proof.
  pose proof (after_init_fields E self) as [= Hhome _ _ _].
  unfold attributes, KB_BASE_DIR, HOME. by rewrite Hhome.
Qed.

End BuilderRun.
(** ** The snapshot after [__init__] *)

Module Snapshot.

Lemma assoc_app {V} (k : string) (l1 l2 : list (string * V)) :
  assoc k (l1 ++ l2) = match assoc k l1 with Some v => Some v | None => assoc k l2 end.
Proof.
  induction l1 as [|[k' v] l1 IH]; [done|]. cbn [app assoc].
  by destruct (String.eqb k k').
Qed.

Lemma assoc_None {V} (k : string) (l : list (string * V)) :
  assoc k l = None ↔ ¬ In k (map fst l).
Proof.
  induction l as [|[k' v] l IH]; cbn [assoc map fst In]; [tauto|].
  destruct (String.eqb_spec k k') as [->|Hne].
  - split; [done|]. intros H. destruct H. by left.
  - rewrite IH. split; [|tauto]. intros H [Heq|Hin]; [by apply Hne|done].
Qed.

Lemma assoc_insert_at {V} (c c0 : string) (x : V) (n : nat) (es : list (string * V)) :
  assoc c es = None →
  assoc c0 (insert_at n (c, x) es) = if String.eqb c0 c then Some x else assoc c0 es.
Proof.
  intros Hc. unfold insert_at. rewrite assoc_app. cbn [assoc].
  destruct (String.eqb_spec c0 c) as [->|Hne].
  - rewrite <- (take_drop n es), assoc_app in Hc.
    by destruct (assoc c (take n es)).
  - transitivity (assoc c0 (take n es ++ drop n es));
      [by rewrite assoc_app | by rewrite take_drop].
Qed.

Lemma assoc_update_entry (c c0 : string) (f : tree → tree) (es : list (string * tree)) :
  assoc c0 (update_entry c f es)
  = if String.eqb c0 c then f <$> assoc c es else assoc c0 es.
Proof.
  induction es as [|[k v] es IH]; cbn [update_entry assoc].
  - by destruct (String.eqb c0 c).
  - destruct (String.eqb_spec c k) as [->|Hck]; cbn [assoc].
    + by destruct (String.eqb_spec c0 k) as [->|Hne].
    + rewrite IH. destruct (String.eqb_spec c0 k) as [->|Hne]; [|done].
      destruct (String.eqb_spec k c) as [->|_]; [done|done].
Qed.

Lemma names_update_entry (c : string) (f : tree → tree) (es : list (string * tree)) :
  map fst (update_entry c f es) = map fst es.
Proof.
  induction es as [|[k v] es IH]; [done|]. cbn [update_entry].
  destruct (String.eqb c k); cbn [map fst]; [done|by rewrite IH].
Qed.

Lemma listing_insert_at (c : string) (x : tree) (n : nat) (es : list (string * tree)) :
  notable c = false → listing (insert_at n (c, x) es) = listing es.
Proof.
  intros Hc. unfold listing, insert_at.
  rewrite map_app, List.filter_app. cbn [map fst List.filter]. rewrite Hc.
  by rewrite <- List.filter_app, <- map_app, take_drop.
Qed.

Lemma filter_png_listing (es : list (string * tree)) :
  List.filter is_png (map fst es) = List.filter is_png (listing es).
Proof.
  unfold listing. induction (map fst es) as [|n l IH]; [done|].
  cbn [List.filter]. unfold notable at 1.
  destruct (is_png n) eqn:Hn; cbn [orb List.filter].
  - by rewrite Hn, IH.
  - destruct (negb (is_entry_name n)); cbn [List.filter]; [by rewrite Hn|done].
Qed.

Lemma filter_none {A} (f : A → bool) (l : list A) :
  (∀ x, In x l → f x = false) → List.filter f l = [].
Proof.
  induction l as [|x l IH]; intros H; [done|]. cbn [List.filter].
  rewrite (H x) by by left. apply IH. intros y Hy. apply H. by right.
Qed.

Lemma resolve_app (t : tree) (q1 q2 : list string) :
  resolve t (q1 ++ q2)
  = match resolve t q1 with Some d => resolve d q2 | None => None end.
Proof.
  revert t. induction q1 as [|c q1 IH]; intros t; [done|].
  cbn [app resolve]. destruct t as [|es]; [done|].
  by destruct (assoc c es).
Qed.

(** *** Snapshots that have grown *)

Lemma grown_same (t t' : tree) : (∀ q, resolve t' q = resolve t q) → grown t t'.
Proof.
  intros H q. rewrite H. destruct (resolve t q) as [[|es]|]; [done| |by left].
  by exists es.
Qed.

Lemma grown_refl (t : tree) : grown t t.
Proof. by apply grown_same. Qed.

Lemma grown_trans (t1 t2 t3 : tree) : grown t1 t2 → grown t2 t3 → grown t1 t3.
Proof.
  intros H12 H23 q. specialize (H12 q). specialize (H23 q).
  destruct (resolve t1 q) as [[|es]|].
  - by rewrite H12 in H23.
  - destruct H12 as (es2 & H2 & Hl). rewrite H2 in H23.
    destruct H23 as (es3 & H3 & Hl3). exists es3. split; [done|congruence].
  - destruct H12 as [H2|(es2 & H2 & Hl)]; rewrite H2 in H23; [done|].
    destruct H23 as (es3 & H3 & Hl3). right. exists es3. split; [done|congruence].
Qed.

Lemma grown_make_dir slot (q : list string) : ∀ t,
  forallb (λ c, negb (notable c)) q = true → grown t (make_dir slot q t).
Proof.
  induction q as [|c q IH]; intros t Hq; [apply grown_refl|].
  destruct t as [|es]; [destruct q; apply grown_refl|].
  cbn [forallb] in Hq. apply andb_prop in Hq as [Hc%negb_true_iff Hq].
  destruct q as [|c' q'].
  - cbn [make_dir]. destruct (assoc c es) eqn:Hes; [apply grown_refl|].
    intros [|c0 rest]; cbn [resolve].
    + eexists. split; [done|]. by apply listing_insert_at.
    + rewrite (assoc_insert_at c c0 _ _ es Hes).
      destruct (String.eqb_spec c0 c) as [->|Hne].
      * rewrite Hes. destruct rest as [|c1 rest]; cbn [resolve]; [|by left].
        right. by exists [].
      * destruct (assoc c0 es) as [t0|]; [|by left].
        destruct (resolve t0 rest) as [[|es0]|]; [done| |by left]. by exists es0.
  - change (make_dir slot (c :: c' :: q') (TDir es))
      with (TDir (update_entry c (make_dir slot (c' :: q')) es)).
    intros [|c0 rest]; cbn [resolve].
    + eexists. split; [done|]. unfold listing. by rewrite names_update_entry.
    + rewrite assoc_update_entry.
      destruct (String.eqb_spec c0 c) as [->|Hne].
      * destruct (assoc c es) as [t0|]; cbn [fmap option_fmap option_map]; [|by left].
        apply (IH t0 Hq rest).
      * destruct (assoc c0 es) as [t0|]; [|by left].
        destruct (resolve t0 rest) as [[|es0]|]; [done| |by left]. by exists es0.
Qed.

Lemma canonical_from_grown (t t' : tree) (p : list string) : ∀ cur q,
  grown t t' → canonical_from t cur p = Some q → canonical_from t' cur p = Some q.
Proof.
  induction p as [|c p IH]; intros cur q Hg; [done|]. cbn [canonical_from].
  specialize (Hg cur) as Hcur.
  destruct (resolve t cur) as [[|es]|]; [done| |done].
  destruct Hcur as (es' & -> & _). by apply IH.
Qed.

Lemma canonical_from_names (t : tree) (p : list string) : ∀ cur q,
  forallb is_entry_name p = true →
  canonical_from t cur p = Some q → q = cur ++ p.
Proof.
  induction p as [|c p IH]; intros cur q Hp; cbn [canonical_from].
  - intros [= <-]. by rewrite app_nil_r.
  - cbn [forallb] in Hp. apply andb_prop in Hp as [Hc Hp].
    destruct (resolve t cur) as [[|es]|]; [done| |done].
    unfold is_entry_name in Hc. apply andb_prop in Hc as [_ Hc%negb_true_iff].
    rewrite Hc. intros ->%(IH _ _ Hp). by rewrite <- app_assoc.
Qed.

Lemma canonical_from_app (t : tree) (p1 p2 : list string) : ∀ cur,
  canonical_from t cur (p1 ++ p2)
  = match canonical_from t cur p1 with
    | Some q => canonical_from t q p2
    | None => None
    end.
Proof.
  induction p1 as [|c p1 IH]; intros cur; [done|]. cbn [app canonical_from].
  by destruct (resolve t cur) as [[|es]|].
Qed.

(** *** The directories of [__init__] *)

Lemma plain_png_free_names (p : Path) :
  plain p = true → png_free p = true →
  ∃ r rest, p = r :: rest ∧ String.eqb r PathLib.sep = true
            ∧ forallb is_entry_name rest = true
            ∧ forallb (λ c, negb (notable c)) rest = true.
Proof.
  destruct p as [|r rest]; [done|]. cbn [plain png_free forallb].
  intros [Hr Hn]%andb_prop [_ Hpng]%andb_prop. exists r, rest.
  split; [done|]. split; [done|]. split; [done|].
  apply forallb_forall. intros c Hc.
  eapply forallb_forall in Hn; [|exact Hc]. eapply forallb_forall in Hpng; [|exact Hc].
  unfold notable. cbv beta in Hpng. apply negb_true_iff in Hpng. by rewrite Hpng, Hn.
Qed.

Lemma made_grown (E : env) (p : Path) :
  plain p = true → png_free p = true →
  grown (root E) (root (made E p)) ∧ cwd (made E p) = cwd E.
Proof.
  intros Hplain Hpng.
  destruct (plain_png_free_names p Hplain Hpng)
    as (r & rest & -> & Hr & Hnames & Hnot).
  unfold made. destruct (canonical E (r :: rest)) as [q|] eqn:Hq;
    [|split; [apply grown_refl|done]].
  cbn [root cwd]. split; [|done].
  assert (from_root E (r :: rest) = rest) as Hfrom.
  { unfold from_root, anchored. rewrite Hr. cbv iota. by rewrite Hr. }
  unfold canonical in Hq. rewrite Hfrom in Hq.
  apply canonical_from_names in Hq as ->; [|done].
  by apply grown_make_dir.
Qed.

Lemma fold_left_grown {A} (f : env → A → env) (ok : A → Prop) (l : list A) :
  (∀ E x, ok x → grown (root E) (root (f E x)) ∧ cwd (f E x) = cwd E) →
  Forall ok l →
  ∀ E, grown (root E) (root (fold_left f l E)) ∧ cwd (fold_left f l E) = cwd E.
Proof.
  intros Hf Hl. induction Hl as [|x l Hx Hl IH]; intros E.
  - split; [apply grown_refl|done].
  - cbn [fold_left]. destruct (Hf E x Hx) as [Hg Hc].
    destruct (IH (f E x)) as [Hg' Hc']. split; [|congruence].
    by eapply grown_trans.
Qed.

Lemma plain_prefixes (p : Path) : ∀ base x,
  plain (base ++ p) = true → png_free (base ++ p) = true →
  In x (prefixes_from base p) → plain x = true ∧ png_free x = true.
Proof.
  induction p as [|c p IH]; intros base x Hplain Hpng; [done|].
  cbn [prefixes_from]. intros [<-|Hin].
  - rewrite (app_assoc base [c] p : base ++ c :: p = (base ++ [c]) ++ p)
      in Hplain, Hpng.
    split.
    + destruct (base ++ [c]) as [|r rest] eqn:Hb; [by destruct base|].
      cbn [app plain] in Hplain |- *.
      apply andb_prop in Hplain as [Hr Hn]. rewrite forallb_app in Hn.
      apply andb_prop in Hn as [Hn _]. by rewrite Hr, Hn.
    + unfold png_free in *. rewrite forallb_app in Hpng.
      by apply andb_prop in Hpng as [Hpng _].
  - apply (IH (base ++ [c]) x); [| |done]; by rewrite <- app_assoc.
Qed.

Lemma made_parents_grown (E : env) (p : Path) :
  plain p = true → png_free p = true →
  grown (root E) (root (made_parents E p)) ∧ cwd (made_parents E p) = cwd E.
Proof.
  intros Hplain Hpng. unfold made_parents.
  apply (fold_left_grown made (λ x, plain x = true ∧ png_free x = true)).
  - intros E' x [? ?]. by apply made_grown.
  - apply Forall_forall. intros x Hx%list_elem_of_In.
    by apply (plain_prefixes p [] x).
Qed.

Lemma plain_child (p : Path) (n : string) :
  plain p = true → is_entry_name n = true → plain (p // n) = true.
Proof.
  destruct p as [|r rest]; [done|]. unfold joinpath. cbn [app plain].
  intros [Hr Hn]%andb_prop Hc. rewrite Hr, forallb_app, Hn. cbn [forallb].
  by rewrite Hc.
Qed.

Lemma png_free_child (p : Path) (n : string) :
  png_free p = true → is_png n = false → png_free (p // n) = true.
Proof.
  unfold png_free, joinpath. intros Hp Hn. rewrite forallb_app, Hp.
  cbn [forallb]. by rewrite Hn.
Qed.

Lemma after_init_grown (E : env) (topic : string) (source : Path) :
  let self := Builder.attributes E topic source in
  plain (Builder.kb_dir self) = true →
  png_free (Builder.kb_dir self) = true →
  grown (root E) (root (Builder.after_init E self))
  ∧ cwd (Builder.after_init E self) = cwd E.
Proof.
  intros self Hplain Hpng. unfold Builder.after_init.
  apply (fold_left_grown made_parents (λ x, plain x = true ∧ png_free x = true)).
  - intros E' x [? ?]. by apply made_parents_grown.
  - cbn [self Builder.attributes Builder.kb_dir Builder.topics_dir Builder.tech_dir
         Builder.code_dir Builder.search_dir] in *.
    repeat constructor; first [done | by apply plain_child | by apply png_free_child].
Qed.

(** *** What a scan sees in a snapshot that has grown *)

Section Grown.
Context (E E' : env).
Hypothesis Hgrown : grown (root E) (root E').
Hypothesis Hcwd : cwd E' = cwd E.

Lemma canonical_grown (p : Path) (q : list string) :
  canonical E p = Some q → canonical E' p = Some q.
Proof.
  unfold canonical, from_root. rewrite Hcwd. by apply canonical_from_grown.
Qed.

Lemma has_frames_grown (p : Path) (q : list string) :
  canonical E p = Some q → Builder.has_frames E' p = Builder.has_frames E p.
Proof.
  intros Hq. unfold Builder.has_frames, path_is_dir, glob_png, locate.
  rewrite (canonical_grown p q Hq), Hq. specialize (Hgrown q) as Hres.
  destruct (resolve (root E) q) as [[|es]|].
  - by rewrite Hres.
  - destruct Hres as (es' & -> & Hl).
    by rewrite (filter_png_listing es'), Hl, <- filter_png_listing.
  - destruct Hres as [->|(es' & -> & Hl)]; [done|].
    by rewrite (filter_png_listing es'), Hl.
Qed.

Lemma from_root_child (src : Path) (n : string) :
  src ≠ [] ∨ String.eqb n PathLib.sep = false →
  from_root E (src // n) = from_root E src ++ [n].
Proof.
  intros Hn. unfold from_root, joinpath.
  assert (anchored (src ++ [n]) = anchored src) as ->.
  { destruct src as [|r rest]; [|done]. cbn [app anchored].
    by destruct Hn as [? | ->]. }
  assert ((if anchored src then src ++ [n] else cwd E ++ src ++ [n])
          = (if anchored src then src else cwd E ++ src) ++ [n]) as ->.
  { destruct (anchored src); [done|by rewrite app_assoc]. }
  destruct (if anchored src then src else cwd E ++ src) as [|r rest] eqn:Hbase.
  - cbn [app]. destruct Hn as [Hn | ->]; [|done].
    destruct (anchored src); [done|]. by destruct (cwd E), src.
  - cbn [app]. by destruct (String.eqb r PathLib.sep).
Qed.

Lemma canonical_child (src : Path) (n : string) (q : list string)
    (es : list (string * tree)) :
  canonical E src = Some q →
  resolve (root E) q = Some (TDir es) →
  ∃ q', canonical E (src // n) = Some q'
        ∧ (is_entry_name n = true → q' = q ++ [n]).
Proof.
  intros Hq Hes. unfold canonical in *.
  destruct (String.eqb n PathLib.sep) eqn:Hn.
  - destruct src as [|r rest].
    + apply String.eqb_eq in Hn as ->. exists []. split; [done|].
      by unfold is_entry_name.
    + rewrite from_root_child by by left.
      rewrite canonical_from_app, Hq. cbn [canonical_from]. rewrite Hes.
      eexists. split; [done|]. unfold is_entry_name. by rewrite Hn.
  - rewrite from_root_child by by right.
    rewrite canonical_from_app, Hq. cbn [canonical_from]. rewrite Hes.
    eexists. split; [done|]. unfold is_entry_name.
    intros [_ Hd%negb_true_iff]%andb_prop. by rewrite Hd.
Qed.

(** A source without a directory of frames has none afterwards. *)
Lemma source_without_frames_grown (src : Path) :
  source_without_frames E src = true → source_without_frames E' src = true.
Proof.
  unfold source_without_frames, iterdir, locate.
  destruct (canonical E src) as [q|] eqn:Hq; [|done].
  rewrite (canonical_grown src q Hq). specialize (Hgrown q) as Hres.
  destruct (resolve (root E) q) as [[|es]|] eqn:Hes; [done| |done].
  destruct Hres as (es' & -> & Hl). intros Hnone.
  assert (∀ e, In e es → Builder.has_frames E (src // fst e) = false) as Hold.
  { intros e He. destruct (Builder.has_frames E (src // fst e)) eqn:Hf; [|done].
    assert (In (src // fst e)
              (List.filter (Builder.has_frames E)
                 (map (λ e, src // fst e) es))) as Hin.
    { apply List.filter_In. split; [|done]. apply in_map_iff. by exists e. }
    by destruct (List.filter _ _). }
  assert (List.filter (Builder.has_frames E') (map (λ e, src // fst e) es') = [])
    as ->; [|done].
  apply filter_none.
  intros d (e & <- & He)%in_map_iff.
  destruct (canonical_child src (fst e) q es Hq Hes) as (q' & Hq' & Hnew).
  rewrite (has_frames_grown _ q' Hq').
  destruct (decide (fst e ∈ map fst es)) as [Hin|Hout].
  - apply list_elem_of_In, in_map_iff in Hin as (e0 & Hfst & He0).
    rewrite <- Hfst. by apply Hold.
  - assert (notable (fst e) = false) as Hnot.
    { destruct (notable (fst e)) eqn:Hn; [|done]. destruct Hout.
      apply list_elem_of_In.
      assert (In (fst e) (listing es')) as Hl'.
      { apply List.filter_In. split; [|done]. apply in_map_iff. by exists e. }
      rewrite Hl in Hl'. by apply List.filter_In in Hl' as [? _]. }
    unfold notable in Hnot. apply orb_false_iff in Hnot as [_ Hname%negb_false_iff].
    rewrite (Hnew Hname) in Hq'.
    unfold Builder.has_frames, path_is_dir, locate. rewrite Hq', resolve_app, Hes.
    cbn [resolve].
    assert (assoc (fst e) es = None) as ->; [|done].
    apply assoc_None. intros Hin. by apply Hout, list_elem_of_In.
Qed.

End Grown.

(** Where no directory on the way to the knowledge base is named like a
    frame, a source without frames is still one when [build] lists it. *)
Lemma without_frames_after_init (E : env) (topic : string) (source : Path) :
  let self := Builder.attributes E topic source in
  plain (Builder.kb_dir self) = true →
  png_free (Builder.kb_dir self) = true →
  source_without_frames E source = true →
  source_without_frames (Builder.after_init E self) source = true.
Proof.
  intros self Hplain Hpng.
  destruct (after_init_grown E topic source Hplain Hpng) as [Hg Hc].
  by apply source_without_frames_grown.
Qed.

End Snapshot.

(** ** Icon geometry *)

Module PILFacts.
Import Picture PIL.

Lemma Qfloor_scaled (y w h : Z) :
  0 < h → Qfloor (inject_Z y * (inject_Z w / inject_Z h)) = (y * w) / h.
Proof.
  intros Hh. destruct h as [|p|p]; try lia.
  unfold Qdiv, Qinv, Qmult, inject_Z. simpl. f_equal; lia.
Qed.

Lemma Qceiling_scaled (y w h : Z) :
  0 < h → Qceiling (inject_Z y * (inject_Z w / inject_Z h)) = - ((- (y * w)) / h).
Proof.
  intros Hh. destruct h as [|p|p]; try lia.
  unfold Qceiling, Qopp, Qdiv, Qinv, Qmult, inject_Z. simpl. do 2 f_equal; lia.
Qed.

Lemma Qfloor_unscaled (x w h : Z) :
  0 < w → 0 < h → Qfloor (inject_Z x / (inject_Z w / inject_Z h)) = (x * h) / w.
Proof.
  intros Hw Hh. destruct h as [|p|p]; try lia. destruct w as [|q|q]; try lia.
  unfold Qdiv, Qinv, Qmult, inject_Z. simpl. f_equal; lia.
Qed.

Lemma Qceiling_unscaled (x w h : Z) :
  0 < w → 0 < h →
  Qceiling (inject_Z x / (inject_Z w / inject_Z h)) = - ((- (x * h)) / w).
Proof.
  intros Hw Hh. destruct h as [|p|p]; try lia. destruct w as [|q|q]; try lia.
  unfold Qceiling, Qopp, Qdiv, Qinv, Qmult, inject_Z. simpl. do 2 f_equal; lia.
Qed.

Lemma aspect_le (w h x y : Z) :
  0 < h → 0 < y →
  Qle_bool (inject_Z w / inject_Z h) (inject_Z x / inject_Z y) = (w * y <=? x * h).
Proof.
  intros Hh Hy. destruct h as [|p|p]; try lia. destruct y as [|q|q]; try lia.
  apply eq_true_iff_eq. rewrite Qle_bool_iff, Z.leb_le.
  unfold Qle, Qdiv, Qinv, Qmult, inject_Z. simpl. lia.
Qed.

(** Whatever the key, the rounded length is the floor or the ceiling of
    a positive number, and at least 1. *)
Lemma round_aspect_choice (number : Q) (key : Z → Q) :
  (0 < number)%Q →
  1 ≤ round_aspect number key
  ∧ (round_aspect number key = Qfloor number
     ∨ round_aspect number key = Qceiling number).
Proof.
  intros Hpos. unfold round_aspect. cbv zeta.
  assert (0 ≤ Qfloor number) as Hlo.
  { change 0 with (Qfloor (inject_Z 0)). apply Qfloor_resp_le. by apply Qlt_le_weak. }
  assert (1 ≤ Qceiling number) as Hhi.
  { destruct (Z_lt_le_dec (Qceiling number) 1) as [Hlt|]; [|done]. exfalso.
    assert (number <= inject_Z (Qceiling number))%Q as H1 by apply Qle_ceiling.
    assert (inject_Z (Qceiling number) <= inject_Z 0)%Q as H2.
    { rewrite <- Zle_Qle. lia. }
    apply (Qlt_irrefl 0). eapply Qlt_le_trans; [exact Hpos|].
    exact (Qle_trans _ _ _ H1 H2). }
  assert (Qceiling number ≤ Qfloor number + 1) as Hgap.
  { assert (number < inject_Z (Qfloor number + 1))%Q as H1 by apply Qlt_floor.
    change (Qfloor number + 1) with (Qfloor number + 1)%Z.
    rewrite <- (Qceiling_Z (Qfloor number + 1)).
    apply Qceiling_resp_le. by apply Qlt_le_weak. }
  destruct (Qle_bool _ _); lia.
Qed.

Lemma scaled_pos (y w h : Z) :
  0 < y → 0 < w → 0 < h → (0 < inject_Z y * (inject_Z w / inject_Z h))%Q.
Proof.
  intros Hy Hw Hh. destruct h as [|p|p]; try lia.
  unfold Qlt, Qdiv, Qinv, Qmult, inject_Z. simpl. lia.
Qed.

Lemma unscaled_pos (x w h : Z) :
  0 < x → 0 < w → 0 < h → (0 < inject_Z x / (inject_Z w / inject_Z h))%Q.
Proof.
  intros Hx Hw Hh. destruct h as [|p|p]; try lia. destruct w as [|q|q]; try lia.
  unfold Qlt, Qdiv, Qinv, Qmult, inject_Z. simpl. lia.
Qed.

Lemma div_floor_bounds (a h : Z) : 0 < h → a - h < a / h * h ≤ a.
Proof.
  intros Hh. pose proof (Z.div_mod a h ltac:(lia)).
  pose proof (Z.mod_pos_bound a h Hh). lia.
Qed.

Lemma div_ceil_bounds (a h : Z) : 0 < h → a ≤ - (- a / h) * h < a + h.
Proof.
  intros Hh. pose proof (Z.div_mod (- a) h ltac:(lia)).
  pose proof (Z.mod_pos_bound (- a) h Hh). lia.
Qed.

(** The rounded side is within one pixel of the exact proportion. *)
Lemma round_aspect_scaled (y w h : Z) (key : Z → Q) :
  0 < y → 0 < w → 0 < h →
  let r := round_aspect (inject_Z y * (inject_Z w / inject_Z h)) key in
  1 ≤ r ∧ Z.abs (r * h - y * w) < h.
Proof.
  intros Hy Hw Hh r.
  destruct (round_aspect_choice _ key (scaled_pos y w h Hy Hw Hh)) as [H1 [Hr|Hr]];
    fold r in H1, Hr; split; try done.
  - rewrite Qfloor_scaled in Hr by done. rewrite Hr.
    pose proof (div_floor_bounds (y * w) h Hh). lia.
  - rewrite Qceiling_scaled in Hr by done. rewrite Hr.
    pose proof (div_ceil_bounds (y * w) h Hh). lia.
Qed.

Lemma round_aspect_unscaled (x w h : Z) (key : Z → Q) :
  0 < x → 0 < w → 0 < h →
  let r := round_aspect (inject_Z x / (inject_Z w / inject_Z h)) key in
  1 ≤ r ∧ Z.abs (r * w - x * h) < w.
Proof.
  intros Hx Hw Hh r.
  destruct (round_aspect_choice _ key (unscaled_pos x w h Hx Hw Hh)) as [H1 [Hr|Hr]];
    fold r in H1, Hr; split; try done.
  - rewrite Qfloor_unscaled in Hr by done. rewrite Hr.
    pose proof (div_floor_bounds (x * h) w Hw). lia.
  - rewrite Qceiling_unscaled in Hr by done. rewrite Hr.
    pose proof (div_ceil_bounds (x * h) w Hw). lia.
Qed.

(** A picture that fits its box keeps its size. *)
Lemma thumbnail_size_fits (x y : Z) (im : image) :
  width im ≤ x → height im ≤ y →
  thumbnail_size (x, y) im = Ok (width im, height im).
Proof.
  intros Hw Hh. unfold thumbnail_size. cbn [fst snd].
  apply Z.leb_le in Hw, Hh. by rewrite Hw, Hh.
Qed.

(** A picture that does not fit is shrunk: one side takes the length of
    the box, the other follows the proportion within one pixel, and
    neither exceeds the box or the original. *)
Lemma thumbnail_size_shrinks (x y : Z) (im : image) :
  1 ≤ x → 1 ≤ y → 1 ≤ width im → 1 ≤ height im →
  ¬ (width im ≤ x ∧ height im ≤ y) →
  ∃ w' h',
    thumbnail_size (x, y) im = Ok (w', h')
    ∧ 1 ≤ w' ≤ Z.min x (width im)
    ∧ 1 ≤ h' ≤ Z.min y (height im)
    ∧ ((width im * y ≤ x * height im
        ∧ h' = y ∧ Z.abs (w' * height im - y * width im) < height im)
       ∨ (x * height im < width im * y
          ∧ w' = x ∧ Z.abs (h' * width im - x * height im) < width im)).
Proof.
  destruct im as [w h]. cbn [width height]. intros Hx Hy Hw Hh Hfit.
  unfold thumbnail_size. cbn [fst snd width height].
  assert ((w <=? x) && (h <=? y) = false) as ->.
  { apply andb_false_iff. rewrite !Z.leb_gt. lia. }
  assert ((h =? 0) || (y =? 0) = false) as ->.
  { apply orb_false_iff. rewrite !Z.eqb_neq. lia. }
  rewrite aspect_le by lia.
  destruct (w * y <=? x * h) eqn:Hbranch.
  - apply Z.leb_le in Hbranch.
    match goal with |- context [round_aspect ?q ?k] =>
      pose proof (round_aspect_scaled y w h k ltac:(lia) ltac:(lia) ltac:(lia)) as [H1 H2];
      set (r := round_aspect q k) in *
    end.
    exists r, y. split; [done|].
    assert (y < h) by nia.
    split; [nia|]. split; [lia|]. left. done.
  - apply Z.leb_gt in Hbranch.
    assert ((w =? 0) = false) as -> by (apply Z.eqb_neq; lia).
    match goal with |- context [round_aspect ?q ?k] =>
      pose proof (round_aspect_unscaled x w h k ltac:(lia) ltac:(lia) ltac:(lia)) as [H1 H2];
      set (r := round_aspect q k) in *
    end.
    exists x, r. split; [done|].
    assert (x < w) by nia.
    split; [lia|]. split; [nia|]. right. done.
Qed.

End PILFacts.

Module IconsFacts.
Import Picture PIL Icons PILFacts.

(** The bounding box of the logo in the four configurations: 60% of the
    canvas for a maskable icon and 80% otherwise, rounded down. *)
Lemma logo_size_configurations (size : Z) (is_maskable : bool) :
  In (size, is_maskable) configurations →
  logo_size size is_maskable
  = Ok (size * (if is_maskable then 60 else 80) / 100).
Proof.
  intros [[= <- <-]|[[= <- <-]|[[= <- <-]|[[= <- <-]|[]]]]]; by vm_compute.
Qed.

(** From the box to the final image. *)
Lemma place_logo_eq (background logo : image) (size : Z) (is_maskable : bool)
    (box w' h' : Z) :
  logo_size size is_maskable = Ok box →
  thumbnail_size (box, box) logo = Ok (w', h') →
  place_logo background logo size is_maskable
  = Ok {| canvas := background;
          logo := {| width := w'; height := h' |};
          logo_x := (size - w') / 2;
          logo_y := (size - h') / 2 |}.
Proof.
  intros Hbox Hthumb. unfold place_logo, thumbnail. by rewrite Hbox, Hthumb.
Qed.

(** Floor division by two centers within one pixel. *)
Lemma centered_offset (size length : Z) :
  let offset := (size - length) / 2 in
  0 ≤ (size - length - offset) - offset ≤ 1.
Proof.
  intros offset. subst offset.
  pose proof (Z.div_mod (size - length) 2 ltac:(lia)).
  pose proof (Z.mod_pos_bound (size - length) 2 ltac:(lia)). lia.
Qed.

Section WithAssets.
Context (PROJECT_ROOT : Path) (Image_open : Path → result image).

Lemma create_pwa_icon_run (size : Z) (is_maskable : bool)
    (background logo : image) (final_image : composite) (w : world) :
  Image_open (BACKGROUND_PATH PROJECT_ROOT) = Ok background →
  Image_open (LOGO_PATH PROJECT_ROOT) = Ok logo →
  0 < size →
  place_logo {| width := size; height := size |} logo size is_maskable
  = Ok final_image →
  writable (fs w) (WEB_ICONS_DIR PROJECT_ROOT // icon_filename size is_maskable)
  = true →
  ∃ w', create_pwa_icon PROJECT_ROOT Image_open size is_maskable w
        = (Ok (WEB_ICONS_DIR PROJECT_ROOT // icon_filename size is_maskable), w')
        ∧ fs w' = <[WEB_ICONS_DIR PROJECT_ROOT // icon_filename size is_maskable :=
                      File (PngDoc final_image)]> (fs w).
Proof.
  intros Hbg Hlogo Hsize Hplace Hw.
  apply wp_yields. unfold create_pwa_icon.
  apply wp_bind, wp_lift. rewrite Hbg. cbv beta iota.
  apply wp_bind, wp_lift. unfold resize. cbn [fst snd].
  assert ((0 <? size) = true) as -> by lia. cbn [andb]. cbv beta iota.
  apply wp_bind, wp_lift. rewrite Hlogo. cbv beta iota.
  apply wp_bind, wp_lift. rewrite Hplace. cbv beta iota zeta.
  apply wp_bind, wp_write_file; [done|]. cbv beta iota.
  apply wp_bind, wp_print. cbv beta iota. by apply wp_ret.
Qed.

End WithAssets.
End IconsFacts.
(** * Properties of the specification *)

(** C1. For every list of frame-directory records the index of
    [create_knowledge_index], and for every list of directories the index
    of [create_master_index] (once its file can be written), has a
    [total_frames] that is the sum of the [frame_count] of its videos and a
    [total_videos] that is the number of its videos; the empty list is
    one such input. *)
Theorem index_totals (E : env) (frame_dirs : list FrameDir.t)
    (self : Builder.t) (frame_directories : list Path) (w : world) :
  writable (fs w) (Builder.search_dir self // "master_index.json") = true →
  (∃ index_data w',
     Frames.create_knowledge_index E frame_dirs w = (Ok index_data, w')
     ∧ totals_consistent (IndexData.total_videos index_data)
                         (IndexData.total_frames index_data)
                         (IndexData.videos index_data))
  ∧ (∃ index w',
       Builder.create_master_index E self frame_directories w = (Ok index, w')
       ∧ totals_consistent (MasterIndex.total_videos index)
                           (MasterIndex.total_frames index)
                           (MasterIndex.videos index)
       ∧ fs w' !! (Builder.search_dir self // "master_index.json")
         = Some (File (JsonDoc (MasterIndex.to_json index)))).
Proof.
  intros Hw. split.
  - eexists _, _. split; [apply FramesFacts.create_knowledge_index_eq|].
    apply FramesFacts.knowledge_index_totals.
  - apply (wp_returns _ _ (λ index w',
      totals_consistent (MasterIndex.total_videos index)
        (MasterIndex.total_frames index) (MasterIndex.videos index)
      ∧ fs w' !! (Builder.search_dir self // "master_index.json")
        = Some (File (JsonDoc (MasterIndex.to_json index))))).
    apply BuilderFacts.wp_create_master_index; [done|].
    intros w' Hfs _. split; [apply BuilderFacts.master_index_totals|].
    by rewrite Hfs, lookup_insert_eq.
Qed.

Lemma index_totals_witness :
  writable (fs Sample.w_init)
           (Builder.search_dir Sample.builder // "master_index.json") = true
  ∧ ∃ index w',
      Builder.create_master_index Sample.E Sample.builder [] Sample.w_init
      = (Ok index, w')
      ∧ totals_consistent (MasterIndex.total_videos index)
                          (MasterIndex.total_frames index)
                          (MasterIndex.videos index).
Proof.
  assert (writable (fs Sample.w_init)
            (Builder.search_dir Sample.builder // "master_index.json") = true)
    as Hw by (vm_compute; reflexivity).
  split; [exact Hw|].
  destruct (index_totals Sample.E [] Sample.builder [] Sample.w_init Hw)
    as [_ (index & w' & Hrun & Htotals & _)].
  exists index, w'. split; [exact Hrun | exact Htotals].
Defined.

(** C9. In every per-video record of the index built from the scanner's
    records, and in every per-video record of the master index, the
    [frame_count] is the length of the record's own [frames]. *)
Theorem frame_count_is_length (E : env) (w w1 w2 w3 w4 : world)
    (frame_dirs : list FrameDir.t) (index_data : IndexData.t)
    (self : Builder.t) (frame_directories : list Path) (index : MasterIndex.t) :
  Frames.find_all_frame_directories E w = (Ok frame_dirs, w1) →
  Frames.create_knowledge_index E frame_dirs w1 = (Ok index_data, w2) →
  Builder.create_master_index E self frame_directories w3 = (Ok index, w4) →
  (∀ video, In video (IndexData.videos index_data) →
            VideoInfo.frame_count video = Py.len (VideoInfo.frames video))
  ∧ (∀ video, In video (MasterIndex.videos index) →
              VideoInfo.frame_count video = Py.len (VideoInfo.frames video)).
Proof.
  intros Hscan Hindex Hmaster. split.
  - rewrite FramesFacts.create_knowledge_index_eq in Hindex.
    injection Hindex as <- _. intros video Hin.
    by eapply FramesFacts.scanned_entries_count.
  - intros video Hin.
    assert (∃ now, index = Builder.master_index E self now frame_directories)
      as [now ->].
    { revert Hmaster. unfold Builder.create_master_index.
      unfold mbind, M_bind, bind, tick, mret, M_ret, ret. cbv zeta.
      destruct (write_file _ _ _) as [[[]|e] w5]; [|done].
      destruct (Builder.log _ _ _ _) as [[[]|e] w6]; [|done].
      intros [= <- _]. by eexists. }
    cbn [MasterIndex.videos Builder.master_index] in Hin.
    apply in_map_iff in Hin as (d & <- & _).
    apply BuilderFacts.master_video_info_count.
Qed.

Lemma frame_count_is_length_witness :
  Frames.find_all_frame_directories Sample.E Sample.w0
  = (Ok Sample.frame_dirs, Sample.w0)
  ∧ Frames.create_knowledge_index Sample.E Sample.frame_dirs Sample.w0
    = (Ok Sample.index_data, ticked Sample.w0)
  ∧ (Builder.create_master_index Sample.E Sample.builder [["src"; "v"]]
       Sample.w_init).1 = Ok Sample.master
  ∧ length (IndexData.videos Sample.index_data) = 2%nat
  ∧ length (MasterIndex.videos Sample.master) = 1%nat
  ∧ (∀ video, In video (IndexData.videos Sample.index_data) →
              VideoInfo.frame_count video = Py.len (VideoInfo.frames video))
  ∧ (∀ video, In video (MasterIndex.videos Sample.master) →
              VideoInfo.frame_count video = Py.len (VideoInfo.frames video)).
Proof.
  assert (Frames.find_all_frame_directories Sample.E Sample.w0
          = (Ok Sample.frame_dirs, Sample.w0)) as H1 by (vm_compute; reflexivity).
  assert (Frames.create_knowledge_index Sample.E Sample.frame_dirs Sample.w0
          = (Ok Sample.index_data, ticked Sample.w0)) as H2 by reflexivity.
  destruct (Builder.create_master_index Sample.E Sample.builder [["src"; "v"]]
              Sample.w_init) as [r w4] eqn:H3.
  assert (r = Ok Sample.master) as ->.
  { apply (f_equal fst) in H3. cbn [fst] in H3. rewrite <- H3.
    vm_compute. reflexivity. }
  split; [exact H1|]. split; [exact H2|]. split; [reflexivity|].
  split; [vm_compute; reflexivity|]. split; [vm_compute; reflexivity|].
  exact (frame_count_is_length Sample.E Sample.w0 Sample.w0 (ticked Sample.w0)
           Sample.w_init w4 Sample.frame_dirs Sample.index_data Sample.builder
           [["src"; "v"]] Sample.master H1 H2 H3).
Defined.

(** C2. The [frames] of a video entry are meant to be in ascending order
    of file name whatever the enumeration order.  The scanner of the
    frame indexer sorts them ([scanner_frames_sorted]); the master index
    does not: for a directory that the system enumerates as [b.png] then
    [a.png], it lists the frames in that order. *)
Theorem master_index_frames_unsorted :
  glob_png Sample.E ["src"; "v"] = [["src"; "v"; "b.png"]; ["src"; "v"; "a.png"]]
  ∧ (Builder.create_master_index Sample.E Sample.builder [["src"; "v"]]
       Sample.w_init).1 = Ok Sample.master
  ∧ map VideoInfo.frames (MasterIndex.videos Sample.master)
    = [["src/v/b.png"; "src/v/a.png"]]
  ∧ ¬ Sorted string_le (map str_name ["src/v/b.png"; "src/v/a.png"]).
Proof.
  split; [by vm_compute|]. split; [by vm_compute|]. split; [by vm_compute|].
  intros Hs. apply Sorted_inv in Hs as [_ Hd]. apply HdRel_inv in Hd.
  by vm_compute in Hd.
Qed.

(** C3. The learning guide that [create_markdown_documentation] writes
    holds, between the table of contents and the footer, one entry for
    every video of the index, in the order of the index: the heading of
    the video, the line [Sample frames:], and then, when the video counts
    more than five frames, the file names of exactly its first five
    frames, one to a line, followed by one line with the number of the
    remaining frames; otherwise the file names of all its frames and no
    further line. *)
Theorem guide_sample_frames (E : env) (w w1 w2 : world)
    (frame_dirs : list FrameDir.t) (index_data : IndexData.t) :
  Frames.find_all_frame_directories E w = (Ok frame_dirs, w1) →
  Frames.create_knowledge_index E frame_dirs w1 = (Ok index_data, w2) →
  no_file_on (fs w2) (Frames.KNOWLEDGE_BASE_DIR E) = true →
  not_dir (fs w2) (Frames.doc_path E) = true →
  ∃ w3 guide,
    Frames.create_markdown_documentation E frame_dirs index_data w2
    = (Ok (Frames.doc_path E), w3)
    ∧ fs w3 !! Frames.doc_path E = Some (File (TextDoc guide))
    ∧ guide
      = Frames.guide_header (strftime E (clock w2)) index_data
          +:+ concat_str (map Frames.contents_line
                            (enumerate 1 (IndexData.videos index_data)))
          +:+ Frames.guide_middle
          +:+ concat_str (map guide_entry (IndexData.videos index_data))
          +:+ Frames.guide_footer
    ∧ ∀ video,
        In video (IndexData.videos index_data) →
        VideoInfo.frame_count video = Py.len (VideoInfo.frames video)
        ∧ (5 < VideoInfo.frame_count video →
           length (take 5 (map str_name (VideoInfo.frames video))) = 5%nat
           ∧ sample_listing video
             = concat_str (map (λ name, "- `" +:+ name +:+ "`" +:+ nl)
                             (take 5 (map str_name (VideoInfo.frames video))))
                 +:+ "- ... and "
                 +:+ Py.str_int (Py.len (VideoInfo.frames video) - 5)
                 +:+ " more frames" +:+ nl)
        ∧ (VideoInfo.frame_count video ≤ 5 →
           sample_listing video
           = concat_str (map (λ name, "- `" +:+ name +:+ "`" +:+ nl)
                           (map str_name (VideoInfo.frames video)))).
Proof.
  intros Hscan Hindex Hnf Hnd.
  rewrite FramesFacts.create_knowledge_index_eq in Hindex.
  injection Hindex as <- _.
  assert (∀ video,
            In video (IndexData.videos
                        (Frames.knowledge_index (isoformat E (clock w1)) frame_dirs)) →
            VideoInfo.frame_count video = Py.len (VideoInfo.frames video)) as Hc.
  { intros video Hin. by eapply FramesFacts.scanned_entries_count. }
  destruct (FramesRun.create_markdown_documentation_run E frame_dirs
              (Frames.knowledge_index (isoformat E (clock w1)) frame_dirs) w2 Hnf Hnd)
    as (w3 & Hrun & Hfile).
  exists w3. eexists. split; [exact Hrun|]. split; [exact Hfile|].
  split; [by apply guide_text|].
  intros video Hin. specialize (Hc video Hin). split; [exact Hc|].
  unfold sample_listing. cbv zeta. split; intros Hn.
  - assert ((5 <? VideoInfo.frame_count video) = true) as -> by lia.
    rewrite length_take, length_map, <- Hc. unfold Py.len in Hc.
    split; [lia|reflexivity].
  - by assert ((5 <? VideoInfo.frame_count video) = false) as -> by lia.
Qed.

Lemma guide_sample_frames_witness :
  ∃ w3 guide,
    Frames.create_markdown_documentation Sample.E Sample.frame_dirs
      Sample.index_data (ticked Sample.w0)
    = (Ok (Frames.doc_path Sample.E), w3)
    ∧ fs w3 !! Frames.doc_path Sample.E = Some (File (TextDoc guide))
    ∧ guide
      = Frames.guide_header (strftime Sample.E 1) Sample.index_data
          +:+ concat_str (map Frames.contents_line
                            (enumerate 1 (IndexData.videos Sample.index_data)))
          +:+ Frames.guide_middle
          +:+ concat_str (map guide_entry (IndexData.videos Sample.index_data))
          +:+ Frames.guide_footer
    ∧ map sample_listing (IndexData.videos Sample.index_data)
      = [ "- `a.png`" +:+ nl +:+ "- `b.png`" +:+ nl;
          "- `f1.png`" +:+ nl +:+ "- `f2.png`" +:+ nl +:+ "- `f3.png`" +:+ nl
            +:+ "- `f4.png`" +:+ nl +:+ "- `f5.png`" +:+ nl
            +:+ "- ... and 2 more frames" +:+ nl ].
Proof.
  assert (Frames.find_all_frame_directories Sample.E Sample.w0
          = (Ok Sample.frame_dirs, Sample.w0)) as H1 by (vm_compute; reflexivity).
  assert (Frames.create_knowledge_index Sample.E Sample.frame_dirs Sample.w0
          = (Ok Sample.index_data, ticked Sample.w0)) as H2 by reflexivity.
  destruct (guide_sample_frames Sample.E Sample.w0 Sample.w0 (ticked Sample.w0)
              Sample.frame_dirs Sample.index_data H1 H2)
    as (w3 & guide & Hrun & Hfile & Hguide & _).
  - vm_compute; reflexivity.
  - vm_compute; reflexivity.
  - exists w3, guide. split; [exact Hrun|]. split; [exact Hfile|].
    split; [exact Hguide|]. vm_compute; reflexivity.
Defined.

(** C4. When [which memvid] reports the tool missing (a non-zero status
    or an exception), or the tool is found and [memvid create] fails (a
    non-zero status or an exception), [build_memvid_knowledge_base]
    returns [False] without raising and prints a warning or an error,
    and a run of [main] that found frame directories still completes,
    having written the index and the guide, and reports the knowledge
    base as not created. *)
Theorem memvid_failure_is_not_fatal (E : env) (w : world) :
  frames_found E = true →
  kb_writable E (fs w) = true →
  memvid_fails E = true →
  (∀ index_data w1,
     memvid_absent E = true ∨ writable (fs w1) (Frames.temp_doc E) = true →
     ∃ w2 timestamp level message,
       Frames.build_memvid_knowledge_base E index_data w1 = (Ok false, w2)
       ∧ (level = "WARNING" ∨ level = "ERROR")
       ∧ In (log_line timestamp level message) (stdout w2))
  ∧ ∃ w' index_data text timestamp,
      Frames.main E w = (Ok tt, w')
      ∧ fs w' !! Frames.index_path E
        = Some (File (JsonDoc (IndexData.to_json index_data)))
      ∧ fs w' !! Frames.doc_path E = Some (File (TextDoc text))
      ∧ In (log_line timestamp "INFO" "Memvid KB: Not Created") (stdout w').
Proof.
  intros Hfound Hkb Hfails. unfold memvid_fails in Hfails.
  destruct (memvid_absent E) eqn:Habs.
  - split.
    + intros index_data w1 _.
      destruct (FramesRun.build_memvid_absent E index_data w1 Habs)
        as (w2 & Hrun & _ & ts & msg & Hin).
      exists w2, ts, "WARNING", msg. split; [done|]. split; [by left|done].
    + apply FramesRun.main_run; [done|done|].
      intros index_data w1 _.
      destruct (FramesRun.build_memvid_absent E index_data w1 Habs)
        as (w2 & Hrun & [Hfs Hout] & _).
      exists w2. split; [done|]. split; [done|]. intros p _. by rewrite Hfs.
  - cbn [orb] in Hfails. apply andb_prop in Hfails as [Hwhich Hcreate]. split.
    + intros index_data w1 [?|Hw]; [done|].
      destruct (FramesRun.build_memvid_create_fails E index_data w1 Hwhich Hcreate Hw)
        as (w2 & Hrun & _ & _ & ts & msg & Hin).
      exists w2, ts, "ERROR", msg. split; [done|]. split; [by right|done].
    + apply FramesRun.main_run; [done|done|].
      intros index_data w1 Hw.
      destruct (FramesRun.build_memvid_create_fails E index_data w1 Hwhich Hcreate Hw)
        as (w2 & Hrun & Hfs & Hout & _).
      exists w2. split; [done|]. split; [done|].
      intros p Hp. rewrite Hfs. by apply lookup_insert_ne.
Qed.

Lemma memvid_failure_is_not_fatal_witness :
  frames_found Sample.E = true
  ∧ kb_writable Sample.E (fs Sample.w0) = true
  ∧ memvid_fails Sample.E = true
  ∧ ∃ w' timestamp,
      Frames.main Sample.E Sample.w0 = (Ok tt, w')
      ∧ In (log_line timestamp "INFO" "Memvid KB: Not Created") (stdout w').
Proof.
  assert (frames_found Sample.E = true) as H1 by (vm_compute; reflexivity).
  assert (kb_writable Sample.E (fs Sample.w0) = true) as H2
    by (vm_compute; reflexivity).
  assert (memvid_fails Sample.E = true) as H3 by (vm_compute; reflexivity).
  split; [exact H1|]. split; [exact H2|]. split; [exact H3|].
  destruct (memvid_failure_is_not_fatal Sample.E Sample.w0 H1 H2 H3)
    as [_ (w' & index_data & text & timestamp & Hrun & _ & _ & Hin)].
  exists w', timestamp. split; [exact Hrun | exact Hin].
Defined.


Example sample_build_completes :
  ∃ w2,
    Builder.init Sample.E "Topic" ["src"] Sample.w0
    = (Ok Sample.builder, Sample.w_init)
    ∧ Builder.build (Builder.after_init Sample.E Sample.builder) Sample.builder
        Sample.w_init = (Ok true, w2).
Proof.
  destruct (BuilderRun.build_run (Builder.after_init Sample.E Sample.builder)
              "Topic" ["src"] Sample.w_init) as (w2 & Hbuild & _);
    [vm_compute; reflexivity..|].
  exists w2. split; [vm_compute; reflexivity|].
  rewrite BuilderRun.attributes_after_init in Hbuild. exact Hbuild.
Qed.


(** C7. Given a mapping whose keys are the fixed topic names,
    [build_topic_structure] leaves, for every topic of the mapping, the
    topic's directory with the subdirectories [concepts], [code-examples]
    and [frames], a metadata record whose fields are exactly [topic],
    [frame_count], [last_updated] and [frames], with [frame_count] the
    length of the topic's list of frame paths, and an overview that carries
    the titled topic name and that same count. *)
Theorem topic_structure_created (E : env) (self : Builder.t)
    (topics : list (string * list string)) (w : world) :
  map fst topics = Builder.TOPIC_NAMES →
  Builder.topics_dir self ≠ [] →
  dir_exists (fs w) (Builder.topics_dir self) = true →
  forallb (λ n, topic_slot_free (fs w) (Builder.topics_dir self // n))
          Builder.TOPIC_NAMES = true →
  ∃ w',
    Builder.build_topic_structure E self topics w = (Ok tt, w')
    ∧ ∀ topic_name frame_paths, (topic_name, frame_paths) ∈ topics →
        let topic_dir := Builder.topics_dir self // topic_name in
        fs w' !! topic_dir = Some Dir
        ∧ Forall (λ d, fs w' !! (topic_dir // d) = Some Dir)
                 ["concepts"; "code-examples"; "frames"]
        ∧ (∃ metadata,
             fs w' !! (topic_dir // "metadata.json") = Some (File (JsonDoc metadata))
             ∧ keys metadata = ["topic"; "frame_count"; "last_updated"; "frames"]
             ∧ getitem "topic" metadata = Some (JStr topic_name)
             ∧ getitem "frame_count" metadata = Some (JInt (Py.len frame_paths))
             ∧ getitem "frames" metadata = Some (JList (map JStr frame_paths)))
        ∧ (∃ middle,
             fs w' !! (topic_dir // "concepts" // "overview.md")
             = Some (File (TextDoc
                 ("# " +:+ Builder.title topic_name +:+ middle
                       +:+ Py.str_int (Py.len frame_paths)
                       +:+ " frames reference this topic." +:+ nl)))).
Proof.
  intros Hkeys Hdir Hex Hfree.
  destruct (BuilderFacts.build_topic_structure_run E self topics w)
    as (w' & Hrun & _ & _ & Hbuilt); try done.
  - rewrite Hkeys. apply BuilderRun.topic_names_NoDup.
  - rewrite Hkeys. apply BuilderRun.topic_names_simple.
  - rewrite Hkeys. apply Forall_forall. intros n Hn.
    by apply (proj1 (forallb_forall _ _) Hfree), list_elem_of_In.
  - exists w'. split; [done|]. intros topic_name frame_paths Hin.
    destruct (Hbuilt _ _ Hin) as (H0 & H1 & H2 & H3 & [last_updated H4] & H5).
    split; [done|]. split; [by repeat constructor|].
    split; [by eexists|].
    exists (" Concepts" +:+ nl +:+ nl +:+ "## Overview" +:+ nl +:+ nl
            +:+ "This topic covers " +:+ topic_name +:+ " concepts from the "
            +:+ Builder.topic self +:+ " tutorial series." +:+ nl +:+ nl
            +:+ "## Key Concepts" +:+ nl +:+ nl
            +:+ "_To be populated with AI-extracted concepts_" +:+ nl +:+ nl
            +:+ "## Code Examples" +:+ nl +:+ nl
            +:+ "See the `code-examples/` directory for implementations."
            +:+ nl +:+ nl +:+ "## Related Topics" +:+ nl +:+ nl
            +:+ "_To be populated with related topics_" +:+ nl +:+ nl
            +:+ "## Frames" +:+ nl +:+ nl).
    rewrite H5. unfold Builder.overview_md. do 4 f_equal.
    rewrite !append_assoc. reflexivity.
Qed.

Lemma topic_structure_created_witness :
  ∃ w',
    Builder.build_topic_structure Sample.E Sample.builder
      (map (λ n, (n, ["src/v/a.png"; "src/v/b.png"])) Builder.TOPIC_NAMES)
      Sample.w_init = (Ok tt, w')
    ∧ ∃ metadata,
        fs w' !! (Builder.topics_dir Sample.builder // "database" // "metadata.json")
        = Some (File (JsonDoc metadata))
        ∧ getitem "frame_count" metadata = Some (JInt 2).
Proof.
  destruct (topic_structure_created Sample.E Sample.builder
              (map (λ n, (n, ["src/v/a.png"; "src/v/b.png"])) Builder.TOPIC_NAMES)
              Sample.w_init)
    as (w' & Hrun & Hbuilt).
  - reflexivity.
  - discriminate.
  - vm_compute; reflexivity.
  - vm_compute; reflexivity.
  - exists w'. split; [exact Hrun|].
    destruct (Hbuilt "database" ["src/v/a.png"; "src/v/b.png"])
      as (_ & _ & (metadata & Hfile & _ & _ & Hcount & _) & _).
    + right; left.
    + exists metadata. split; [exact Hfile | exact Hcount].
Defined.

(** C8. Whatever the list of frame directories, [extract_topics_from_frames]
    returns a mapping whose keys are the seven fixed labels, each with an
    empty list; and every metadata record of a topic that a completed
    [build] leaves has a [frame_count] of 0 and an empty [frames]. *)
Theorem topics_are_empty (E : env) (self : Builder.t)
    (frame_directories : list Path) (w : world) :
  (∃ topics w',
     Builder.extract_topics_from_frames E self frame_directories w = (Ok topics, w')
     ∧ map fst topics
       = ["authentication"; "database"; "api-design"; "frontend"; "deployment";
          "testing"; "configuration"]
     ∧ Forall (λ item, snd item = []) topics)
  ∧ ∀ topic source,
      source_has_frames E source = true →
      build_ready (Builder.attributes E topic source) (fs w) = true →
      ∃ w', Builder.build E (Builder.attributes E topic source) w = (Ok true, w')
        ∧ ∀ topic_name, topic_name ∈ Builder.TOPIC_NAMES →
            ∃ metadata,
              fs w' !! (Builder.topics_dir (Builder.attributes E topic source)
                          // topic_name // "metadata.json")
              = Some (File (JsonDoc metadata))
              ∧ getitem "frame_count" metadata = Some (JInt 0)
              ∧ getitem "frames" metadata = Some (JList []).
Proof.
  split.
  - destruct (BuilderFacts.extract_topics_from_frames_run E self frame_directories w)
      as (w' & Hrun & _).
    exists Builder.empty_topics, w'. split; [done|]. split; [reflexivity|].
    by repeat constructor.
  - intros topic source Hsrc Hready.
    destruct (BuilderRun.build_run E topic source w Hsrc Hready) as (w' & Hrun & Hbuilt).
    exists w'. split; [done|]. intros topic_name Hn.
    destruct (Hbuilt _ Hn) as (_ & _ & _ & _ & [last_updated Hmeta] & _).
    by eexists.
Qed.

Lemma topics_are_empty_witness :
  source_has_frames Sample.E ["src"] = true
  ∧ build_ready Sample.builder (fs Sample.w_init) = true
  ∧ ∃ w', Builder.build Sample.E Sample.builder Sample.w_init = (Ok true, w')
      ∧ ∃ metadata,
          fs w' !! (Builder.topics_dir Sample.builder // "testing" // "metadata.json")
          = Some (File (JsonDoc metadata))
          ∧ getitem "frame_count" metadata = Some (JInt 0).
Proof.
  assert (source_has_frames Sample.E ["src"] = true) as Hsrc
    by (vm_compute; reflexivity).
  assert (build_ready Sample.builder (fs Sample.w_init) = true) as Hready
    by (vm_compute; reflexivity).
  split; [exact Hsrc|]. split; [exact Hready|].
  destruct (proj2 (topics_are_empty Sample.E Sample.builder [] Sample.w_init)
              "Topic" ["src"] Hsrc Hready) as (w' & Hrun & Hrecords).
  exists w'. split; [exact Hrun|].
  destruct (Hrecords "testing") as (metadata & Hfile & Hcount & _).
  - do 5 right; left.
  - exists metadata. split; [exact Hfile | exact Hcount].
Defined.

(** C6. For each of the four configurations, [create_pwa_icon] writes an
    image whose canvas is the [size] by [size] square; the bounding box of
    the logo is 60% of [size] for a maskable icon and 80% otherwise; a logo
    that fits the box is kept, and a larger one takes the box's length on
    its longer side with the other side within one pixel of the exact
    proportion; the logo is pasted at [((size - width) / 2,
    (size - height) / 2)], so the margins on opposite sides differ by at
    most one pixel. *)
Theorem icon_geometry (PROJECT_ROOT : Path)
    (Image_open : Path → result Picture.image)
    (size : Z) (is_maskable : bool) (background logo : Picture.image) (w : world) :
  let box := size * (if is_maskable then 60 else 80) / 100 in
  let output_path :=
    Icons.WEB_ICONS_DIR PROJECT_ROOT // Icons.icon_filename size is_maskable in
  In (size, is_maskable) Icons.configurations →
  Image_open (Icons.BACKGROUND_PATH PROJECT_ROOT) = Ok background →
  Image_open (Icons.LOGO_PATH PROJECT_ROOT) = Ok logo →
  1 ≤ Picture.width logo →
  1 ≤ Picture.height logo →
  writable (fs w) output_path = true →
  ∃ final w',
    Icons.create_pwa_icon PROJECT_ROOT Image_open size is_maskable w
    = (Ok output_path, w')
    ∧ fs w' !! output_path = Some (File (PngDoc final))
    ∧ Icons.logo_size size is_maskable = Ok box
    ∧ Picture.canvas final = {| Picture.width := size; Picture.height := size |}
    ∧ (let w1 := Picture.width (Picture.logo final) in
       let h1 := Picture.height (Picture.logo final) in
       ((fits box logo ∧ Picture.logo final = logo)
        ∨ (Picture.width logo ≤ Picture.height logo
           ∧ h1 = box ∧ 1 ≤ w1 ≤ box
           ∧ Z.abs (w1 * Picture.height logo - box * Picture.width logo)
             < Picture.height logo)
        ∨ (Picture.height logo < Picture.width logo
           ∧ w1 = box ∧ 1 ≤ h1 ≤ box
           ∧ Z.abs (h1 * Picture.width logo - box * Picture.height logo)
             < Picture.width logo))
       ∧ Picture.logo_x final = (size - w1) / 2
       ∧ Picture.logo_y final = (size - h1) / 2
       ∧ 0 ≤ (size - w1 - Picture.logo_x final) - Picture.logo_x final ≤ 1
       ∧ 0 ≤ (size - h1 - Picture.logo_y final) - Picture.logo_y final ≤ 1).
Proof.
  intros box output_path Hconf Hbg Hlogo Hw Hh Hwritable.
  pose proof (IconsFacts.logo_size_configurations size is_maskable Hconf) as Hbox.
  fold box in Hbox.
  assert (0 < size ∧ 1 ≤ box) as [Hsize Hbox1].
  { unfold box. simpl in Hconf.
    destruct Hconf as [H|[H|[H|[H|[]]]]]; inversion H; subst; cbv; by split. }
  assert (∃ w1 h1,
    PIL.thumbnail_size (box, box) logo = Ok (w1, h1)
    ∧ ((fits box logo
        ∧ {| Picture.width := w1; Picture.height := h1 |} = logo)
       ∨ (Picture.width logo ≤ Picture.height logo
          ∧ h1 = box ∧ 1 ≤ w1 ≤ box
          ∧ Z.abs (w1 * Picture.height logo - box * Picture.width logo)
            < Picture.height logo)
       ∨ (Picture.height logo < Picture.width logo
          ∧ w1 = box ∧ 1 ≤ h1 ≤ box
          ∧ Z.abs (h1 * Picture.width logo - box * Picture.height logo)
            < Picture.width logo))) as (w1 & h1 & Hthumb & Hshape).
  { destruct (decide (Picture.width logo ≤ box ∧ Picture.height logo ≤ box))
      as [[Hfw Hfh]|Hbig].
    - exists (Picture.width logo), (Picture.height logo).
      split; [by apply PILFacts.thumbnail_size_fits|].
      left. split; [by split|]. by destruct logo.
    - destruct (PILFacts.thumbnail_size_shrinks box box logo)
        as (w1 & h1 & Hthumb & Hw1 & Hh1 & Hside); try done.
      exists w1, h1. split; [done|]. right.
      destruct Hside as [(Hle & -> & Habs)|(Hlt & -> & Habs)].
      + left. split; [nia|]. split; [done|]. split; [lia|done].
      + right. split; [nia|]. split; [done|]. split; [lia|done]. }
  pose proof (IconsFacts.place_logo_eq
                {| Picture.width := size; Picture.height := size |}
                logo size is_maskable box w1 h1 Hbox Hthumb) as Hplace.
  destruct (IconsFacts.create_pwa_icon_run PROJECT_ROOT Image_open size is_maskable
              background logo _ w Hbg Hlogo Hsize Hplace Hwritable)
    as (w' & Hrun & Hfs).
  eexists _, w'. split; [exact Hrun|].
  split; [by rewrite Hfs, lookup_insert_eq|].
  split; [done|]. split; [done|]. cbn [Picture.logo Picture.width Picture.height
    Picture.logo_x Picture.logo_y].
  split; [exact Hshape|]. split; [done|]. split; [done|].
  split; apply IconsFacts.centered_offset.
Qed.

Lemma icon_geometry_witness :
  ∃ final w',
    Icons.create_pwa_icon Sample.PROJECT_ROOT Sample.Image_open 512 true
      Sample.w_icons
    = (Ok (Icons.WEB_ICONS_DIR Sample.PROJECT_ROOT // "Icon-maskable-512.png"), w')
    ∧ fs w' !! (Icons.WEB_ICONS_DIR Sample.PROJECT_ROOT // "Icon-maskable-512.png")
      = Some (File (PngDoc final))
    ∧ Icons.logo_size 512 true = Ok 307.
Proof.
  destruct (icon_geometry Sample.PROJECT_ROOT Sample.Image_open 512 true
              {| Picture.width := 1024; Picture.height := 1024 |}
              {| Picture.width := 1000; Picture.height := 333 |}
              Sample.w_icons)
    as (final & w' & Hrun & Hfile & Hbox & _).
  - simpl. tauto.
  - reflexivity.
  - reflexivity.
  - simpl. lia.
  - simpl. lia.
  - vm_compute; reflexivity.
  - exists final, w'. split; [exact Hrun|]. split; [exact Hfile | exact Hbox].
Defined.

(** C10. Whatever the canvas size, with [box] the length [int(size *
    logo_scale)] of the logo's bounding box: a logo that fits the box keeps
    its dimensions, and in every case each dimension of the pasted logo is
    at most the box's length and at most the logo's own. *)
Theorem logo_never_upscaled (background logo : Picture.image)
    (size box : Z) (is_maskable : bool) :
  Icons.logo_size size is_maskable = Ok box →
  1 ≤ box →
  1 ≤ Picture.width logo →
  1 ≤ Picture.height logo →
  ∃ final,
    Icons.place_logo background logo size is_maskable = Ok final
    ∧ (fits box logo → Picture.logo final = logo)
    ∧ Picture.width (Picture.logo final) ≤ Z.min box (Picture.width logo)
    ∧ Picture.height (Picture.logo final) ≤ Z.min box (Picture.height logo).
Proof.
  intros Hbox Hbox1 Hw Hh.
  destruct (decide (Picture.width logo ≤ box ∧ Picture.height logo ≤ box))
    as [[Hfw Hfh]|Hbig].
  - eexists. split.
    + apply (IconsFacts.place_logo_eq background logo size is_maskable box
               (Picture.width logo) (Picture.height logo) Hbox).
      by apply PILFacts.thumbnail_size_fits.
    + cbn [Picture.logo Picture.width Picture.height].
      split; [by destruct logo|]. lia.
  - destruct (PILFacts.thumbnail_size_shrinks box box logo)
      as (w1 & h1 & Hthumb & Hw1 & Hh1 & _); try done.
    eexists. split.
    { exact (IconsFacts.place_logo_eq background logo size is_maskable box
               w1 h1 Hbox Hthumb). }
    cbn [Picture.logo Picture.width Picture.height].
    split; [by intros Hfit|]. lia.
Qed.

Lemma logo_never_upscaled_witness :
  ∃ final,
    Icons.place_logo {| Picture.width := 192; Picture.height := 192 |}
      {| Picture.width := 100; Picture.height := 50 |} 192 true = Ok final
    ∧ Picture.logo final = {| Picture.width := 100; Picture.height := 50 |}.
Proof.
  destruct (logo_never_upscaled {| Picture.width := 192; Picture.height := 192 |}
              {| Picture.width := 100; Picture.height := 50 |} 192 115 true)
    as (final & Hrun & Hkeep & _).
  - vm_compute; reflexivity.
  - lia.
  - simpl; lia.
  - simpl; lia.
  - exists final. split; [exact Hrun|]. apply Hkeep. split; simpl; lia.
Defined.

(** * Further properties of the scripts *)

(** ** The frame indexer *)

Lemma scan_item_selects (E : env) (items : list Path) :
  map FrameDir.path (omap (Frames.scan_item E) items)
  = List.filter (Builder.has_frames E) items.
Proof.
  induction items as [|item items IH]; [done|].
  cbn [omap list_omap List.filter]. unfold Frames.scan_item at 1, Builder.has_frames at 1.
  destruct (path_is_dir E item); cbn [andb]; [|exact IH].
  destruct (glob_png E item); [exact IH|]. cbn [map FrameDir.path]. by rewrite IH.
Qed.

Lemma scan_item_scanned (E : env) (item : Path) (d : FrameDir.t) :
  Frames.scan_item E item = Some d → scanned E d.
Proof.
  intros Hd. pose proof (scanner_frames_sorted E item d Hd) as [Hnames _].
  pose proof (FramesFacts.scan_item_frame_count E item d Hd) as Hcount.
  unfold Frames.scan_item in Hd.
  destruct (path_is_dir E item) eqn:Hdir; [|done].
  destruct (glob_png E item) as [|f fs] eqn:Hglob; [done|].
  injection Hd as <-. unfold scanned. cbn [FrameDir.path FrameDir.name FrameDir.frames
                           FrameDir.frame_count] in *.
  rewrite Hglob. repeat split; try done.
  - apply PyFacts.sorted_Permutation.
  - apply PyFacts.sorted_Sorted.
  - unfold Py.len. cbn [length]. lia.
Qed.

(** X1. The scanner returns, in the order of the enumeration, one record for
    every entry of the frames directory that is a directory with at least
    one [.png] entry, and for no other; the frames of a record are the
    [.png] entries of its directory in ascending order, and its count is
    their number. *)
Theorem scanner_records (E : env) (items : list Path) (w : world) :
  iterdir E (Frames.NOCODEBACKEND_DIR E) = Ok items →
  ∃ frame_dirs,
    Frames.find_all_frame_directories E w = (Ok frame_dirs, w)
    ∧ map FrameDir.path frame_dirs = List.filter (Builder.has_frames E) items
    ∧ Forall (scanned E) frame_dirs.
Proof.
  intros Hiter. exists (omap (Frames.scan_item E) items).
  split; [|split].
  - unfold Frames.find_all_frame_directories.
    assert (path_exists E (Frames.NOCODEBACKEND_DIR E) = true) as ->.
    { unfold iterdir in Hiter. unfold path_exists.
      by destruct (locate E (Frames.NOCODEBACKEND_DIR E)). }
    cbn [negb]. unfold mbind, M_bind, bind, lift. by rewrite Hiter.
  - apply scan_item_selects.
  - apply Forall_forall. intros d Hd.
    apply list_elem_of_omap in Hd as (item & _ & Hd).
    by eapply scan_item_scanned.
Qed.

Lemma scanner_records_witness :
  ∃ frame_dirs,
    Frames.find_all_frame_directories Sample.E Sample.w0 = (Ok frame_dirs, Sample.w0)
    ∧ map FrameDir.name frame_dirs = ["v2"; "v1"].
Proof.
  destruct (scanner_records Sample.E
              (map (λ n, Frames.NOCODEBACKEND_DIR Sample.E // n)
                   ["v2"; "readme.md"; "empty"; "v1"]) Sample.w0)
    as (frame_dirs & Hrun & Hpaths & Hall).
  - vm_compute; reflexivity.
  - exists frame_dirs. split; [exact Hrun|].
    assert (map PathLib.name (map FrameDir.path frame_dirs) = ["v2"; "v1"]) as Hn.
    { rewrite Hpaths. vm_compute; reflexivity. }
    rewrite <- Hn, map_map. apply map_ext_Forall.
    eapply Forall_impl; [exact Hall|]. intros d Hd. exact (proj1 (proj2 Hd)).
Defined.

Lemma scanner_finds_nothing (E : env) (w : world) :
  frames_missing E = true →
  ∃ w', Frames.find_all_frame_directories E w = (Ok [], w') ∧ chatter w w'.
Proof.
  unfold frames_missing. intros Hmissing.
  apply wp_yields. unfold Frames.find_all_frame_directories.
  destruct (path_exists E (Frames.NOCODEBACKEND_DIR E)); cbn [negb orb] in *.
  - destruct (iterdir E (Frames.NOCODEBACKEND_DIR E)) as [items|e] eqn:Hiter; [|done].
    apply wp_bind, wp_lift. cbv beta iota. apply wp_ret.
    split; [|apply chatter_refl]. f_equal.
    pose proof (scan_item_selects E items) as Hsel.
    destruct (List.filter (Builder.has_frames E) items); [|done].
    by destruct (omap (Frames.scan_item E) items).
  - apply wp_bind, FramesFacts.wp_log. cbv beta iota. apply wp_ret.
    split; [done|apply chatter_logged].
Qed.

(** X2. When the frames directory is missing, or holds no directory with a
    frame, [main] of the frame indexer stops with status 1 right after the
    scan: its last line is the error, and no directory or file has been
    created. *)
Theorem indexer_stops_without_frames (E : env) (w : world) :
  frames_missing E = true →
  ∃ w' timestamp,
    Frames.main E w = (Raise (SystemExit 1), w')
    ∧ fs w' = fs w
    ∧ last (stdout w')
      = Some (log_line timestamp "ERROR"
                "No frame directories found. Please run the video processing script first.").
Proof.
  intros Hmissing.
  cut (wp (Frames.main E) w (λ r w', r = Raise (SystemExit 1) ∧ fs w' = fs w
         ∧ ∃ timestamp, last (stdout w')
             = Some (log_line timestamp "ERROR"
                       "No frame directories found. Please run the video processing script first."))).
  { intros (r & w' & Hrun & -> & Hfs & ts & Hlast)%wp_elim.
    exists w', ts. exact (conj Hrun (conj Hfs Hlast)). }
  unfold Frames.main. repeat FramesRun.wp_frames_step.
  match goal with |- wp _ ?W _ => destruct (scanner_finds_nothing E W Hmissing)
    as (w1 & Hscan & Hfs & _) end.
  eapply wp_run; [exact Hscan|]. cbv beta iota.
  apply wp_bind, wp_bind, FramesFacts.wp_log. cbv beta iota.
  apply wp_raise. split; [done|]. cbn [fs logged] in *. split; [done|].
  eexists. cbn [stdout logged]. apply last_snoc.
Qed.

Lemma indexer_stops_without_frames_witness :
  ∃ w', Frames.main Scenario.E_bare Sample.w0 = (Raise (SystemExit 1), w')
        ∧ fs w' = ∅.
Proof.
  destruct (indexer_stops_without_frames Scenario.E_bare Sample.w0)
    as (w' & ts & Hrun & Hfs & _).
  - vm_compute; reflexivity.
  - exists w'. split; [exact Hrun | exact Hfs].
Defined.

Lemma build_memvid_created (E : env) (index_data : IndexData.t) (w : world) :
  memvid_found E = true →
  memvid_create_succeeds E = true →
  writable (fs w) (Frames.temp_doc E) = true →
  ∃ w', Frames.build_memvid_knowledge_base E index_data w = (Ok true, w')
        ∧ fs w' = <[Frames.temp_doc E :=
                      File (TextDoc (Frames.memvid_input index_data))]> (fs w)
        ∧ stdout w `prefix_of` stdout w'.
Proof.
  unfold memvid_found, memvid_create_succeeds. intros Hfound Hworks Hw.
  apply wp_yields.
  unfold Frames.build_memvid_knowledge_base, Frames.probe_memvid.
  apply wp_bind, FramesRun.wp_try_except, wp_bind, wp_lift.
  destruct (subprocess_run E ["which"; "memvid"]) as [r|e]; [|done].
  cbv beta iota. rewrite Hfound. cbn [negb]. repeat FramesRun.wp_frames_step.
  apply wp_write_file; [done|]. cbv beta iota.
  unfold Frames.create_memvid.
  apply FramesRun.wp_try_except, wp_bind, wp_lift.
  destruct (subprocess_run E _) as [r'|e']; cbv beta iota; [|done].
  rewrite Hworks. repeat FramesRun.wp_frames_step.
  split; [done|]. split; [done|].
  cbn [stdout logged set_fs]. by do 2 apply prefix_app_r.
Qed.

Lemma final_summary_created (E : env) (index_data : IndexData.t) (doc : Path)
    (w : world) :
  ∃ w' t1 t2,
    Frames.final_summary E index_data doc true w = (Ok tt, w')
    ∧ fs w' = fs w
    ∧ In (log_line t1 "INFO" "Memvid KB: Created") (stdout w')
    ∧ last (stdout w')
      = Some (log_line t2 "INFO"
                ("   memvid search '<your query>' " +:+ Frames.KNOWLEDGE_BASE_NAME)).
Proof.
  cut (wp (Frames.final_summary E index_data doc true) w (λ r w',
         r = Ok tt ∧ ∃ t1 t2, fs w' = fs w
         ∧ In (log_line t1 "INFO" "Memvid KB: Created") (stdout w')
         ∧ last (stdout w')
           = Some (log_line t2 "INFO"
                ("   memvid search '<your query>' " +:+ Frames.KNOWLEDGE_BASE_NAME)))).
  { intros (w' & Hrun & t1 & t2 & H)%wp_completes.
    exists w', t1, t2. exact (conj Hrun H). }
  unfold Frames.final_summary. repeat FramesRun.wp_frames_step.
  split; [done|]. eexists _, _. split; [done|]. split.
  - cbn [logged]. find_line.
  - cbn [stdout logged]. apply last_snoc.
Qed.

(** X3. With a [memvid] that is found and whose [create] returns 0, a run of
    [main] that found frame directories completes with the index and the
    guide written, leaves the input it prepared for [memvid] in the
    knowledge-base directory (the listing of every frame path is not
    removed afterwards), reports the knowledge base as created and ends
    with the search hint. *)
Theorem indexer_memvid_created (E : env) (w : world) :
  frames_found E = true →
  kb_writable E (fs w) = true →
  memvid_found E = true →
  memvid_create_succeeds E = true →
  ∃ w' index_data text t1 t2,
    Frames.main E w = (Ok tt, w')
    ∧ fs w' !! Frames.index_path E
      = Some (File (JsonDoc (IndexData.to_json index_data)))
    ∧ fs w' !! Frames.doc_path E = Some (File (TextDoc text))
    ∧ fs w' !! Frames.temp_doc E
      = Some (File (TextDoc (Frames.memvid_input index_data)))
    ∧ In (log_line t1 "INFO" "Memvid KB: Created") (stdout w')
    ∧ last (stdout w')
      = Some (log_line t2 "INFO"
                ("   memvid search '<your query>' " +:+ Frames.KNOWLEDGE_BASE_NAME)).
Proof.
  intros (fd & fds & Hscan)%FramesRun.find_all_frame_directories_found
         Hkb Hfound Hworks.
  unfold kb_writable in Hkb.
  apply andb_prop in Hkb as [Hkb Htmp]. apply andb_prop in Hkb as [Hkb Hdoc].
  apply andb_prop in Hkb as [Hnf Hidx].
  cut (wp (Frames.main E) w (λ r w', r = Ok tt ∧ ∃ index_data text t1 t2,
    fs w' !! Frames.index_path E
      = Some (File (JsonDoc (IndexData.to_json index_data)))
    ∧ fs w' !! Frames.doc_path E = Some (File (TextDoc text))
    ∧ fs w' !! Frames.temp_doc E
      = Some (File (TextDoc (Frames.memvid_input index_data)))
    ∧ In (log_line t1 "INFO" "Memvid KB: Created") (stdout w')
    ∧ last (stdout w')
      = Some (log_line t2 "INFO"
                ("   memvid search '<your query>' " +:+ Frames.KNOWLEDGE_BASE_NAME)))).
  { intros (w' & Hrun & (i & t & t1 & t2 & H))%wp_completes.
    exists w', i, t, t1, t2. exact (conj Hrun H). }
  unfold Frames.main. repeat FramesRun.wp_frames_step.
  eapply wp_run; [apply Hscan|]. cbv beta iota.
  repeat FramesRun.wp_frames_step.
  apply (FramesRun.wp_for_each_chatter _ (fd :: fds)).
  { intros x w1. eexists (logged E "INFO" _ w1).
    split; [reflexivity|apply chatter_logged]. }
  intros w1 [Hfs1 _]. cbn [fs logged] in Hfs1.
  repeat FramesRun.wp_frames_step.
  eapply wp_run; [apply FramesFacts.create_knowledge_index_eq|].
  cbv beta iota. rewrite FramesRun.parent_index_path.
  repeat FramesRun.wp_frames_step.
  apply FramesRun.wp_mkdir_parents; [cbn [fs logged ticked]; by rewrite Hfs1|].
  cbv beta iota. repeat FramesRun.wp_frames_step. apply wp_write_file.
  { unfold writable. rewrite FramesRun.parent_index_path.
    cbn [fs set_fs ticked logged].
    rewrite FsFacts.dir_exists_with_dirs. unfold not_dir in *.
    unfold Frames.index_path at 1.
    rewrite FsFacts.with_dirs_lookup_child, Hfs1. done. }
  cbv beta iota. repeat FramesRun.wp_frames_step.
  set (index_data := Frames.knowledge_index _ (fd :: fds)).
  FramesRun.forget_world Hfs2. rewrite Hfs1 in Hfs2.
  apply FramesRun.wp_create_markdown_documentation.
  { rewrite Hfs2. unfold Frames.index_path.
    by apply FsFacts.no_file_on_insert_child, FsFacts.no_file_on_with_dirs. }
  { rewrite Hfs2. unfold not_dir in *.
    rewrite lookup_insert_ne by apply FramesRun.index_ne_doc.
    unfold Frames.doc_path at 1. by rewrite FsFacts.with_dirs_lookup_child. }
  repeat FramesRun.wp_frames_step. FramesRun.forget_world Hfs3.
  destruct (build_memvid_created E index_data w2 Hfound Hworks)
    as (w3 & Hrun3 & Hfs4 & _).
  { unfold writable. rewrite FramesRun.parent_temp_doc, Hfs3.
    rewrite FsFacts.dir_exists_insert_file by apply FsFacts.joinpath_ne_self.
    rewrite FsFacts.dir_exists_with_dirs. unfold not_dir in *.
    rewrite lookup_insert_ne by apply FramesRun.doc_ne_temp.
    unfold Frames.temp_doc at 1. rewrite FsFacts.with_dirs_lookup_child.
    fold (Frames.temp_doc E).
    rewrite Hfs2, lookup_insert_ne by apply FramesRun.index_ne_temp.
    unfold Frames.temp_doc at 1. by rewrite FsFacts.with_dirs_lookup_child. }
  eapply wp_run; [apply Hrun3|]. cbv beta iota.
  destruct (final_summary_created E index_data (Frames.doc_path E) w3)
    as (w4 & t1 & t2 & Hrun4 & Hfs5 & Hin & Hlast).
  eapply wp_run; [apply Hrun4|]. split; [done|].
  exists index_data. eexists. exists t1, t2. rewrite Hfs5, Hfs4, Hfs3.
  split; [|split; [|split; [|exact (conj Hin Hlast)]]].
  - rewrite lookup_insert_ne by (apply not_eq_sym, FramesRun.index_ne_temp).
    rewrite lookup_insert_ne by (apply not_eq_sym, FramesRun.index_ne_doc).
    unfold Frames.index_path at 1. rewrite FsFacts.with_dirs_lookup_child.
    fold (Frames.index_path E). by rewrite Hfs2, lookup_insert_eq.
  - rewrite lookup_insert_ne by (apply not_eq_sym, FramesRun.doc_ne_temp).
    by rewrite lookup_insert_eq.
  - by rewrite lookup_insert_eq.
Qed.

Lemma indexer_memvid_created_witness :
  ∃ w' t1,
    Frames.main Scenario.E_memvid Sample.w0 = (Ok tt, w')
    ∧ In (log_line t1 "INFO" "Memvid KB: Created") (stdout w').
Proof.
  destruct (indexer_memvid_created Scenario.E_memvid Sample.w0)
    as (w' & index_data & text & t1 & t2 & Hrun & _ & _ & _ & Hin & _).
  - vm_compute; reflexivity.
  - vm_compute; reflexivity.
  - vm_compute; reflexivity.
  - vm_compute; reflexivity.
  - exists w', t1. split; [exact Hrun | exact Hin].
Defined.

(** X4. The input for [memvid] is written outside both [try] blocks: when
    [memvid] is found but the file cannot be written (its directory is
    missing, or a directory stands in its place),
    [build_memvid_knowledge_base] raises the error of the write instead of
    returning [False], and nothing is written. *)
Theorem memvid_input_unwritable (E : env) (index_data : IndexData.t) (w : world) :
  memvid_found E = true →
  writable (fs w) (Frames.temp_doc E) = false →
  ∃ w' message,
    Frames.build_memvid_knowledge_base E index_data w
    = (Raise (Error "OSError" message), w')
    ∧ fs w' = fs w.
Proof.
  unfold memvid_found. intros Hfound Hw.
  cut (wp (Frames.build_memvid_knowledge_base E index_data) w (λ r w',
         (∃ message, r = Raise (Error "OSError" message)) ∧ fs w' = fs w)).
  { intros (r & w' & Hrun & [message ->] & Hfs)%wp_elim. by exists w', message. }
  unfold Frames.build_memvid_knowledge_base, Frames.probe_memvid.
  apply wp_bind, FramesRun.wp_try_except, wp_bind, wp_lift.
  destruct (subprocess_run E ["which"; "memvid"]) as [r|e]; [|done].
  cbv beta iota. rewrite Hfound. cbn [negb]. repeat FramesRun.wp_frames_step.
  unfold wp, write_file. cbn [fs logged]. rewrite Hw.
  unfold os_error, raise. cbn [fst snd fs logged]. split; [by eexists|done].
Qed.

Lemma memvid_input_unwritable_witness :
  ∃ w' message,
    Frames.build_memvid_knowledge_base Scenario.E_memvid Sample.index_data Sample.w0
    = (Raise (Error "OSError" message), w').
Proof.
  destruct (memvid_input_unwritable Scenario.E_memvid Sample.index_data Sample.w0)
    as (w' & message & Hrun & _).
  - vm_compute; reflexivity.
  - vm_compute; reflexivity.
  - exists w', message. exact Hrun.
Defined.

Lemma enumerate_lookup {A} (l : list A) : ∀ (start : Z) (i : nat) (x : A),
  l !! i = Some x → enumerate start l !! i = Some (start + Z.of_nat i, x).
Proof.
  induction l as [|y l IH]; intros start i x; [done|].
  destruct i as [|i]; cbn [enumerate].
  - intros [= ->]. change (Some (start, x) = Some (start + 0, x)).
    do 2 f_equal. lia.
  - intros Hi. change (l !! i = Some x) in Hi.
    change (enumerate (start + 1) l !! i = Some (start + Z.of_nat (S i), x)).
    rewrite (IH (start + 1) i x Hi). do 2 f_equal. lia.
Qed.

Lemma enumerate_length {A} (l : list A) : ∀ start, length (enumerate start l) = length l.
Proof. induction l as [|y l IH]; intros start; cbn; [done|]. by rewrite IH. Qed.

Lemma contents_numbered {A B} (f : Z * A → B) (l : list A) :
  map f (enumerate 1 l) = imap (λ i x, f (Z.of_nat i + 1, x)) l.
Proof.
  apply list_eq. intros i.
  change (map f) with (fmap (M:=list) f).
  rewrite list_lookup_fmap, list_lookup_imap.
  destruct (l !! i) as [x|] eqn:Hi.
  - rewrite (enumerate_lookup l 1 i x Hi). cbn. do 3 f_equal. lia.
  - apply lookup_ge_None in Hi.
    assert (enumerate 1 l !! i = None) as ->; [|done].
    apply lookup_ge_None. by rewrite enumerate_length.
Qed.

(** X5. The learning guide that [create_markdown_documentation] writes opens
    with the header and, right after it, the table of contents: one line
    per video of the index, in the order of the index and numbered from 1,
    giving the video's name and its number of frames. *)
Theorem guide_contents_numbered (E : env) (frame_dirs : list FrameDir.t)
    (index_data : IndexData.t) (w : world) :
  no_file_on (fs w) (Frames.KNOWLEDGE_BASE_DIR E) = true →
  not_dir (fs w) (Frames.doc_path E) = true →
  ∃ w' guide rest,
    Frames.create_markdown_documentation E frame_dirs index_data w
    = (Ok (Frames.doc_path E), w')
    ∧ fs w' !! Frames.doc_path E = Some (File (TextDoc guide))
    ∧ guide
      = Frames.guide_header (strftime E (clock w)) index_data
          +:+ concat_str
                (imap (λ i video,
                         Py.str_int (Z.of_nat i + 1) +:+ ". **"
                           +:+ VideoInfo.name video +:+ "** - "
                           +:+ Py.str_int (VideoInfo.frame_count video)
                           +:+ " frames" +:+ nl)
                      (IndexData.videos index_data))
          +:+ Frames.guide_middle
          +:+ rest.
Proof.
  intros Hnf Hnd.
  destruct (FramesRun.create_markdown_documentation_run E frame_dirs index_data
              w Hnf Hnd) as (w' & Hrun & Hfile).
  exists w', (concat_str (Frames.guide_chunks (strftime E (clock w)) index_data)),
    (concat_str (concat (map Frames.video_section (IndexData.videos index_data)))
       +:+ Frames.guide_footer).
  split; [exact Hrun|]. split; [exact Hfile|].
  unfold Frames.guide_chunks. rewrite !concat_str_app.
  rewrite (contents_numbered Frames.contents_line). unfold Frames.contents_line.
  cbn [concat_str fst snd]. rewrite !append_nil_r. reflexivity.
Qed.

Lemma guide_contents_numbered_witness :
  ∃ w' guide rest,
    Frames.create_markdown_documentation Sample.E Sample.frame_dirs
      Sample.index_data (ticked Sample.w0)
    = (Ok (Frames.doc_path Sample.E), w')
    ∧ fs w' !! Frames.doc_path Sample.E = Some (File (TextDoc guide))
    ∧ guide
      = Frames.guide_header (strftime Sample.E 1) Sample.index_data
          +:+ ("1. **v2** - 2 frames" +:+ nl +:+ "2. **v1** - 7 frames" +:+ nl)
          +:+ Frames.guide_middle
          +:+ rest.
Proof.
  destruct (guide_contents_numbered Sample.E Sample.frame_dirs Sample.index_data
              (ticked Sample.w0)) as (w' & guide & rest & Hrun & Hfile & Hguide).
  - vm_compute; reflexivity.
  - vm_compute; reflexivity.
  - exists w', guide, rest. split; [exact Hrun|]. split; [exact Hfile|].
    rewrite Hguide. reflexivity.
Defined.

(** ** The topic organiser *)

Lemma build_outputs (E : env) (topic : string) (source : Path)
    (entries : list Path) (w : world) :
  let self := Builder.attributes E topic source in
  iterdir E source = Ok entries →
  List.filter (Builder.has_frames E) entries ≠ [] →
  build_ready self (fs w) = true →
  ∃ w', Builder.build E self w = (Ok true, w')
        ∧ (∀ n, n ∈ Builder.TOPIC_NAMES → topic_built self n [] (fs w'))
        ∧ kb_outputs E self (List.filter (Builder.has_frames E) entries) (fs w')
        ∧ (∀ q, (∀ n, n ∈ Builder.TOPIC_NAMES →
                      ¬ (Builder.topics_dir self // n) `prefix_of` q) →
                q ≠ Builder.search_dir self // "master_index.json" →
                q ≠ Builder.kb_dir self // "SEARCH_GUIDE.md" →
                q ≠ Builder.kb_dir self // "metadata.json" →
                fs w' !! q = fs w !! q).
Proof.
  intros self Hiter Hsome Hready. unfold build_ready in Hready.
  repeat (apply andb_prop in Hready as [Hready ?]).
  apply wp_yields. unfold Builder.build. cbn [Builder.source_dir self Builder.attributes].
  repeat BuilderFacts.wp_builder_step.
  rewrite Hiter. cbv beta iota zeta.
  destruct (List.filter (Builder.has_frames E) entries) as [|d ds] eqn:Hd; [done|].
  repeat BuilderFacts.wp_builder_step.
  apply BuilderRun.wp_extract_topics_from_frames. intros w1 [Hfs1 _].
  cbn [fs logged] in Hfs1. repeat BuilderFacts.wp_builder_step.
  assert (Builder.kb_dir self = Builder.KB_BASE_DIR E /// topic) as HK by done.
  assert (Builder.topics_dir self = Builder.KB_BASE_DIR E /// topic // "topics")
    as HT by done.
  assert (Builder.search_dir self = Builder.KB_BASE_DIR E /// topic // "search-index")
    as HS by done.
  revert HK HT HS. generalize (Builder.KB_BASE_DIR E /// topic) as K. intros K HK HT HS.
  apply BuilderRun.wp_build_topic_structure.
  { rewrite HT. unfold joinpath. by destruct K. }
  { apply BuilderRun.topic_names_NoDup. }
  { apply BuilderRun.topic_names_simple. }
  { cbn [fs logged]. by rewrite Hfs1. }
  { apply Forall_forall. intros n Hn. cbn [fs logged]. rewrite Hfs1.
    eapply forallb_forall in H2; [done|]. by apply list_elem_of_In. }
  intros w2 Hframe2 Hbuilt2. cbn [fs logged] in Hframe2. rewrite Hfs1 in Hframe2.
  repeat BuilderFacts.wp_builder_step.
  apply BuilderFacts.wp_create_master_index.
  { unfold writable, dir_exists, not_dir in *. rewrite parent_joinpath.
    cbn [fs logged]. rewrite !Hframe2; [by rewrite H3|..];
      intros n _; rewrite HT, HS; BuilderRun.not_below. }
  intros w3 Hfs3 _. cbn [fs logged] in Hfs3. repeat BuilderFacts.wp_builder_step.
  apply BuilderFacts.wp_create_search_guide.
  { unfold writable, dir_exists, not_dir in *. rewrite parent_joinpath.
    cbn [fs logged]. rewrite Hfs3.
    rewrite !lookup_insert_ne by (rewrite HK, HS; BuilderFacts.path_ne).
    rewrite !Hframe2; [by rewrite Hready|..];
      intros n _; rewrite HT, HK; BuilderRun.not_below. }
  intros w4 [text Hfs4] _. cbn [fs logged] in Hfs4.
  repeat BuilderFacts.wp_builder_step.
  apply wp_write_file.
  { unfold writable, dir_exists, not_dir in *. rewrite parent_joinpath.
    cbn [fs ticked]. rewrite Hfs4.
    rewrite !lookup_insert_ne by (rewrite HK; BuilderFacts.path_ne). rewrite Hfs3.
    rewrite !lookup_insert_ne by (rewrite HK, HS; BuilderFacts.path_ne).
    rewrite !Hframe2; [by rewrite Hready|..];
      intros n _; rewrite HT, HK; BuilderRun.not_below. }
  cbv beta iota. repeat BuilderFacts.wp_builder_step.
  split; [done|]. cbn [fs logged set_fs ticked stdout]. rewrite Hfs4, Hfs3.
  split; [|split].
  - intros n Hn.
    apply BuilderRun.topic_built_insert; [rewrite HT, HK; BuilderRun.not_below|].
    apply BuilderRun.topic_built_insert; [rewrite HT, HK; BuilderRun.not_below|].
    apply BuilderRun.topic_built_insert; [rewrite HT, HS; BuilderRun.not_below|].
    apply Hbuilt2. unfold Builder.empty_topics.
    apply list_elem_of_In, in_map_iff. exists n. split; [done|].
    by apply list_elem_of_In.
  - eexists _, _, text. cbv zeta. split; [|split].
    + rewrite !lookup_insert_ne by (rewrite HK, HS; BuilderFacts.path_ne).
      by rewrite lookup_insert_eq.
    + rewrite lookup_insert_ne by (rewrite HK; BuilderFacts.path_ne).
      by rewrite lookup_insert_eq.
    + by rewrite lookup_insert_eq.
  - intros q Hq Hq1 Hq2 Hq3.
    rewrite !lookup_insert_ne by done.
    apply Hframe2. intros n Hn. apply Hq. unfold Builder.empty_topics in Hn.
    rewrite map_map in Hn. cbn [fst] in Hn. by rewrite map_id in Hn.
Qed.

Lemma prefixes_from_prefix (p : Path) : ∀ base q,
  q ∈ prefixes_from base p → q `prefix_of` base ++ p.
Proof.
  induction p as [|c p IH]; intros base q; cbn [prefixes_from].
  - by intros ?%elem_of_nil.
  - intros [->|Hq]%elem_of_cons.
    + apply prefix_app, prefix_cons, prefix_nil.
    + apply IH in Hq. by rewrite <- app_assoc in Hq.
Qed.

Lemma for_each_mkdir_parents (l : list Path) : ∀ w,
  forallb (no_file_on (fs w)) l = true →
  for_each l mkdir_parents w = (Ok tt, set_fs (with_all_dirs l (fs w)) w).
Proof.
  induction l as [|p l IH]; intros w Hl; cbn [for_each with_all_dirs fold_left].
  - unfold ret. by rewrite FsFacts.set_fs_id.
  - cbn [forallb] in Hl. apply andb_prop in Hl as [Hp Hl].
    unfold bind. rewrite (FsFacts.mkdir_parents_run p w Hp).
    rewrite IH; cbn [fs set_fs].
    + by rewrite FsFacts.set_fs_set_fs.
    + apply forallb_forall. intros q Hq.
      apply FsFacts.no_file_on_with_dirs.
      by eapply forallb_forall in Hl.
Qed.

Lemma with_all_dirs_lookup (l : list Path) : ∀ s q,
  (∀ p, p ∈ l → ¬ q `prefix_of` p) →
  with_all_dirs l s !! q = s !! q.
Proof.
  induction l as [|p l IH]; intros s q Hq; cbn [with_all_dirs fold_left]; [done|].
  fold (with_all_dirs l (with_dirs p s)).
  rewrite IH by (intros p' Hp'; apply Hq; by right).
  rewrite FsFacts.with_dirs_lookup. destruct (decide _) as [[Hin _]|]; [|done].
  exfalso. apply (Hq p); [by left|]. by apply (prefixes_from_prefix p []).
Qed.

Lemma with_all_dirs_dir (l : list Path) : ∀ s p,
  dir_exists s p = true → dir_exists (with_all_dirs l s) p = true.
Proof.
  induction l as [|p' l IH]; intros s p Hp; cbn [with_all_dirs fold_left]; [done|].
  apply IH. unfold dir_exists in *. rewrite FsFacts.with_dirs_lookup.
  destruct (is_root p); [done|]. cbn [orb] in *. by destruct (decide _).
Qed.

Lemma with_all_dirs_made (l : list Path) : ∀ s p,
  p ∈ l → dir_exists (with_all_dirs l s) p = true.
Proof.
  induction l as [|p' l IH]; intros s p; cbn [with_all_dirs fold_left].
  - by intros ?%elem_of_nil.
  - intros [->|Hp]%elem_of_cons; [|by apply IH].
    apply with_all_dirs_dir, FsFacts.dir_exists_with_dirs.
Qed.

Lemma with_all_dirs_not_file (l : list Path) : ∀ s q,
  not_file s q = true → not_file (with_all_dirs l s) q = true.
Proof.
  induction l as [|p l IH]; intros s q Hq; cbn [with_all_dirs fold_left]; [done|].
  by apply IH, FsFacts.not_file_with_dirs.
Qed.

(** [__init__] on a state where no file is in the way of its directories. *)
Lemma init_run (E : env) (topic : string) (source : Path) (w : world) :
  let self := Builder.attributes E topic source in
  forallb (no_file_on (fs w)) (init_directories self) = true →
  Builder.init E topic source w
  = (Ok self, set_fs (with_all_dirs (init_directories self) (fs w)) w).
Proof.
  intros self Hl. unfold Builder.init. cbv zeta.
  unfold mbind, M_bind, bind. fold self.
  change [Builder.kb_dir self; Builder.topics_dir self; Builder.tech_dir self;
          Builder.code_dir self; Builder.search_dir self]
    with (init_directories self).
  by rewrite (for_each_mkdir_parents _ w Hl).
Qed.

Lemma build_ready_after_init (E : env) (topic : string) (source : Path)
    (s : gmap Path node) :
  let self := Builder.attributes E topic source in
  kb_ready self s = true →
  build_ready self (with_all_dirs (init_directories self) s) = true.
Proof.
  intros self. unfold kb_ready, build_ready, init_directories.
  cbn [self Builder.attributes Builder.kb_dir Builder.topics_dir Builder.tech_dir
       Builder.code_dir Builder.search_dir].
  generalize (Builder.KB_BASE_DIR E /// topic) as K. intros K Hready.
  apply andb_prop in Hready as [Hready Hmeta].
  apply andb_prop in Hready as [Hready Hguide].
  apply andb_prop in Hready as [Hready Hmaster].
  apply andb_prop in Hready as [_ Hslots].
  assert (∀ q, (length K < length q)%nat →
               (∀ c, q ≠ K // c) →
               with_all_dirs [K; K // "topics"; K // "technologies";
                              K // "code-snippets"; K // "search-index"] s !! q
               = s !! q) as Hsame.
  { intros q Hlen Hne. apply with_all_dirs_lookup. intros p Hp Hpre.
    assert (p = K ∨ ∃ c, p = K // c) as [->|[c ->]].
    { set_unfold. destruct Hp as [->|[->|[->|[->|[->|[]]]]]]; eauto. }
    - apply prefix_length in Hpre. lia.
    - apply prefix_length_eq in Hpre; [by apply (Hne c)|].
      unfold joinpath. rewrite length_app. simpl. lia. }
  repeat match goal with
         | |- _ && _ = true => apply andb_true_intro; split
         end.
  - apply with_all_dirs_made. set_solver.
  - apply with_all_dirs_made. set_solver.
  - apply with_all_dirs_made. set_solver.
  - apply forallb_forall. intros n Hn.
    eapply forallb_forall in Hslots; [|exact Hn].
    rewrite (BuilderFacts.topic_slot_free_frame s); [exact Hslots|].
    intros q Hq. apply Hsame.
    + apply prefix_length in Hq. unfold joinpath in Hq.
      rewrite !length_app in Hq. simpl in Hq. lia.
    + intros c ->. apply prefix_length in Hq. unfold joinpath in Hq.
      rewrite !length_app in Hq. simpl in Hq. lia.
  - unfold not_dir in *. rewrite Hsame; [done|..].
    + unfold joinpath. rewrite !length_app. simpl. lia.
    + intros c. BuilderFacts.path_ne.
  - unfold not_dir in *.
    rewrite with_all_dirs_lookup; [done|]. intros p Hp.
    set_unfold. destruct Hp as [->|[->|[->|[->|[->|[]]]]]]; BuilderRun.not_below.
  - unfold not_dir in *.
    rewrite with_all_dirs_lookup; [done|]. intros p Hp.
    set_unfold. destruct Hp as [->|[->|[->|[->|[->|[]]]]]]; BuilderRun.not_below.
Qed.

Lemma with_all_dirs_lookup_full (l : list Path) : ∀ s q,
  with_all_dirs l s !! q
  = if decide (Exists (λ p, q ∈ prefixes_from [] p) l ∧ is_root q = false)
    then Some Dir else s !! q.
Proof.
  induction l as [|p l IH]; intros s q; cbn [with_all_dirs fold_left].
  - destruct (decide _) as [[H%Exists_nil _]|]; done.
  - fold (with_all_dirs l (with_dirs p s)). rewrite IH, FsFacts.with_dirs_lookup.
    repeat destruct (decide _); try done; exfalso; rewrite Exists_cons in *; tauto.
Qed.

Lemma with_all_dirs_idemp (l : list Path) (s : gmap Path node) :
  with_all_dirs l (with_all_dirs l s) = with_all_dirs l s.
Proof.
  apply map_eq. intros q. rewrite !with_all_dirs_lookup_full.
  by destruct (decide _).
Qed.

Lemma prefix_snoc_cases (q p : Path) (c : string) :
  q `prefix_of` p // c → q = p // c ∨ q `prefix_of` p.
Proof.
  unfold joinpath. intros [k Hk]. destruct k as [|x k' _] using rev_ind.
  - left. by rewrite app_nil_r in Hk.
  - right. rewrite app_assoc in Hk. apply app_inj_tail in Hk as [-> _].
    by apply prefix_app_r.
Qed.

(** X6. Constructing the builder for a knowledge base kept under a plain
    path makes its five directories, with their ancestors, wherever no
    file is in the way; it prints nothing, leaves every entry under a
    plain path that is none of these directories or ancestors as it was,
    and constructing it once more changes nothing. *)
Theorem organiser_init (E : env) (topic : string) (source : Path) (w : world) :
  let self := Builder.attributes E topic source in
  plain (Builder.kb_dir self) = true →
  forallb (no_file_on (fs w)) (init_directories self) = true →
  ∃ w1,
    Builder.init E topic source w = (Ok self, w1)
    ∧ stdout w1 = stdout w
    ∧ Forall (λ p, dir_exists (fs w1) p = true) (init_directories self)
    ∧ (∀ q, plain q = true →
            (∀ p, p ∈ init_directories self → ¬ q `prefix_of` p) →
            fs w1 !! q = fs w !! q)
    ∧ Builder.init E topic source w1 = (Ok self, w1).
Proof.
  intros self _ Hfree. eexists. split; [by apply init_run|].
  cbn [stdout fs set_fs]. split; [done|]. split; [|split].
  - apply Forall_forall. intros p Hp. by apply with_all_dirs_made.
  - intros q _ Hq. by apply with_all_dirs_lookup.
  - rewrite init_run; cbn [fs set_fs].
    + by rewrite with_all_dirs_idemp, FsFacts.set_fs_set_fs.
    + apply forallb_forall. intros p Hp. eapply forallb_forall in Hfree; [|exact Hp].
      unfold no_file_on in *. apply forallb_forall. intros q Hq.
      eapply forallb_forall in Hfree; [|exact Hq].
      by apply with_all_dirs_not_file.
Qed.

Lemma organiser_init_witness :
  ∃ w1,
    Builder.init Sample.E "Topic" ["src"] Sample.w0 = (Ok Sample.builder, w1)
    ∧ dir_exists (fs w1) (Builder.search_dir Sample.builder) = true.
Proof.
  destruct (organiser_init Sample.E "Topic" ["src"] Sample.w0)
    as (w1 & Hrun & _ & Hdirs & _).
  - vm_compute; reflexivity.
  - vm_compute; reflexivity.
  - exists w1. split; [exact Hrun|].
    apply (proj1 (Forall_forall _ _) Hdirs). unfold init_directories.
    do 4 right. left.
Defined.

Lemma source_has_frames_entries (E : env) (source : Path) :
  source_has_frames E source = true →
  path_exists E source = true
  ∧ ∃ entries, iterdir E source = Ok entries
               ∧ List.filter (Builder.has_frames E) entries ≠ [].
Proof.
  unfold source_has_frames. intros Hsrc. split.
  - unfold iterdir, path_exists in *. by destruct (locate E source) as [[|es]|].
  - destruct (iterdir E source) as [entries|]; [|done].
    exists entries. split; [done|]. by destruct (List.filter _ entries).
Qed.

(** X7. A run of the organiser from the command line, for a knowledge base
    kept under a plain path, over a source that exists and, once the
    constructor has made the directories, lists at least one directory of
    frames, and a filesystem where nothing of the wrong kind is in the
    way: it leaves with status 0; the five directories exist; every
    topic has its entries; the master index, the search guide and the
    record of the build are written, over the frame directories listed
    then; and an entry under a plain path that is neither below the
    knowledge-base directory nor an ancestor of it is as it was. *)
Theorem organiser_run (E : env) (prog topic source : string) (rest : list string)
    (w : world) :
  let source_dir := PathLib.of_string source in
  let self := Builder.attributes E topic source_dir in
  let E' := Builder.after_init E self in
  plain (Builder.kb_dir self) = true →
  path_exists E source_dir = true →
  source_has_frames E' source_dir = true →
  kb_ready self (fs w) = true →
  ∃ w' entries,
    Builder.main E (prog :: topic :: source :: rest) w = (Raise (SystemExit 0), w')
    ∧ iterdir E' source_dir = Ok entries
    ∧ Forall (λ p, dir_exists (fs w') p = true) (init_directories self)
    ∧ (∀ n, n ∈ Builder.TOPIC_NAMES → topic_built self n [] (fs w'))
    ∧ kb_outputs E' self (List.filter (Builder.has_frames E') entries) (fs w')
    ∧ (∀ q, plain q = true →
            ¬ Builder.kb_dir self `prefix_of` q →
            ¬ q `prefix_of` Builder.kb_dir self →
            fs w' !! q = fs w !! q).
Proof.
  intros source_dir self E' _ Hex [_ (entries & Hiter & Hsome)]%source_has_frames_entries
    Hready.
  rewrite BuilderRun.main_builds by done. fold source_dir.
  assert (forallb (no_file_on (fs w)) (init_directories self) = true) as Hfree.
  { unfold kb_ready in Hready.
    by do 4 apply andb_prop in Hready as [Hready _]. }
  fold self. rewrite (init_run E topic source_dir w Hfree). fold self.
  unfold E' in *. clear E'.
  pose proof (build_outputs (Builder.after_init E self) topic source_dir entries
                (set_fs (with_all_dirs (init_directories self) (fs w)) w)
                Hiter Hsome) as Hbuild.
  cbv zeta in Hbuild.
  rewrite !BuilderRun.attributes_after_init in Hbuild. fold self in Hbuild.
  destruct Hbuild as (w' & Hrun & Hbuilt & Hout & Hframe).
  { cbn [fs set_fs]. by apply build_ready_after_init. }
  rewrite Hrun.
  exists w', entries. split; [done|]. split; [done|].
  cbn [fs set_fs] in Hframe.
  split; [|split; [done|split; [done|]]].
  - apply Forall_forall. intros p Hp.
    assert (dir_exists (with_all_dirs (init_directories self) (fs w)) p = true)
      as Hdir by by apply with_all_dirs_made.
    unfold dir_exists in *. rewrite Hframe; [done|..].
    + intros n _.
      cbn [self Builder.attributes Builder.topics_dir Builder.kb_dir
           Builder.tech_dir Builder.code_dir Builder.search_dir init_directories]
        in Hp |- *.
      set_unfold. destruct Hp as [->|[->|[->|[->|[->|[]]]]]]; BuilderRun.not_below.
    + cbn [self Builder.attributes Builder.topics_dir Builder.kb_dir
           Builder.tech_dir Builder.code_dir Builder.search_dir init_directories]
        in Hp |- *.
      set_unfold. destruct Hp as [->|[->|[->|[->|[->|[]]]]]]; BuilderFacts.path_ne.
    + cbn [self Builder.attributes Builder.topics_dir Builder.kb_dir
           Builder.tech_dir Builder.code_dir Builder.search_dir init_directories]
        in Hp |- *.
      set_unfold. destruct Hp as [->|[->|[->|[->|[->|[]]]]]]; BuilderFacts.path_ne.
    + cbn [self Builder.attributes Builder.topics_dir Builder.kb_dir
           Builder.tech_dir Builder.code_dir Builder.search_dir init_directories]
        in Hp |- *.
      set_unfold. destruct Hp as [->|[->|[->|[->|[->|[]]]]]]; BuilderFacts.path_ne.
  - intros q _ Hq1 Hq2. rewrite Hframe.
    + apply with_all_dirs_lookup. intros p Hp Hpre.
      cbn [self Builder.attributes Builder.topics_dir Builder.kb_dir
           Builder.tech_dir Builder.code_dir Builder.search_dir init_directories]
        in Hp, Hq1, Hq2.
      set_unfold.
      destruct Hp as [->|[->|[->|[->|[->|[]]]]]]; [done|..];
        apply prefix_snoc_cases in Hpre as [->|Hpre]; try done;
        apply Hq1, BuilderFacts.prefix_child.
    + intros n _ Hn. apply Hq1. etrans; [|exact Hn].
      apply BuilderFacts.prefix_grandchild.
    + intros ->. apply Hq1, BuilderFacts.prefix_grandchild.
    + intros ->. apply Hq1, BuilderFacts.prefix_child.
    + intros ->. apply Hq1, BuilderFacts.prefix_child.
Qed.

Lemma organiser_run_witness :
  (∃ w', Builder.main Sample.E Sample.argv Sample.w0 = (Raise (SystemExit 0), w'))
  ∧ source_has_frames Sample.E (home Sample.E) = false
  ∧ ∃ w' index,
      Builder.main Sample.E ["intelligent_kb_builder.py"; "a.png"; "/home/u"]
        Sample.w0 = (Raise (SystemExit 0), w')
      ∧ fs w' !! (home Sample.E // "knowledge-bases" // "a.png" // "search-index"
                    // "master_index.json")
        = Some (File (JsonDoc (MasterIndex.to_json index)))
      ∧ MasterIndex.total_videos index = 1.
Proof.
  split; [|split; [vm_compute; reflexivity|]].
  - destruct (organiser_run Sample.E "intelligent_kb_builder.py" "Topic" "src" []
                Sample.w0) as (w' & entries & Hrun & _).
    + vm_compute; reflexivity.
    + vm_compute; reflexivity.
    + vm_compute; reflexivity.
    + vm_compute; reflexivity.
    + exists w'. exact Hrun.
  - destruct (organiser_run Sample.E "intelligent_kb_builder.py" "a.png" "/home/u"
                [] Sample.w0)
      as (w' & entries & Hrun & Hiter & _ & _ & (created_at & _ & _ & Hindex & _) & _).
    + vm_compute; reflexivity.
    + vm_compute; reflexivity.
    + vm_compute; reflexivity.
    + vm_compute; reflexivity.
    + exists w'. eexists. split; [exact Hrun|]. split; [exact Hindex|].
      vm_compute in Hiter. injection Hiter as <-.
      vm_compute; reflexivity.
Defined.



(** X9. When the source has no directory with a frame, [build] writes
    nothing: it returns [False] with the error as its last line when the
    source can be listed, and raises the error of the listing when it
    cannot. *)
Theorem build_writes_nothing_without_frames (E : env) (self : Builder.t)
    (w : world) :
  source_has_frames E (Builder.source_dir self) = false →
  ∃ r w',
    Builder.build E self w = (r, w')
    ∧ fs w' = fs w
    ∧ match iterdir E (Builder.source_dir self) with
      | Ok _ =>
          r = Ok false
          ∧ ∃ timestamp,
              last (stdout w')
              = Some (log_line timestamp "ERROR" "No frame directories found!")
      | Raise e => r = Raise e
      end.
Proof.
  unfold source_has_frames. intros Hsrc.
  cut (wp (Builder.build E self) w (λ r w', fs w' = fs w
         ∧ match iterdir E (Builder.source_dir self) with
           | Ok _ =>
               r = Ok false
               ∧ ∃ timestamp,
                   last (stdout w')
                   = Some (log_line timestamp "ERROR" "No frame directories found!")
           | Raise e => r = Raise e
           end)).
  { intros (r & w' & Hrun & H)%wp_elim. exists r, w'. exact (conj Hrun H). }
  unfold Builder.build. repeat BuilderFacts.wp_builder_step.
  destruct (iterdir E (Builder.source_dir self)) as [entries|e];
    cbv beta iota zeta.
  - destruct (List.filter (Builder.has_frames E) entries) as [|d ds]; [|done].
    repeat BuilderFacts.wp_builder_step. split; [done|]. split; [done|].
    eexists. cbn [stdout logged]. apply last_snoc.
  - split; [done|reflexivity].
Qed.

Lemma build_writes_nothing_without_frames_witness :
  ∃ w', Builder.build Sample.E (Builder.attributes Sample.E "Topic" ["bare"])
          Sample.w_init = (Ok false, w')
        ∧ fs w' = fs Sample.w_init.
Proof.
  destruct (build_writes_nothing_without_frames Sample.E
              (Builder.attributes Sample.E "Topic" ["bare"]) Sample.w_init)
    as (r & w' & Hrun & Hfs & Hr).
  - vm_compute; reflexivity.
  - assert (iterdir Sample.E ["bare"] = Ok [["bare"; "notes"]]) as Hiter
      by (vm_compute; reflexivity).
    cbn [Builder.source_dir Builder.attributes] in Hr. rewrite Hiter in Hr.
    destruct Hr as [-> _]. exists w'. split; [exact Hrun | exact Hfs].
Defined.

(** X10. The builder is constructed before the source is examined: a run
    for a knowledge base kept under a plain path, over a source that
    exists and has no directory of frames once the directories of the
    knowledge base are made, leaves with status 1, yet these five
    directories have been made; no other entry under a plain path has
    changed. *)
Theorem organiser_run_without_frames (E : env) (prog topic source : string)
    (rest : list string) (w : world) :
  let source_dir := PathLib.of_string source in
  let self := Builder.attributes E topic source_dir in
  plain (Builder.kb_dir self) = true →
  path_exists E source_dir = true →
  source_without_frames (Builder.after_init E self) source_dir = true →
  forallb (no_file_on (fs w)) (init_directories self) = true →
  ∃ w',
    Builder.main E (prog :: topic :: source :: rest) w = (Raise (SystemExit 1), w')
    ∧ Forall (λ p, dir_exists (fs w') p = true) (init_directories self)
    ∧ (∀ q, plain q = true →
            (∀ p, p ∈ init_directories self → ¬ q `prefix_of` p) →
            fs w' !! q = fs w !! q).
Proof.
  intros source_dir self _ Hex Hsrc Hfree.
  rewrite BuilderRun.main_builds by done. fold source_dir.
  fold self. rewrite (init_run E topic source_dir w Hfree). fold self.
  destruct (BuilderRun.build_without_frames (Builder.after_init E self) self
              (set_fs (with_all_dirs (init_directories self) (fs w)) w) Hsrc)
    as (w' & -> & Hfs & _).
  cbn [fs set_fs] in Hfs. exists w'. split; [done|]. rewrite Hfs. split.
  - apply Forall_forall. intros p Hp. by apply with_all_dirs_made.
  - intros q _ Hq. by apply with_all_dirs_lookup.
Qed.

Lemma organiser_run_without_frames_witness :
  ∃ w',
    Builder.main Sample.E ["intelligent_kb_builder.py"; "Topic"; "bare"] Sample.w0
    = (Raise (SystemExit 1), w')
    ∧ dir_exists (fs w')
        (Builder.topics_dir (Builder.attributes Sample.E "Topic" ["bare"])) = true.
Proof.
  destruct (organiser_run_without_frames Sample.E "intelligent_kb_builder.py"
              "Topic" "bare" [] Sample.w0) as (w' & Hrun & Hdirs & _).
  - vm_compute; reflexivity.
  - vm_compute; reflexivity.
  - vm_compute; reflexivity.
  - vm_compute; reflexivity.
  - exists w'. split; [exact Hrun|].
    apply (proj1 (Forall_forall _ _) Hdirs). unfold init_directories.
    right. left.
Defined.

Lemma every_nth_aux_sublist {A} (step : nat) (l : list A) : ∀ skip,
  Builder.every_nth_aux step skip l `sublist_of` l.
Proof.
  induction l as [|x l IH]; intros skip; cbn [Builder.every_nth_aux]; [done|].
  destruct skip; [apply sublist_skip | apply sublist_cons]; apply IH.
Qed.

Lemma every_nth_aux_reach {A} (step : nat) (l : list A) : ∀ skip,
  (1 ≤ step)%nat →
  let m := length (Builder.every_nth_aux step skip l) in
  (length l ≤ m * step + skip)%nat
  ∧ (1 ≤ m → (m - 1) * step + skip + 1 ≤ length l)%nat.
Proof.
  intros skip Hstep. revert skip.
  induction l as [|x l IH]; intros skip; cbn [Builder.every_nth_aux length].
  - lia.
  - destruct skip as [|k].
    + specialize (IH (pred step)). cbv zeta in IH. cbn [length].
      destruct IH as [IH1 IH2]. split; [nia|]. intros _.
      destruct (length (Builder.every_nth_aux step (pred step) l)) as [|m'];
        [lia|]. nia.
    + specialize (IH k). cbv zeta in IH. destruct IH as [IH1 IH2].
      split; [lia|]. intros Hm. specialize (IH2 Hm). lia.
Qed.

(** X11. The frames sampled from a video for analysis, [frames[::max(1,
    len(frames) // 20)]], are frames of the video in their order,
    beginning with the first; a video with fewer than 20 frames is sampled
    whole, and a longer one gives at least 20 and never more than 39
    samples. *)
Theorem sample_bounds {A} (frames : list A) :
  let sample_interval := Z.max 1 (Py.len frames / 20) in
  let sampled_frames := Builder.every_nth sample_interval frames in
  sampled_frames `sublist_of` frames
  ∧ head sampled_frames = head frames
  ∧ (Py.len frames < 20 → sampled_frames = frames)
  ∧ (20 ≤ Py.len frames → 20 ≤ Py.len sampled_frames ≤ 39).
Proof.
  intros sample_interval sampled_frames.
  unfold sampled_frames, Builder.every_nth.
  assert (1 ≤ Z.to_nat sample_interval)%nat as Hstep by (unfold sample_interval; lia).
  pose proof (every_nth_aux_reach (Z.to_nat sample_interval) frames 0 Hstep)
    as [Hlow Hhigh]. cbv zeta in Hlow, Hhigh.
  split; [apply every_nth_aux_sublist|]. split; [by destruct frames|].
  unfold Py.len in *. split.
  - intros Hshort.
    assert (Z.to_nat sample_interval = 1%nat) as Hone.
    { unfold sample_interval.
      rewrite Z.div_small by lia. reflexivity. }
    rewrite Hone. clear. induction frames as [|x l IH]; [done|].
    cbn [Builder.every_nth_aux pred]. by rewrite IH.
  - intros Hlong.
    set (n := length frames) in *.
    set (m := length (Builder.every_nth_aux (Z.to_nat sample_interval) 0 frames)) in *.
    assert (Z.of_nat (Z.to_nat sample_interval) = Z.of_nat n / 20) as Hk.
    { unfold sample_interval.
      pose proof (Z.div_le_lower_bound (Z.of_nat n) 20 1 ltac:(lia) ltac:(lia)). lia. }
    pose proof (Z.mul_div_le (Z.of_nat n) 20 ltac:(lia)).
    pose proof (Z.mul_succ_div_gt (Z.of_nat n) 20 ltac:(lia)).
    nia.
Qed.

Lemma sample_bounds_witness :
  20 ≤ Py.len (Builder.every_nth (Z.max 1 (Py.len (seq 0 45) / 20)) (seq 0 45)) ≤ 39.
Proof.
  apply (sample_bounds (seq 0 45)). vm_compute. discriminate.
Defined.

(** ** The icon generator *)

Lemma length_append (a b : string) :
  String.length (a +:+ b) = (String.length a + String.length b)%nat.
Proof.
  induction a as [|x a IH]; [done|].
  change (S (String.length (a +:+ b)) = S (String.length a + String.length b)).
  by rewrite IH.
Qed.

Lemma append_cancel_r (t : string) : ∀ a b, a +:+ t = b +:+ t → a = b.
Proof.
  induction a as [|x a IH]; intros [|y b] H.
  - done.
  - apply (f_equal String.length) in H. rewrite !length_append in H.
    cbn [String.length] in H. lia.
  - apply (f_equal String.length) in H. rewrite !length_append in H.
    cbn [String.length] in H. lia.
  - change (String x (a +:+ t) = String y (b +:+ t)) in H.
    injection H as -> H. by rewrite (IH b H).
Qed.

Lemma pretty_N_go_app (x : N) : ∀ s r,
  pretty_N_go x s +:+ r = pretty_N_go x (s +:+ r).
Proof.
  induction (N.lt_wf_0 x) as [x _ IH]; intros s r.
  assert (x = 0 ∨ 0 < x)%N as [->|?] by lia.
  - by rewrite !pretty_N_go_0.
  - rewrite (pretty_N_go_step x s), (pretty_N_go_step x (s +:+ r)) by done.
    by rewrite IH by by apply N.div_lt.
Qed.

Lemma pretty_N_go_ne_m (x : N) : ∀ s s',
  s ≠ "m" +:+ s' → pretty_N_go x s ≠ "m" +:+ s'.
Proof.
  induction (N.lt_wf_0 x) as [x _ IH]; intros s s' Hs.
  assert (x = 0 ∨ 0 < x)%N as [->|?] by lia.
  - by rewrite pretty_N_go_0.
  - rewrite pretty_N_go_step by done. apply IH; [by apply N.div_lt|].
    unfold pretty_N_char. by repeat case_match.
Qed.

Lemma str_int_not_m (n : Z) (r s' : string) :
  r ≠ "m" +:+ s' → Py.str_int n +:+ r ≠ "m" +:+ s'.
Proof.
  intros Hr. unfold Py.str_int, pretty, pretty_Z. destruct n as [|p|p].
  - discriminate.
  - unfold pretty, pretty_positive, pretty, pretty_N.
    destruct (decide _); [discriminate|].
    rewrite pretty_N_go_app. by apply pretty_N_go_ne_m.
  - discriminate.
Qed.

Lemma icon_filename_injective (size1 size2 : Z) (m1 m2 : bool) :
  Icons.icon_filename size1 m1 = Icons.icon_filename size2 m2 →
  size1 = size2 ∧ m1 = m2.
Proof.
  unfold Icons.icon_filename. cbv zeta. intros H.
  apply (inj (String.append "Icon")) in H.
  destruct m1, m2.
  - apply (inj (String.append "-maskable")), (inj (String.append "-")) in H.
    apply append_cancel_r in H. split; [|done].
    by apply (inj (pretty : Z → string)).
  - exfalso. apply (inj (String.append "-")) in H.
    symmetry in H. by apply str_int_not_m in H.
  - exfalso. apply (inj (String.append "-")) in H.
    by apply str_int_not_m in H.
  - apply (inj (String.append "-")) in H.
    apply append_cancel_r in H. split; [|done].
    by apply (inj (pretty : Z → string)).
Qed.

(** X12. Two icons share a file name only when they have the same size and
    the same kind: no icon of a run replaces another. *)
Theorem icon_files_distinct (PROJECT_ROOT : Path) (size1 size2 : Z)
    (maskable1 maskable2 : bool) :
  Icons.WEB_ICONS_DIR PROJECT_ROOT // Icons.icon_filename size1 maskable1
  = Icons.WEB_ICONS_DIR PROJECT_ROOT // Icons.icon_filename size2 maskable2 →
  size1 = size2 ∧ maskable1 = maskable2.
Proof. intros H%FsFacts.joinpath_inj. by apply icon_filename_injective. Qed.

Lemma icon_files_distinct_witness :
  (192 : Z) = 192 ∧ true = true.
Proof.
  apply (icon_files_distinct Sample.PROJECT_ROOT 192 192 true true). reflexivity.
Defined.

Lemma place_logo_total (background logo : Picture.image) (size : Z)
    (is_maskable : bool) :
  In (size, is_maskable) Icons.configurations →
  1 ≤ Picture.width logo →
  1 ≤ Picture.height logo →
  ∃ final, Icons.place_logo background logo size is_maskable = Ok final
           ∧ Picture.canvas final = background.
Proof.
  intros Hconf Hw Hh.
  pose proof (IconsFacts.logo_size_configurations size is_maskable Hconf) as Hbox.
  set (box := size * (if is_maskable then 60 else 80) / 100) in *.
  assert (1 ≤ box) as Hbox1.
  { unfold box. simpl in Hconf.
    destruct Hconf as [H|[H|[H|[H|[]]]]]; inversion H; subst; by cbv. }
  destruct (decide (Picture.width logo ≤ box ∧ Picture.height logo ≤ box))
    as [[Hfw Hfh]|Hbig].
  - rewrite (IconsFacts.place_logo_eq background logo size is_maskable box
               (Picture.width logo) (Picture.height logo) Hbox)
      by by apply PILFacts.thumbnail_size_fits.
    by eexists.
  - destruct (PILFacts.thumbnail_size_shrinks box box logo)
      as (w1 & h1 & Hthumb & _); try done.
    rewrite (IconsFacts.place_logo_eq background logo size is_maskable box
               w1 h1 Hbox Hthumb).
    by eexists.
Qed.

Lemma not_dir_insert_file (s : gmap Path node) (p q : Path) (c : content) :
  not_dir s q = true → not_dir (<[p := File c]> s) q = true.
Proof.
  unfold not_dir. intros H. destruct (decide (p = q)) as [->|Hne].
  - by rewrite lookup_insert_eq.
  - by rewrite lookup_insert_ne.
Qed.

Lemma create_pwa_icon_outcome (PROJECT_ROOT : Path)
    (Image_open : Path → result Picture.image) (background logo : Picture.image)
    (c : Z * bool) (w : world) :
  Image_open (Icons.BACKGROUND_PATH PROJECT_ROOT) = Ok background →
  Image_open (Icons.LOGO_PATH PROJECT_ROOT) = Ok logo →
  1 ≤ Picture.width logo →
  1 ≤ Picture.height logo →
  In c Icons.configurations →
  writable (fs w) (icon_path PROJECT_ROOT c) = true →
  ∃ final w',
    Icons.create_pwa_icon PROJECT_ROOT Image_open (fst c) (snd c) w
    = (Ok (icon_path PROJECT_ROOT c), w')
    ∧ drawn logo c final
    ∧ fs w' = <[icon_path PROJECT_ROOT c := File (PngDoc final)]> (fs w)
    ∧ length (stdout w') = S (length (stdout w)).
Proof.
  intros background_opens logo_opens logo_wide logo_high Hc Hw.
  destruct c as [size is_maskable]. cbn [fst snd] in *.
  destruct (place_logo_total {| Picture.width := size; Picture.height := size |}
              logo size is_maskable Hc logo_wide logo_high) as (final & Hplace & _).
  assert (0 < size) as Hsize.
  { simpl in Hc. destruct Hc as [H|[H|[H|[H|[]]]]]; inversion H; subst; by cbv. }
  exists final.
  cut (wp (Icons.create_pwa_icon PROJECT_ROOT Image_open size is_maskable) w
         (λ r w', r = Ok (icon_path PROJECT_ROOT (size, is_maskable))
                  ∧ drawn logo (size, is_maskable) final
                  ∧ fs w' = <[icon_path PROJECT_ROOT (size, is_maskable) :=
                                File (PngDoc final)]> (fs w)
                  ∧ length (stdout w') = S (length (stdout w)))).
  { intros (r & w' & Hrun & -> & H)%wp_elim. exists w'. exact (conj Hrun H). }
  unfold Icons.create_pwa_icon.
  apply wp_bind, wp_lift. rewrite background_opens. cbv beta iota.
  apply wp_bind, wp_lift. unfold PIL.resize. cbn [fst snd].
  assert ((0 <? size) = true) as -> by lia. cbn [andb]. cbv beta iota.
  apply wp_bind, wp_lift. rewrite logo_opens. cbv beta iota.
  apply wp_bind, wp_lift. rewrite Hplace. cbv beta iota zeta.
  apply wp_bind, wp_write_file; [done|]. cbv beta iota.
  apply wp_bind, wp_print. cbv beta iota. apply wp_ret.
  split; [done|]. split; [done|]. split; [done|].
  cbn [stdout printed set_fs]. rewrite length_app. simpl. lia.
Qed.

Lemma icons_loop (PROJECT_ROOT : Path)
    (Image_open : Path → result Picture.image) (background logo : Picture.image)
    (configs : list (Z * bool)) :
  Image_open (Icons.BACKGROUND_PATH PROJECT_ROOT) = Ok background →
  Image_open (Icons.LOGO_PATH PROJECT_ROOT) = Ok logo →
  1 ≤ Picture.width logo →
  1 ≤ Picture.height logo →
  ∀ w,
  Forall (λ c, In c Icons.configurations) configs →
  dir_exists (fs w) (Icons.WEB_ICONS_DIR PROJECT_ROOT) = true →
  Forall (λ c, not_dir (fs w) (icon_path PROJECT_ROOT c) = true) configs →
  ∃ w',
    for_each configs
      (λ c, Icons.create_pwa_icon PROJECT_ROOT Image_open (fst c) (snd c);; mret tt) w
    = (Ok tt, w')
    ∧ dir_exists (fs w') (Icons.WEB_ICONS_DIR PROJECT_ROOT) = true
    ∧ (∀ c, In c configs →
            ∃ final, fs w' !! icon_path PROJECT_ROOT c = Some (File (PngDoc final))
                     ∧ drawn logo c final)
    ∧ (∀ q, (∀ c, In c configs → q ≠ icon_path PROJECT_ROOT c) →
            fs w' !! q = fs w !! q)
    ∧ length (stdout w') = (length (stdout w) + length configs)%nat.
Proof.
  intros background_opens logo_opens logo_wide logo_high.
  induction configs as [|c cs IH]; intros w Hall Hdir Hfree.
  - exists w. cbn [for_each length]. split; [done|]. split; [done|].
    split; [by intros c []|]. split; [done|lia].
  - apply Forall_cons in Hall as [Hc Hall]. apply Forall_cons in Hfree as [Hfc Hfree].
    destruct (create_pwa_icon_outcome PROJECT_ROOT Image_open background logo c w
                background_opens logo_opens logo_wide logo_high Hc)
      as (final & w1 & Hrun & Hdrawn & Hfs1 & Hout1).
    { unfold writable, icon_path. by rewrite parent_joinpath, Hdir. }
    destruct (IH w1 Hall) as (w' & Hloop & Hdir' & Hfiles & Hframe & Hout).
    { rewrite Hfs1.
      by rewrite FsFacts.dir_exists_insert_file by apply FsFacts.joinpath_ne_self. }
    { rewrite Hfs1. eapply Forall_impl; [exact Hfree|].
      intros c' Hc'. by apply not_dir_insert_file. }
    exists w'. split; [|split; [done|split; [|split]]].
    + cbn [for_each]. unfold bind at 1. unfold mbind, M_bind, bind at 1.
      rewrite Hrun. unfold mret, M_ret, ret. exact Hloop.
    + intros c' [<-|Hc'].
      * destruct (decide (c ∈ cs)) as [Hin%list_elem_of_In|Hout'];
          [by apply Hfiles|].
        exists final. split; [|done]. rewrite Hframe.
        -- by rewrite Hfs1, lookup_insert_eq.
        -- intros c' Hc' Heq. apply Hout', list_elem_of_In.
           apply FsFacts.joinpath_inj, icon_filename_injective in Heq as [H1 H2].
           destruct c, c'. cbn [fst snd] in *. by subst.
      * by apply Hfiles.
    + intros q Hq. rewrite Hframe by (intros c' Hc'; apply Hq; by right).
      rewrite Hfs1. apply lookup_insert_ne. intros <-.
      exact (Hq c (or_introl eq_refl) eq_refl).
    + rewrite Hout, Hout1. cbn [length]. lia.
Qed.

(** X13. With both assets readable and nothing of the wrong kind in the way,
    [main] of the icon generator completes: the icon directory exists, each
    of the four configurations has its file, an image on a canvas of the
    configuration's size composed as [create_pwa_icon] composes it; no
    other entry changes, apart from the ancestors of the icon directory;
    and ten lines are printed. *)
Theorem icons_main_run (PROJECT_ROOT : Path)
    (Image_open : Path → result Picture.image) (background logo : Picture.image)
    (w : world) :
  Image_open (Icons.BACKGROUND_PATH PROJECT_ROOT) = Ok background →
  Image_open (Icons.LOGO_PATH PROJECT_ROOT) = Ok logo →
  1 ≤ Picture.width logo →
  1 ≤ Picture.height logo →
  icons_ready PROJECT_ROOT (fs w) = true →
  ∃ w',
    Icons.main PROJECT_ROOT Image_open w = (Ok tt, w')
    ∧ dir_exists (fs w') (Icons.WEB_ICONS_DIR PROJECT_ROOT) = true
    ∧ (∀ c, In c Icons.configurations →
            ∃ final,
              fs w' !! icon_path PROJECT_ROOT c = Some (File (PngDoc final))
              ∧ drawn logo c final
              ∧ Picture.canvas final
                = {| Picture.width := fst c; Picture.height := fst c |})
    ∧ (∀ q, ¬ q `prefix_of` Icons.WEB_ICONS_DIR PROJECT_ROOT →
            (∀ c, In c Icons.configurations → q ≠ icon_path PROJECT_ROOT c) →
            fs w' !! q = fs w !! q)
    ∧ length (stdout w') = (length (stdout w) + 10)%nat.
Proof.
  intros Hbg Hlogo Hw Hh Hready. unfold icons_ready in Hready.
  apply andb_prop in Hready as [Hnf Hfree].
  apply wp_completes. unfold Icons.main.
  apply wp_bind, FramesRun.wp_mkdir_parents; [done|]. cbv beta iota.
  apply wp_bind, wp_print. cbv beta iota. apply wp_bind.
  match goal with |- wp _ ?W _ =>
    destruct (icons_loop PROJECT_ROOT Image_open background logo
                Icons.configurations Hbg Hlogo Hw Hh W)
      as (w1 & Hloop & Hdir & Hfiles & Hframe & Hout)
  end.
  { apply Forall_forall. intros c Hc. by apply list_elem_of_In. }
  { cbn [fs printed set_fs]. apply FsFacts.dir_exists_with_dirs. }
  { cbn [fs printed set_fs]. apply Forall_forall. intros c Hc%list_elem_of_In.
    eapply forallb_forall in Hfree; [|exact Hc].
    unfold not_dir, icon_path in *. by rewrite FsFacts.with_dirs_lookup_child. }
  eapply wp_run; [exact Hloop|]. cbv beta iota.
  cbn [fs printed set_fs stdout] in Hframe, Hout.
  repeat (apply wp_bind, wp_print; cbv beta iota). apply wp_print.
  split; [done|]. cbn [fs printed stdout]. split; [done|]. split; [|split].
  - intros c Hc. destruct (Hfiles c Hc) as (final & Hfile & Hdrawn).
    exists final. split; [done|]. split; [done|].
    destruct (place_logo_total
                {| Picture.width := fst c; Picture.height := fst c |}
                logo (fst c) (snd c)) as (final' & Hplace & Hcanvas); try done.
    { by destruct c. }
    unfold drawn in Hdrawn. rewrite Hplace in Hdrawn. by injection Hdrawn as <-.
  - intros q Hq1 Hq2. rewrite Hframe by done.
    rewrite FsFacts.with_dirs_lookup. destruct (decide _) as [[Hin _]|]; [|done].
    exfalso. apply Hq1. by apply (prefixes_from_prefix _ []).
  - rewrite !length_app, Hout, length_app. simpl. lia.
Qed.

Lemma icons_main_run_witness :
  ∃ w' final,
    Icons.main Sample.PROJECT_ROOT Sample.Image_open Sample.w0 = (Ok tt, w')
    ∧ fs w' !! (Icons.WEB_ICONS_DIR Sample.PROJECT_ROOT // "Icon-maskable-192.png")
      = Some (File (PngDoc final)).
Proof.
  destruct (icons_main_run Sample.PROJECT_ROOT Sample.Image_open
              {| Picture.width := 1024; Picture.height := 1024 |}
              {| Picture.width := 1000; Picture.height := 333 |} Sample.w0)
    as (w' & Hrun & _ & Hfiles & _).
  - reflexivity.
  - reflexivity.
  - simpl; lia.
  - simpl; lia.
  - vm_compute; reflexivity.
  - destruct (Hfiles (192, true)) as (final & Hfile & _).
    + simpl. tauto.
    + exists w', final. split; [exact Hrun | exact Hfile].
Defined.

(** X14. The icon generator has no handler of its own: when the background or
    the logo cannot be opened, [main] ends with that error right after
    its first line, having made the icon directory and written nothing
    into it. *)
Theorem icons_main_missing_asset (PROJECT_ROOT : Path)
    (Image_open : Path → result Picture.image) (e : exn) (w : world) :
  no_file_on (fs w) (Icons.WEB_ICONS_DIR PROJECT_ROOT) = true →
  (Image_open (Icons.BACKGROUND_PATH PROJECT_ROOT) = Raise e
   ∨ ∃ background,
       Image_open (Icons.BACKGROUND_PATH PROJECT_ROOT) = Ok background
       ∧ Image_open (Icons.LOGO_PATH PROJECT_ROOT) = Raise e) →
  ∃ w',
    Icons.main PROJECT_ROOT Image_open w = (Raise e, w')
    ∧ dir_exists (fs w') (Icons.WEB_ICONS_DIR PROJECT_ROOT) = true
    ∧ (∀ name, fs w' !! (Icons.WEB_ICONS_DIR PROJECT_ROOT // name)
               = fs w !! (Icons.WEB_ICONS_DIR PROJECT_ROOT // name))
    ∧ length (stdout w') = S (length (stdout w)).
Proof.
  intros Hnf Hopen.
  cut (wp (Icons.main PROJECT_ROOT Image_open) w (λ r w',
         r = Raise e
         ∧ dir_exists (fs w') (Icons.WEB_ICONS_DIR PROJECT_ROOT) = true
         ∧ (∀ name, fs w' !! (Icons.WEB_ICONS_DIR PROJECT_ROOT // name)
                    = fs w !! (Icons.WEB_ICONS_DIR PROJECT_ROOT // name))
         ∧ length (stdout w') = S (length (stdout w)))).
  { intros (r & w' & Hrun & -> & H)%wp_elim. exists w'. exact (conj Hrun H). }
  unfold Icons.main.
  apply wp_bind, FramesRun.wp_mkdir_parents; [done|]. cbv beta iota.
  apply wp_bind, wp_print. cbv beta iota. apply wp_bind.
  unfold Icons.configurations. cbn [for_each].
  apply (wp_bind (A:=unit) (B:=unit)). apply wp_bind. cbn [fst snd].
  unfold Icons.create_pwa_icon. apply wp_bind, wp_lift.
  assert (∀ w0 : world,
    w0 = printed ("🎨 Generating PWA icons with gradient background..." +:+ nl)
           (set_fs (with_dirs (Icons.WEB_ICONS_DIR PROJECT_ROOT) (fs w)) w) →
    dir_exists (fs w0) (Icons.WEB_ICONS_DIR PROJECT_ROOT) = true
    ∧ (∀ name, fs w0 !! (Icons.WEB_ICONS_DIR PROJECT_ROOT // name)
               = fs w !! (Icons.WEB_ICONS_DIR PROJECT_ROOT // name))
    ∧ length (stdout w0) = S (length (stdout w))) as Hworld.
  { intros w0 ->. cbn [fs stdout printed set_fs].
    split; [apply FsFacts.dir_exists_with_dirs|].
    split; [intros name; apply FsFacts.with_dirs_lookup_child|].
    rewrite length_app. simpl. lia. }
  destruct Hopen as [->|(background & -> & Hlogo)]; cbv beta iota.
  - split; [done|]. by apply Hworld.
  - apply wp_bind, wp_lift. unfold PIL.resize. cbn [fst snd andb Z.ltb Z.compare].
    cbv beta iota. apply wp_bind, wp_lift. rewrite Hlogo. cbv beta iota.
    split; [done|]. by apply Hworld.
Qed.

Lemma icons_main_missing_asset_witness :
  ∃ w' message,
    Icons.main Sample.PROJECT_ROOT Scenario.Image_open_no_logo Sample.w0
    = (Raise (Error "FileNotFoundError" message), w')
    ∧ length (stdout w') = 1%nat.
Proof.
  destruct (icons_main_missing_asset Sample.PROJECT_ROOT Scenario.Image_open_no_logo
              (Error "FileNotFoundError"
                 (PathLib.str (Icons.LOGO_PATH Sample.PROJECT_ROOT))) Sample.w0)
    as (w' & Hrun & _ & _ & Hout).
  - vm_compute; reflexivity.
  - right. eexists. split; reflexivity.
  - exists w'. eexists. split; [exact Hrun | exact Hout].
Defined.
